(** * MRNASA dashboard: layer registry, placement store and result rendering

    A shallow embedding of the dashboard script (the file that declares
    [map], [drawnLayers], [selectedPoints], [heatLayer], [activeLayers] and
    [currentDate]) and the properties of its date-driven layer rebuild, its
    analysis run and its result rendering.

    Modelling conventions.
    - The free-standing script variables and the parts of the page the script
      touches are one [State] record that every function threads.
    - A JavaScript function is a computation [JS A]: it takes the state and
      returns a completion (normal with a value, or a thrown exception)
      together with the state reached.  Mutations made before a throw stay.
    - Numbers (coordinates, scores, temperatures) are exact rationals [Q];
      [toFixed] only formats for display and is not modelled, so a rendered
      row or popup carries the number itself.
    - A Leaflet layer object carries its own attachment to the map
      ([tl_onMap], [hl_onMap]): [map.hasLayer] reads it, [addTo] and
      [map.removeLayer] write it.
    - The state is the one reached once [initMap] has created the map, the
      group of placed structures and the heat group; [activeLayers] may
      still be empty (nothing registered yet).
    - Page elements are optional, as every [getElementById] result is
      guarded in the script.
    - [console.log] lines are informational and left out; [console.warn] and
      [console.error] are recorded, and so are the alerts shown and the
      requests sent.
    - An analysis run is one step: the scoring service is a function from
      the payload to what [fetch] and [response.json()] deliver, and no
      other handler runs while the run awaits. *)

From Stdlib Require Import QArith Lqa Ascii String.
From stdpp Require Import gmap strings list fin_maps.

Local Open Scope string_scope.
Local Open Scope list_scope.

(** ** Data *)

(** An entry of [GIBS_CONFIG.layers]. *)
Record LayerConfig := {
  name : string;
  tileMatrixSet : string;
  maxZoom : Z;
  attribution : string;
  opacity : Q
}.

(** The object returned by [L.tileLayer(url, options)], with its attachment
    to the map. *)
Record TileLayer := {
  tl_url : string;
  tl_maxZoom : Z;
  tl_attribution : string;
  tl_opacity : Q;
  tl_onMap : bool
}.

(** A draggable marker held by [drawnLayers]. *)
Record Marker := {
  mk_lat : Q;
  mk_lng : Q;
  mk_structureType : string
}.

(** An element of [selectedPoints]; [sp_marker] is the layer id of the
    marker the point was read from. *)
Record SelectedPoint := {
  sp_marker : nat;
  sp_lat : Q;
  sp_lon : Q;
  sp_type : string
}.

Record PowerSummary := {
  mean_temp : option Q;
  mean_precip : option Q;
  n_days : option Z
}.

(** One element of [data.results]. *)
Record AnalysisResult := {
  r_lat : Q;
  r_lon : Q;
  r_score : Q;
  r_ndvi : Q;
  r_population : Q;
  power_summary : option PowerSummary
}.

(** One point of the request payload. *)
Record PayloadPoint := {
  pp_lat : Q;
  pp_lon : Q;
  pp_type : string;
  pp_ndvi : Q;
  pp_population : Q;
  pp_road_km : Q;
  pp_water_km : Q
}.

Record Payload := {
  points : list PayloadPoint;
  p_start : string;
  p_end : string
}.

(** The circle added to [heatLayer] for one result: position, fill colour
    and the two numbers of its popup. *)
Record CircleMarker := {
  cm_lat : Q;
  cm_lon : Q;
  cm_fillColor : string;
  cm_popupTemp : Q;
  cm_popupScore : Q
}.

Record HeatLayer := {
  hl_layers : list CircleMarker;
  hl_onMap : bool
}.

(** One [div.rec] appended to the results container. *)
Record Row := {
  row_structureType : string;
  row_title : string;
  row_number : nat;
  row_scoreColor : string;
  row_score : Q;
  row_lat : Q;
  row_lon : Q;
  row_temp : option Q;
  row_precip : option Q;
  row_detailIndex : nat
}.

(** The content written into [#rec-body]. *)
Record Detail := {
  d_title : string;
  d_structureType : string;
  d_scoreColor : string;
  d_score : Q;
  d_lat : Q;
  d_lon : Q;
  d_meanTemp : option Q;
  d_meanPrecip : option Q;
  d_nDays : option Z;
  d_ndvi : Q;
  d_population : Q;
  d_recommendation : string
}.

(** The content of [#recommendations]: the heading and the rows. *)
Record Container := {
  c_heading : bool;
  c_rows : list Row
}.

(** The page elements the script reads and writes; [None] is an element
    that [getElementById] does not find. *)
Record Dom := {
  recommendations : option Container;
  loading : option bool;
  layer_heatmap : option bool;
  start_date : option string;
  end_date : option string;
  rec_modal : option bool;
  rec_body : option (option Detail)
}.

Inductive Exn :=
| TileLayerError (url : string)
| ServerReturned (status : Z) (statusText : string)
| ErrorMessage (msg : string)
| FetchRejected (msg : string)
| JsonSyntaxError (msg : string).

Inductive AlertBox :=
| AlertText (msg : string)
| AlertAnalysisFailed (e : Exn).

Inductive ConsoleEntry :=
| ConsoleWarn (msg : string)
| ConsoleError (msg : string) (e : Exn).

(** What [fetch] and then [response.json()] can deliver. *)
Record ResponseData := {
  data_error : option string;
  data_results : option (list AnalysisResult)
}.

Inductive ResponseBody :=
| BodyMalformed (msg : string)
| BodyJson (data : ResponseData).

Inductive FetchOutcome :=
| FetchFails (msg : string)
| FetchResponse (status : Z) (statusText : string) (body : ResponseBody).

Record State := {
  drawnLayers : list (nat * Marker);
  nextLayerId : nat;
  selectedPoints : list SelectedPoint;
  heatLayer : HeatLayer;
  activeLayers : gmap string TileLayer;
  currentDate : option string;
  analysisResults : option (list AnalysisResult);
  dom : Dom;
  console : list ConsoleEntry;
  alerts : list AlertBox;
  requests : list Payload
}.

(** *** Field updates *)

Definition set_drawnLayers (f : list (nat * Marker) -> list (nat * Marker)) (s : State) : State :=
  {| drawnLayers := f (drawnLayers s); nextLayerId := nextLayerId s;
     selectedPoints := selectedPoints s; heatLayer := heatLayer s;
     activeLayers := activeLayers s; currentDate := currentDate s;
     analysisResults := analysisResults s; dom := dom s;
     console := console s; alerts := alerts s; requests := requests s |}.

Definition set_nextLayerId (f : nat -> nat) (s : State) : State :=
  {| drawnLayers := drawnLayers s; nextLayerId := f (nextLayerId s);
     selectedPoints := selectedPoints s; heatLayer := heatLayer s;
     activeLayers := activeLayers s; currentDate := currentDate s;
     analysisResults := analysisResults s; dom := dom s;
     console := console s; alerts := alerts s; requests := requests s |}.

Definition set_selectedPoints (f : list SelectedPoint -> list SelectedPoint) (s : State) : State :=
  {| drawnLayers := drawnLayers s; nextLayerId := nextLayerId s;
     selectedPoints := f (selectedPoints s); heatLayer := heatLayer s;
     activeLayers := activeLayers s; currentDate := currentDate s;
     analysisResults := analysisResults s; dom := dom s;
     console := console s; alerts := alerts s; requests := requests s |}.

Definition set_heatLayer (f : HeatLayer -> HeatLayer) (s : State) : State :=
  {| drawnLayers := drawnLayers s; nextLayerId := nextLayerId s;
     selectedPoints := selectedPoints s; heatLayer := f (heatLayer s);
     activeLayers := activeLayers s; currentDate := currentDate s;
     analysisResults := analysisResults s; dom := dom s;
     console := console s; alerts := alerts s; requests := requests s |}.

Definition set_activeLayers (f : gmap string TileLayer -> gmap string TileLayer) (s : State) : State :=
  {| drawnLayers := drawnLayers s; nextLayerId := nextLayerId s;
     selectedPoints := selectedPoints s; heatLayer := heatLayer s;
     activeLayers := f (activeLayers s); currentDate := currentDate s;
     analysisResults := analysisResults s; dom := dom s;
     console := console s; alerts := alerts s; requests := requests s |}.

Definition set_currentDate (d : option string) (s : State) : State :=
  {| drawnLayers := drawnLayers s; nextLayerId := nextLayerId s;
     selectedPoints := selectedPoints s; heatLayer := heatLayer s;
     activeLayers := activeLayers s; currentDate := d;
     analysisResults := analysisResults s; dom := dom s;
     console := console s; alerts := alerts s; requests := requests s |}.

Definition set_analysisResults (r : option (list AnalysisResult)) (s : State) : State :=
  {| drawnLayers := drawnLayers s; nextLayerId := nextLayerId s;
     selectedPoints := selectedPoints s; heatLayer := heatLayer s;
     activeLayers := activeLayers s; currentDate := currentDate s;
     analysisResults := r; dom := dom s;
     console := console s; alerts := alerts s; requests := requests s |}.

Definition set_dom (f : Dom -> Dom) (s : State) : State :=
  {| drawnLayers := drawnLayers s; nextLayerId := nextLayerId s;
     selectedPoints := selectedPoints s; heatLayer := heatLayer s;
     activeLayers := activeLayers s; currentDate := currentDate s;
     analysisResults := analysisResults s; dom := f (dom s);
     console := console s; alerts := alerts s; requests := requests s |}.

Definition set_console (f : list ConsoleEntry -> list ConsoleEntry) (s : State) : State :=
  {| drawnLayers := drawnLayers s; nextLayerId := nextLayerId s;
     selectedPoints := selectedPoints s; heatLayer := heatLayer s;
     activeLayers := activeLayers s; currentDate := currentDate s;
     analysisResults := analysisResults s; dom := dom s;
     console := f (console s); alerts := alerts s; requests := requests s |}.

Definition set_alerts (f : list AlertBox -> list AlertBox) (s : State) : State :=
  {| drawnLayers := drawnLayers s; nextLayerId := nextLayerId s;
     selectedPoints := selectedPoints s; heatLayer := heatLayer s;
     activeLayers := activeLayers s; currentDate := currentDate s;
     analysisResults := analysisResults s; dom := dom s;
     console := console s; alerts := f (alerts s); requests := requests s |}.

Definition set_requests (f : list Payload -> list Payload) (s : State) : State :=
  {| drawnLayers := drawnLayers s; nextLayerId := nextLayerId s;
     selectedPoints := selectedPoints s; heatLayer := heatLayer s;
     activeLayers := activeLayers s; currentDate := currentDate s;
     analysisResults := analysisResults s; dom := dom s;
     console := console s; alerts := alerts s; requests := f (requests s) |}.

Definition set_recommendations (c : option Container) (d : Dom) : Dom :=
  {| recommendations := c; loading := loading d;
     layer_heatmap := layer_heatmap d; start_date := start_date d;
     end_date := end_date d; rec_modal := rec_modal d; rec_body := rec_body d |}.

Definition set_loading (l : option bool) (d : Dom) : Dom :=
  {| recommendations := recommendations d; loading := l;
     layer_heatmap := layer_heatmap d; start_date := start_date d;
     end_date := end_date d; rec_modal := rec_modal d; rec_body := rec_body d |}.

Definition set_layer_heatmap (c : option bool) (d : Dom) : Dom :=
  {| recommendations := recommendations d; loading := loading d;
     layer_heatmap := c; start_date := start_date d;
     end_date := end_date d; rec_modal := rec_modal d; rec_body := rec_body d |}.

Definition set_rec_modal (m : option bool) (d : Dom) : Dom :=
  {| recommendations := recommendations d; loading := loading d;
     layer_heatmap := layer_heatmap d; start_date := start_date d;
     end_date := end_date d; rec_modal := m; rec_body := rec_body d |}.

Definition set_rec_body (b : option (option Detail)) (d : Dom) : Dom :=
  {| recommendations := recommendations d; loading := loading d;
     layer_heatmap := layer_heatmap d; start_date := start_date d;
     end_date := end_date d; rec_modal := rec_modal d; rec_body := b |}.

(** ** Computations with state and exceptions *)

Inductive Completion (A : Type) :=
| Normal (a : A)
| Throw (e : Exn).
Arguments Normal {A} a.
Arguments Throw {A} e.

Definition JS (A : Type) : Type := State -> Completion A * State.

Definition js_ret {A} (a : A) : JS A := fun s => (Normal a, s).

Definition js_bind {A B} (k : A -> JS B) (m : JS A) : JS B :=
  fun s => match m s with
           | (Normal a, s') => k a s'
           | (Throw e, s') => (Throw e, s')
           end.

#[global] Instance JS_ret : MRet JS := @js_ret.
#[global] Instance JS_bind : MBind JS := @js_bind.

Definition throw {A} (e : Exn) : JS A := fun s => (Throw e, s).

Definition get : JS State := fun s => (Normal s, s).

Definition modify (f : State -> State) : JS unit := fun s => (Normal tt, f s).

(** [try { body } catch (error) { handler }] *)
Definition try_catch {A} (body : JS A) (handler : Exn -> JS A) : JS A :=
  fun s => match body s with
           | (Normal a, s') => (Normal a, s')
           | (Throw e, s') => handler e s'
           end.

(** [try { body } finally { final }]: the finaliser runs on both exits and
    the completion of the body is kept unless the finaliser throws. *)
Definition try_finally {A} (body : JS A) (final : JS unit) : JS A :=
  fun s => match body s with
           | (c, s') => match final s' with
                        | (Normal _, s'') => (c, s'')
                        | (Throw e, s'') => (Throw e, s'')
                        end
           end.

Definition when (b : bool) (m : JS unit) : JS unit := if b then m else mret tt.

Definition console_warn (msg : string) : JS unit :=
  modify (set_console (fun l => l ++ [ConsoleWarn msg])).

Definition console_error (msg : string) (e : Exn) : JS unit :=
  modify (set_console (fun l => l ++ [ConsoleError msg e])).

Definition alert (a : AlertBox) : JS unit :=
  modify (set_alerts (fun l => l ++ [a])).

(** The state a computation reaches and how it completes. *)
Definition exec {A} (m : JS A) (s : State) : State := snd (m s).

Definition completion {A} (m : JS A) (s : State) : Completion A := fst (m s).

(** ** Imagery layers *)

Module Gibs.

Definition baseUrl : string := "https://gibs.earthdata.nasa.gov/wmts/epsg4326/best/".

Definition temperature : LayerConfig :=
  {| name := "MODIS_Terra_Land_Surface_Temp_Day";
     tileMatrixSet := "EPSG4326_2km";
     maxZoom := 7;
     attribution := "NASA GIBS MODIS LST";
     opacity := 65 # 100 |}.

Definition nightLights : LayerConfig :=
  {| name := "VIIRS_SNPP_DayNightBand_ENCC";
     tileMatrixSet := "EPSG4326_500m";
     maxZoom := 8;
     attribution := "NASA GIBS VIIRS Night Lights";
     opacity := 8 # 10 |}.

Definition vegetation : LayerConfig :=
  {| name := "MODIS_Terra_NDVI_8Day";
     tileMatrixSet := "EPSG4326_1km";
     maxZoom := 8;
     attribution := "NASA GIBS MODIS NDVI";
     opacity := 7 # 10 |}.

(** The keys of [GIBS_CONFIG.layers], in the order the script handles them. *)
Definition layers : list (string * LayerConfig) :=
  [("temperature", temperature); ("nightLights", nightLights);
   ("vegetation", vegetation)].

End Gibs.

Definition createGIBSTileUrl (layerConfig : LayerConfig) (date : string) : string :=
  Gibs.baseUrl +:+ name layerConfig +:+ "/default/" +:+ date +:+ "/"
    +:+ tileMatrixSet layerConfig +:+ "/{z}/{y}/{x}.png".

(** How a template literal prints [currentDate], which starts as [null]. *)
Definition date_text (d : option string) : string := default "null" d.

Definition addTo_map (l : TileLayer) : TileLayer :=
  {| tl_url := tl_url l; tl_maxZoom := tl_maxZoom l;
     tl_attribution := tl_attribution l; tl_opacity := tl_opacity l;
     tl_onMap := true |}.

Definition removeLayer_map (l : TileLayer) : TileLayer :=
  {| tl_url := tl_url l; tl_maxZoom := tl_maxZoom l;
     tl_attribution := tl_attribution l; tl_opacity := tl_opacity l;
     tl_onMap := false |}.

Section LayerRegistry.

(** The map engine: whether [L.tileLayer] throws for a tile URL. *)
Variable tileLayerThrows : string -> bool.

(** [L.tileLayer(createGIBSTileUrl(cfg, date), {maxZoom, attribution, opacity})] *)
Definition L_tileLayer (cfg : LayerConfig) (date : string) : JS TileLayer :=
  let url := createGIBSTileUrl cfg date in
  if tileLayerThrows url then throw (TileLayerError url)
  else mret {| tl_url := url; tl_maxZoom := maxZoom cfg;
               tl_attribution := attribution cfg; tl_opacity := opacity cfg;
               tl_onMap := false |}.

Definition initializeGIBSLayers : JS unit :=
  try_catch
    (s ← get;
     let date := date_text (currentDate s) in
     t ← L_tileLayer Gibs.temperature date;
     modify (set_activeLayers (<["temperature" := addTo_map t]>));;
     n ← L_tileLayer Gibs.nightLights date;
     modify (set_activeLayers (<["nightLights" := n]>));;
     v ← L_tileLayer Gibs.vegetation date;
     modify (set_activeLayers (<["vegetation" := v]>)))
    (fun error => console_error "Error initializing GIBS layers:" error).

(** One [if (activeLayers.key) { ... }] block of [updateGIBSLayersWithDate]:
    the old layer object is taken off the map, the new one is built and
    stored, and it is added to the map when the old one was on it. *)
Definition rebuildLayer (key : string) (cfg : LayerConfig) (dateStr : string) : JS unit :=
  s ← get;
  match activeLayers s !! key with
  | Some old =>
      let wasActive := tl_onMap old in
      modify (set_activeLayers (<[key := removeLayer_map old]>));;
      new ← L_tileLayer cfg dateStr;
      modify (set_activeLayers (<[key := new]>));;
      when wasActive (modify (set_activeLayers (<[key := addTo_map new]>)))
  | None => mret tt
  end.

Definition updateGIBSLayersWithDate (dateStr : string) : JS unit :=
  try_catch
    (modify (set_currentDate (Some dateStr));;
     rebuildLayer "temperature" Gibs.temperature dateStr;;
     rebuildLayer "nightLights" Gibs.nightLights dateStr;;
     rebuildLayer "vegetation" Gibs.vegetation dateStr)
    (fun error => console_error "Error updating layers:" error).

End LayerRegistry.

(** The state before [initMap] has registered anything. *)
Definition emptyDom : Dom :=
  {| recommendations := None; loading := None; layer_heatmap := None;
     start_date := None; end_date := None; rec_modal := None;
     rec_body := None |}.

Definition initialState : State :=
  {| drawnLayers := []; nextLayerId := 0; selectedPoints := [];
     heatLayer := {| hl_layers := []; hl_onMap := false |};
     activeLayers := ∅; currentDate := None; analysisResults := None;
     dom := emptyDom; console := []; alerts := []; requests := [] |}.

(** ** JavaScript helpers *)

(** [a < b] on numbers. *)
Definition Qlt_bool (a b : Q) : bool := negb (Qle_bool b a).

(** A string used as a condition: only the empty string is falsy. *)
Definition truthy (s : string) : bool :=
  match s with
  | EmptyString => false
  | String _ _ => true
  end.

(** [c.toUpperCase()] on an ASCII character. *)
Definition toUpperCase (c : ascii) : ascii :=
  let n := nat_of_ascii c in
  if (97 <=? n)%nat && (n <=? 122)%nat then ascii_of_nat (n - 32) else c.

(** [t.charAt(0).toUpperCase() + t.slice(1)] *)
Definition capitalize (t : string) : string :=
  match t with
  | EmptyString => EmptyString
  | String c rest => String (toUpperCase c) rest
  end.

(** [v.replace(/-/g, '')] *)
Fixpoint removeDashes (v : string) : string :=
  match v with
  | EmptyString => EmptyString
  | String c rest =>
      if Ascii.eqb c "-"%char then removeDashes rest
      else String c (removeDashes rest)
  end.

(** [list.forEach((x, idx) => f(x, idx))], counting from [idx]. *)
Fixpoint forEachFrom {A} (idx : nat) (f : A -> nat -> JS unit) (l : list A) : JS unit :=
  match l with
  | [] => mret tt
  | x :: rest => f x idx;; forEachFrom (S idx) f rest
  end.

Definition forEach {A} (f : A -> nat -> JS unit) (l : list A) : JS unit :=
  forEachFrom 0 f l.

(** ** Placed structures *)

(** [placeStructure]: a new draggable marker joins [drawnLayers] with the
    next layer id. *)
Definition placeStructure (lat lng : Q) (structureType : string) : JS unit :=
  s ← get;
  let marker := {| mk_lat := lat; mk_lng := lng;
                   mk_structureType := structureType |} in
  modify (set_drawnLayers (fun l => l ++ [(nextLayerId s, marker)]));;
  modify (set_nextLayerId S).

(** [window.removeMarker] *)
Definition removeMarker (layerId : nat) : JS unit :=
  modify (set_drawnLayers
            (filter (fun entry => negb (Nat.eqb (fst entry) layerId)))).

(** [window.clearAllMarkers] *)
Definition clearAllMarkers : JS unit :=
  modify (set_drawnLayers (fun _ => []));;
  modify (set_selectedPoints (fun _ => []));;
  s ← get;
  when (bool_decide (is_Some (recommendations (dom s))))
       (modify (set_dom (set_recommendations
                           (Some {| c_heading := false; c_rows := [] |}))));;
  modify (set_heatLayer (fun h => {| hl_layers := []; hl_onMap := hl_onMap h |})).

(** The change handler that [setupLayerToggle] installs for the heat-map
    checkbox; the browser has already flipped the box to [checked]. *)
Definition heatToggle (checked : bool) : JS unit :=
  modify (set_dom (fun d => set_layer_heatmap ((fun _ => checked) <$> layer_heatmap d) d));;
  modify (set_heatLayer (fun h => {| hl_layers := hl_layers h; hl_onMap := checked |})).

(** The change handler that [setupLayerToggle] installs for [layerKey];
    the box it listens to is already flipped to [checked].  The key
    [analysisHeat] drives the heat group; every other key drives the
    imagery layer registered under it, and does nothing when there is none. *)
Definition layerToggle (layerKey : string) (checked : bool) : JS unit :=
  if String.eqb layerKey "analysisHeat" then heatToggle checked
  else
    s ← get;
    match activeLayers s !! layerKey with
    | None => mret tt
    | Some layer =>
        modify (set_activeLayers
                  (<[layerKey := if checked then addTo_map layer
                                 else removeLayer_map layer]>))
    end.

(** ** Rendering *)

Definition scoreColor (score : Q) : string :=
  if Qle_bool 70 score then "#10b981"
  else if Qle_bool 50 score then "#f59e0b"
  else "#ef4444".

(** [point ? point.type : 'Unknown'] with [point = selectedPoints[idx]] *)
Definition structureTypeAt (pts : list SelectedPoint) (idx : nat) : string :=
  match pts !! idx with
  | Some point => sp_type point
  | None => "Unknown"
  end.

(** [r.power_summary?.mean_temp], [None] when it is [undefined] or [null]. *)
Definition meanTempOf (r : AnalysisResult) : option Q :=
  power_summary r ≫= mean_temp.

Definition meanPrecipOf (r : AnalysisResult) : option Q :=
  power_summary r ≫= mean_precip.

Definition nDaysOf (r : AnalysisResult) : option Z :=
  power_summary r ≫= n_days.

Definition renderRow (pts : list SelectedPoint) (result : AnalysisResult) (idx : nat) : Row :=
  let structureType := structureTypeAt pts idx in
  {| row_structureType := structureType;
     row_title := capitalize structureType;
     row_number := idx + 1;
     row_scoreColor := scoreColor (r_score result);
     row_score := r_score result;
     row_lat := r_lat result;
     row_lon := r_lon result;
     row_temp := meanTempOf result;
     row_precip := meanPrecipOf result;
     row_detailIndex := idx |}.

(** [container.appendChild(div)] *)
Definition appendChild (div : Row) (d : Dom) : Dom :=
  set_recommendations
    ((fun c => {| c_heading := c_heading c; c_rows := c_rows c ++ [div] |})
       <$> recommendations d) d.

Definition displayResults (results : list AnalysisResult) : JS unit :=
  s ← get;
  match recommendations (dom s) with
  | None => mret tt
  | Some _ =>
      modify (set_dom (set_recommendations
                         (Some {| c_heading := true; c_rows := [] |})));;
      modify (set_analysisResults (Some results));;
      forEach (fun result idx =>
                 s ← get;
                 modify (set_dom (appendChild (renderRow (selectedPoints s) result idx))))
              results
  end.

(** *** Heat map *)

(** [Math.min(minTemp, temp)] and [Math.max(maxTemp, temp)], where [None]
    is the starting value [Infinity], respectively [-Infinity]. *)
Definition Math_min (minTemp : option Q) (temp : Q) : option Q :=
  match minTemp with
  | None => Some temp
  | Some m => Some (if Qlt_bool temp m then temp else m)
  end.

Definition Math_max (maxTemp : option Q) (temp : Q) : option Q :=
  match maxTemp with
  | None => Some temp
  | Some m => Some (if Qlt_bool m temp then temp else m)
  end.

(** The first [results.forEach]: the running minimum and maximum. *)
Fixpoint tempRange (minTemp maxTemp : option Q) (results : list AnalysisResult)
  : option Q * option Q :=
  match results with
  | [] => (minTemp, maxTemp)
  | r :: rest =>
      match meanTempOf r with
      | Some temp => tempRange (Math_min minTemp temp) (Math_max maxTemp temp) rest
      | None => tempRange minTemp maxTemp rest
      end
  end.

(** The normalized temperature, in exact arithmetic.  The script divides
    double-precision numbers, so its value is this one rounded: next to a
    bucket boundary the two can fall on different sides (for the
    temperatures 15.4, 34 and 30.28 the exact value of the last is 4/5 and
    the script gets 0.7999999999999999). *)
Definition normalize (minTemp maxTemp temp : Q) : Q :=
  if Qlt_bool minTemp maxTemp then (temp - minTemp) / (maxTemp - minTemp)
  else 1 # 2.

(** The branch of the colour chain a normalized value takes, counted from
    the coolest. *)
Definition heatBucket (normalized : Q) : nat :=
  if Qlt_bool normalized (25 # 100) then 0
  else if Qlt_bool normalized (1 # 2) then 1
  else if Qlt_bool normalized (65 # 100) then 2
  else if Qlt_bool normalized (8 # 10) then 3
  else 4.

Definition bucketColor (bucket : nat) : string :=
  match bucket with
  | 0 => "#3b82f6"
  | 1 => "#22c55e"
  | 2 => "#eab308"
  | 3 => "#f97316"
  | _ => "#ef4444"
  end.

Definition heatColor (normalized : Q) : string := bucketColor (heatBucket normalized).

Definition circleMarker (r : AnalysisResult) (temp : Q) (color : string) : CircleMarker :=
  {| cm_lat := r_lat r; cm_lon := r_lon r; cm_fillColor := color;
     cm_popupTemp := temp; cm_popupScore := r_score r |}.

(** [circle.addTo(heatLayer)] *)
Definition addTo_heatLayer (circle : CircleMarker) (h : HeatLayer) : HeatLayer :=
  {| hl_layers := hl_layers h ++ [circle]; hl_onMap := hl_onMap h |}.

Definition updateAnalysisHeatmap (results : list AnalysisResult) : JS unit :=
  modify (set_heatLayer (fun h => {| hl_layers := []; hl_onMap := hl_onMap h |}));;
  match results with
  | [] => mret tt
  | _ :: _ =>
      match tempRange None None results with
      | (Some minTemp, Some maxTemp) =>
          forEach (fun r _ =>
                     match meanTempOf r with
                     | None => mret tt
                     | Some temp =>
                         let normalized := normalize minTemp maxTemp temp in
                         let color := heatColor normalized in
                         modify (set_heatLayer (addTo_heatLayer (circleMarker r temp color)))
                     end)
                  results;;
          s ← get;
          when (bool_decide (layer_heatmap (dom s) = Some false))
               (modify (set_dom (set_layer_heatmap (Some true)));;
                modify (set_heatLayer
                          (fun h => {| hl_layers := hl_layers h; hl_onMap := true |})))
      | _ => console_warn "No valid temperature data for heatmap"
      end
  end.

(** *** Detail view *)

Definition recommendationText (score : Q) : string :=
  if Qle_bool 70 score then
    "Excellent location for infrastructure. High suitability based on climate and accessibility factors."
  else if Qle_bool 50 score then
    "Moderate suitability. Consider additional site assessments and potential improvements."
  else
    "Low suitability. This location may face significant challenges. Consider alternative sites.".

(** [nDays || 'N/A']: a zero count prints as N/A too. *)
Definition nDaysShown (n : option Z) : option Z :=
  match n with
  | Some 0%Z => None
  | _ => n
  end.

Definition renderDetail (pts : list SelectedPoint) (result : AnalysisResult) (index : nat) : Detail :=
  let structureType := structureTypeAt pts index in
  {| d_title := capitalize structureType;
     d_structureType := structureType;
     d_scoreColor := scoreColor (r_score result);
     d_score := r_score result;
     d_lat := r_lat result;
     d_lon := r_lon result;
     d_meanTemp := meanTempOf result;
     d_meanPrecip := meanPrecipOf result;
     d_nDays := nDaysShown (nDaysOf result);
     d_ndvi := r_ndvi result;
     d_population := r_population result;
     d_recommendation := recommendationText (r_score result) |}.

(** [window.showDetailedAnalysis] *)
Definition showDetailedAnalysis (index : nat) : JS unit :=
  s ← get;
  match analysisResults s ≫= (fun results => results !! index) with
  | None => mret tt
  | Some result =>
      match rec_modal (dom s), rec_body (dom s) with
      | Some _, Some _ =>
          modify (set_dom (set_rec_body
                             (Some (Some (renderDetail (selectedPoints s) result index)))));;
          modify (set_dom (set_rec_modal (Some true)))
      | _, _ => mret tt
      end
  end.

(** ** Analysis run *)

(** The body of the [drawnLayers.eachLayer] callback: a layer with a
    position and a truthy structure type is pushed on [selectedPoints]. *)
Definition collectPoint (entry : nat * Marker) (_ : nat) : JS unit :=
  let layer := snd entry in
  when (truthy (mk_structureType layer))
       (modify (set_selectedPoints
                  (fun l => l ++ [{| sp_marker := fst entry;
                                     sp_lat := mk_lat layer;
                                     sp_lon := mk_lng layer;
                                     sp_type := mk_structureType layer |}]))).

(** [input && input.value ? input.value.replace(/-/g, '') : ''] *)
Definition compactDate (input : option string) : string :=
  match input with
  | Some value => if truthy value then removeDashes value else EmptyString
  | None => EmptyString
  end.

Definition payloadPoint (p : SelectedPoint) : PayloadPoint :=
  {| pp_lat := sp_lat p; pp_lon := sp_lon p; pp_type := sp_type p;
     pp_ndvi := 3 # 10; pp_population := 2000; pp_road_km := 1;
     pp_water_km := 2 |}.

(** [response.ok] *)
Definition response_ok (status : Z) : bool :=
  (200 <=? status)%Z && (status <=? 299)%Z.

(** [data.error] used as a condition. *)
Definition error_truthy (e : option string) : bool :=
  match e with
  | Some msg => truthy msg
  | None => false
  end.

(** [if (loading) loading.style.display = v] *)
Definition showLoading (visible : bool) : JS unit :=
  modify (set_dom (fun d => set_loading ((fun _ => visible) <$> loading d) d)).

Section Analysis.

(** The scoring service: what the request for a payload comes back with. *)
Variable fetch : Payload -> FetchOutcome.

(** [await fetch(...)], then the status check and [await response.json()]. *)
Definition requestScores (payload : Payload) : JS ResponseData :=
  modify (set_requests (fun l => l ++ [payload]));;
  match fetch payload with
  | FetchFails msg => throw (FetchRejected msg)
  | FetchResponse status statusText body =>
      if negb (response_ok status) then throw (ServerReturned status statusText)
      else match body with
           | BodyMalformed msg => throw (JsonSyntaxError msg)
           | BodyJson data => mret data
           end
  end.

Definition analyzePoints : JS unit :=
  try_finally
    (try_catch
       (modify (set_selectedPoints (fun _ => []));;
        s ← get;
        forEach collectPoint (drawnLayers s);;
        s ← get;
        match selectedPoints s with
        | [] =>
            alert (AlertText "Please place at least one structure on the map before analyzing.")
        | _ :: _ =>
            showLoading true;;
            let payload :=
              {| points := payloadPoint <$> selectedPoints s;
                 p_start := compactDate (start_date (dom s));
                 p_end := compactDate (end_date (dom s)) |} in
            data ← requestScores payload;
            match data_error data with
            | Some msg => when (truthy msg) (throw (ErrorMessage msg))
            | None => mret tt
            end;;
            match data_results data with
            | Some ((_ :: _) as results) =>
                displayResults results;;
                updateAnalysisHeatmap results
            | _ => alert (AlertText "No results returned from analysis.")
            end
        end)
       (fun error =>
          console_error "Analysis error:" error;;
          alert (AlertAnalysisFailed error)))
    (showLoading false).

End Analysis.

(** ** Page handlers *)

Definition set_end_date (v : option string) (d : Dom) : Dom :=
  {| recommendations := recommendations d; loading := loading d;
     layer_heatmap := layer_heatmap d; start_date := start_date d;
     end_date := v; rec_modal := rec_modal d; rec_body := rec_body d |}.

Section DateInput.

Variable tileLayerThrows : string -> bool.

(** The change handler of the end-date input, installed only when the page
    has the input; the browser has already stored [value] in it.  A
    non-empty value moves the imagery layers to that date. *)
Definition endDateChange (value : string) : JS unit :=
  s ← get;
  match end_date (dom s) with
  | None => mret tt
  | Some _ =>
      modify (set_dom (set_end_date (Some value)));;
      when (truthy value) (updateGIBSLayersWithDate tileLayerThrows value)
  end.

End DateInput.

(** ** Placement mode *)

(** A closure made by the place button: [ch_id] tells closures apart and
    [ch_structureType] is the structure type it captured. *)
Record ClickHandler := {
  ch_id : nat;
  ch_structureType : string
}.

(** The variables [placingMode] and [clickHandler] of
    [setupEventListeners], the closures registered on the map's [click]
    with [map.once], and what the place button and the map container show. *)
Record Placing := {
  placingMode : bool;
  clickHandler : option ClickHandler;
  mapClickOnce : list ClickHandler;
  nextClosure : nat;
  placeBtn_text : string;
  placeBtn_active : bool;
  cursor : string
}.

(** [map.off('click', h)] *)
Definition map_off (h : option ClickHandler) (listeners : list ClickHandler) : list ClickHandler :=
  match h with
  | None => listeners
  | Some h => filter (fun l => ch_id l <> ch_id h) listeners
  end.

(** What both ways out of placement mode do to the variables, the button
    and the cursor. *)
Definition leavePlacing (p : Placing) : Placing :=
  {| placingMode := false; clickHandler := clickHandler p;
     mapClickOnce := map_off (clickHandler p) (mapClickOnce p);
     nextClosure := nextClosure p;
     placeBtn_text := "Click to Place Structure";
     placeBtn_active := false; cursor := EmptyString |}.

(** The click handler of the place button; [selected] is
    [structureSelect.value] at the time of the click. *)
Definition placeBtnClick (selected : string) (p : Placing) : Placing :=
  if placingMode p then leavePlacing p
  else
    let h := {| ch_id := nextClosure p; ch_structureType := selected |} in
    {| placingMode := true; clickHandler := Some h;
       mapClickOnce := mapClickOnce p ++ [h];
       nextClosure := S (nextClosure p);
       placeBtn_text := "Cancel Placement";
       placeBtn_active := true; cursor := "crosshair" |}.

(** One registered closure [h] run for a click at [lat], [lng]: being
    registered with [once] it is dropped, then its body places the
    structure and leaves placement mode. *)
Definition runClickHandler (lat lng : Q) (ps : Placing * State) (h : ClickHandler)
  : Placing * State :=
  let p := ps.1 in
  let dropped :=
    {| placingMode := placingMode p; clickHandler := clickHandler p;
       mapClickOnce := map_off (Some h) (mapClickOnce p);
       nextClosure := nextClosure p; placeBtn_text := placeBtn_text p;
       placeBtn_active := placeBtn_active p; cursor := cursor p |} in
  (leavePlacing dropped,
   exec (placeStructure lat lng (ch_structureType h)) ps.2).

(** A click on the map at [lat], [lng]: the closures registered at that
    moment run in turn. *)
Definition mapClicked (lat lng : Q) (ps : Placing * State) : Placing * State :=
  foldl (runClickHandler lat lng) ps (mapClickOnce ps.1).

(** ** Proof automation *)

(** Case analysis on membership in a list written out in full. *)
Ltac elem_of_cases H :=
  repeat match type of H with
         | _ ∈ _ :: _ => apply elem_of_cons in H as [H|H]
         | _ ∈ [] => apply not_elem_of_nil in H; destruct H
         end.

Ltac js_unfold :=
  unfold mbind, mret, JS_bind, JS_ret, js_bind, js_ret, get, modify, throw,
    when, console_error, console_warn, alert in *.

(** * Vocabulary of the statements *)

(** ** Imagery layers *)

(** The layer that a successful rebuild stores for [cfg] and [date] in
    place of [old]. *)
Definition rebuiltLayer (cfg : LayerConfig) (date : string) (old : TileLayer) : TileLayer :=
  {| tl_url := createGIBSTileUrl cfg date; tl_maxZoom := maxZoom cfg;
     tl_attribution := attribution cfg; tl_opacity := opacity cfg;
     tl_onMap := tl_onMap old |}.

(** What one block does to the registry when its build succeeds, whether
    or not the key is registered. *)
Definition rebuildEntry (key : string) (cfg : LayerConfig) (d : string)
    (m : gmap string TileLayer) : gmap string TileLayer :=
  match m !! key with
  | Some old => <[key := rebuiltLayer cfg d old]> m
  | None => m
  end.

(** Every build for [date] goes through. *)
Definition buildsSucceed (tileLayerThrows : string -> bool) (date : string) : Prop :=
  forall key cfg, (key, cfg) ∈ Gibs.layers ->
    tileLayerThrows (createGIBSTileUrl cfg date) = false.

Definition rebuildAll (d : string) (m : gmap string TileLayer) : gmap string TileLayer :=
  rebuildEntry "vegetation" Gibs.vegetation d
    (rebuildEntry "nightLights" Gibs.nightLights d
       (rebuildEntry "temperature" Gibs.temperature d m)).

(** The layer under [key] was rebuilt between [s] and [s']: its source is
    the one for [cfg] and [d], and it is on the map exactly when the layer
    it replaces was. *)
Definition rebuiltFor (s s' : State) (key : string) (cfg : LayerConfig) (d : string) : Prop :=
  exists old, activeLayers s !! key = Some old /\
              activeLayers s' !! key = Some (rebuiltLayer cfg d old).

(** No layer is on the map in [s'] that was not on the map in [s]. *)
Definition noneAttached (s s' : State) : Prop :=
  forall key, tl_onMap <$> activeLayers s' !! key = Some true ->
              tl_onMap <$> activeLayers s !! key = Some true.

(** Concrete engines and states used as inputs. *)
Module Scenario.

Definition neverThrows : string -> bool := fun _ => false.

(** An engine that throws for the temperature source of date [d] only. *)
Definition temperatureFails (d : string) : string -> bool :=
  fun url => String.eqb url (createGIBSTileUrl Gibs.temperature d).

(** The three layers registered for 2024-01-01, temperature on the map. *)
Definition initialized : State :=
  exec (initializeGIBSLayers neverThrows)
       (set_currentDate (Some "2024-01-01") initialState).

(** A page with every element the script looks up, nothing shown yet. *)
Definition page : Dom :=
  {| recommendations := Some {| c_heading := false; c_rows := [] |};
     loading := Some false; layer_heatmap := Some false;
     start_date := Some "2024-01-01"; end_date := Some "2024-01-31";
     rec_modal := Some false; rec_body := Some None |}.

Definition ready : State := set_dom (fun _ => page) initialState.

Definition result (lat lon score : Q) (temp : option Q) : AnalysisResult :=
  {| r_lat := lat; r_lon := lon; r_score := score; r_ndvi := 3 # 10;
     r_population := 2000;
     power_summary := Some {| mean_temp := temp; mean_precip := None;
                              n_days := Some 30%Z |} |}.

(** Three results, the second without a temperature. *)
Definition results3 : list AnalysisResult :=
  [result 1 2 80 (Some 30%Q); result 3 4 45 None; result 5 6 60 (Some 20%Q)].

(** One result without a temperature. *)
Definition results1 : list AnalysisResult := [result 1 2 80 None].

Definition placed1 : State := exec (placeStructure 1 2 "house") ready.

Definition placed3 : State :=
  exec (placeStructure 1 2 "house";;
        placeStructure 3 4 "hospital";;
        placeStructure 5 6 "school") ready.

(** A scoring service that answers 200 with [results]. *)
Definition serves (results : list AnalysisResult) : Payload -> FetchOutcome :=
  fun _ => FetchResponse 200 "OK"
             (BodyJson {| data_error := None; data_results := Some results |}).

(** A scoring service that answers 500. *)
Definition serverError : Payload -> FetchOutcome :=
  fun _ => FetchResponse 500 "INTERNAL SERVER ERROR"
             (BodyJson {| data_error := Some "boom"; data_results := None |}).

(** A scoring service whose 200 body has both an empty [error] string and
    [results]. *)
Definition servesWithEmptyError (results : list AnalysisResult) : Payload -> FetchOutcome :=
  fun _ => FetchResponse 200 "OK"
             (BodyJson {| data_error := Some EmptyString; data_results := Some results |}).

(** Three structures placed and analysed. *)
Definition analyzed3 : State := exec (analyzePoints (serves results3)) placed3.

(** The same, with the three markers then removed one by one. *)
Definition emptied3 : State :=
  exec (removeMarker 0;; removeMarker 1;; removeMarker 2) analyzed3.

End Scenario.

(** ** Analysis and rendering *)

(** The points read off the placed markers, in the order of the group. *)
Definition collected (layers : list (nat * Marker)) : list SelectedPoint :=
  omap (fun entry : nat * Marker =>
          if truthy (mk_structureType entry.2)
          then Some {| sp_marker := entry.1; sp_lat := mk_lat entry.2;
                       sp_lon := mk_lng entry.2;
                       sp_type := mk_structureType entry.2 |}
          else None) layers.

(** The payload an analysis run started in [s] sends. *)
Definition payloadOf (s : State) : Payload :=
  {| points := payloadPoint <$> collected (drawnLayers s);
     p_start := compactDate (start_date (dom s));
     p_end := compactDate (end_date (dom s)) |}.

(** The rows shown for [results] against the points [pts]. *)
Definition rowsFor (pts : list SelectedPoint) (results : list AnalysisResult) : list Row :=
  imap (fun idx result => renderRow pts result idx) results.

(** The defined temperatures of [results], in order. *)
Definition definedTemps (results : list AnalysisResult) : list Q :=
  omap meanTempOf results.

(** The results that get a circle: those with a defined temperature. *)
Definition withTemp (results : list AnalysisResult) : list AnalysisResult :=
  filter (fun r => is_Some (meanTempOf r)) results.

Definition circlePosition (c : CircleMarker) : Q * Q := (cm_lat c, cm_lon c).

Definition resultPosition (r : AnalysisResult) : Q * Q := (r_lat r, r_lon r).

(** The circles drawn for [results] with the range [minTemp], [maxTemp]:
    one per result with a defined temperature. *)
Definition circlesFor (minTemp maxTemp : Q) (results : list AnalysisResult) : list CircleMarker :=
  omap (fun r => (fun temp => circleMarker r temp
                                (heatColor (normalize minTemp maxTemp temp)))
                   <$> meanTempOf r) results.

(** The rows currently shown and the circles currently drawn. *)
Definition shownRows (s : State) : list Row :=
  from_option c_rows [] (recommendations (dom s)).

Definition shownCircles (s : State) : list CircleMarker := hl_layers (heatLayer s).

(** The state the heat-map update reaches when the range is [minTemp],
    [maxTemp]: the circles are replaced, and an unchecked heat-map box is
    checked with the heat group put on the map. *)
Definition heatmapDrawn (minTemp maxTemp : Q) (results : list AnalysisResult) (s : State) : State :=
  let s1 := set_heatLayer
              (fun h => {| hl_layers := circlesFor minTemp maxTemp results;
                           hl_onMap := hl_onMap h |}) s in
  if bool_decide (layer_heatmap (dom s) = Some false)
  then set_heatLayer (fun h => {| hl_layers := hl_layers h; hl_onMap := true |})
         (set_dom (set_layer_heatmap (Some true)) s1)
  else s1.

(** The state it reaches when no result has a temperature. *)
Definition heatmapSkipped (s : State) : State :=
  set_console (fun l => l ++ [ConsoleWarn "No valid temperature data for heatmap"])
    (set_heatLayer (fun h => {| hl_layers := []; hl_onMap := hl_onMap h |}) s).

(** The two calls an analysis run makes with a non-empty result array. *)
Definition render (results : list AnalysisResult) : JS unit :=
  displayResults results;; updateAnalysisHeatmap results.

(** The state of a run once the placed markers have been read. *)
Definition snapshot (s : State) : State :=
  set_selectedPoints (fun _ => collected (drawnLayers s)) s.

(** The state of a run once its request has been sent. *)
Definition requested (s : State) : State :=
  set_requests (fun l => l ++ [payloadOf s]) (exec (showLoading true) (snapshot s)).

(** The exception a response makes the run throw, if any. *)
Definition responseError (o : FetchOutcome) : option Exn :=
  match o with
  | FetchFails msg => Some (FetchRejected msg)
  | FetchResponse status statusText body =>
      if response_ok status then
        match body with
        | BodyMalformed msg => Some (JsonSyntaxError msg)
        | BodyJson data =>
            match data_error data with
            | Some msg => if truthy msg then Some (ErrorMessage msg) else None
            | None => None
            end
        end
      else Some (ServerReturned status statusText)
  end.

(** The state a run that threw [e] after its request ends in. *)
Definition failedWith (e : Exn) (s : State) : State :=
  exec (showLoading false)
    (set_alerts (fun l => l ++ [AlertAnalysisFailed e])
       (set_console (fun l => l ++ [ConsoleError "Analysis error:" e])
          (requested s))).

(** The message of a run that finds no structure. *)
Definition pleasePlace : AlertBox :=
  AlertText "Please place at least one structure on the map before analyzing.".

(** [window.__analysisResults[index]], when the array is there and has an
    entry at [index]. *)
Definition resultAt (s : State) (index : nat) : option AnalysisResult :=
  analysisResults s ≫= (fun results => results !! index).

(** The detail currently written in the modal body. *)
Definition shownDetail (s : State) : option Detail :=
  rec_body (dom s) ≫= id.

(** ** Vocabulary of the further properties *)

(** The layer object [L.tileLayer] returns for [cfg] and [date], put on the
    map or not. *)
Definition builtLayer (cfg : LayerConfig) (date : string) (onMap : bool) : TileLayer :=
  {| tl_url := createGIBSTileUrl cfg date; tl_maxZoom := maxZoom cfg;
     tl_attribution := attribution cfg; tl_opacity := opacity cfg;
     tl_onMap := onMap |}.

(** The registry after a successful initialization for [date]. *)
Definition initAll (date : string) (m : gmap string TileLayer) : gmap string TileLayer :=
  <["vegetation" := builtLayer Gibs.vegetation date false]>
    (<["nightLights" := builtLayer Gibs.nightLights date false]>
       (<["temperature" := builtLayer Gibs.temperature date true]> m)).

(** [s'] differs from [s] at most in the imagery registry, the current
    date and the console. *)
Definition onlyLayersChanged (s s' : State) : Prop :=
  drawnLayers s' = drawnLayers s /\ nextLayerId s' = nextLayerId s /\
  selectedPoints s' = selectedPoints s /\ heatLayer s' = heatLayer s /\
  analysisResults s' = analysisResults s /\ dom s' = dom s /\
  alerts s' = alerts s /\ requests s' = requests s.

(** A layer with its attachment set to [checked]. *)
Definition setOnMap (checked : bool) (l : TileLayer) : TileLayer :=
  if checked then addTo_map l else removeLayer_map l.

(** The registry of [s'] has the keys of the registry of [s]. *)
Definition sameKeys (s s' : State) : Prop :=
  forall key, is_Some (activeLayers s' !! key) <-> is_Some (activeLayers s !! key).

(** What a date change may do at most: rewrite registered layers, without
    putting any on the map. *)
Definition layersKept (s s' : State) : Prop :=
  onlyLayersChanged s s' /\ noneAttached s s' /\ sameKeys s s'.

(** The state a run that finds no typed structure ends in. *)
Definition emptyRun (s : State) : State :=
  exec (showLoading false) (set_alerts (fun l => l ++ [pleasePlace]) (snapshot s)).

(** The message of a run whose answer carries no result. *)
Definition noResults : AlertBox := AlertText "No results returned from analysis.".

(** The state a run whose answer carries no result ends in. *)
Definition noResultsRun (s : State) : State :=
  exec (showLoading false) (set_alerts (fun l => l ++ [noResults]) (requested s)).

(** The state a run that renders [results] ends in. *)
Definition renderedRun (results : list AnalysisResult) (s : State) : State :=
  exec (showLoading false) (exec (render results) (requested s)).

(** What rendering leaves alone. *)
Definition renderFrame (s s' : State) : Prop :=
  drawnLayers s' = drawnLayers s /\ nextLayerId s' = nextLayerId s /\
  selectedPoints s' = selectedPoints s /\ activeLayers s' = activeLayers s /\
  currentDate s' = currentDate s /\ alerts s' = alerts s /\
  requests s' = requests s /\ loading (dom s') = loading (dom s) /\
  start_date (dom s') = start_date (dom s) /\
  end_date (dom s') = end_date (dom s) /\
  rec_modal (dom s') = rec_modal (dom s) /\ rec_body (dom s') = rec_body (dom s).

(** The heat-map box, when the page has one, says whether the heat group
    is on the map. *)
Definition heatInSync (s : State) : Prop :=
  forall checked, layer_heatmap (dom s) = Some checked ->
                  hl_onMap (heatLayer s) = checked.

(** Every placed marker has a non-empty structure type. *)
Definition allTyped (s : State) : Prop :=
  forall entry, entry ∈ drawnLayers s -> truthy (mk_structureType entry.2) = true.

(** The string has no dash. *)
Definition dashFree (v : string) : Prop :=
  "-"%char ∉ list_ascii_of_string v.

Definition green : string := "#10b981".
Definition amber : string := "#f59e0b".
Definition red : string := "#ef4444".

(** The ids of the placed markers. *)
Definition markerIds (s : State) : list nat := (drawnLayers s).*1.

(** Every placed marker has an id below the next one to be given, and no
    two share an id. *)
Definition wellStamped (s : State) : Prop :=
  Forall (fun id => id < nextLayerId s) (markerIds s) /\ NoDup (markerIds s).

(** The point read off one marker. *)
Definition pointOf (id : nat) (lat lng : Q) (structureType : string) : SelectedPoint :=
  {| sp_marker := id; sp_lat := lat; sp_lon := lng; sp_type := structureType |}.

(** Placement mode is on exactly when one closure, the one held in
    [clickHandler], is registered on the map; otherwise none is. *)
Definition placingInv (p : Placing) : Prop :=
  (placingMode p = false /\ mapClickOnce p = []) \/
  (placingMode p = true /\
   exists h, clickHandler p = Some h /\ mapClickOnce p = [h]).

(** The button and the cursor as they are outside placement mode. *)
Definition showsIdle (p : Placing) : Prop :=
  placingMode p = false /\ mapClickOnce p = [] /\
  placeBtn_text p = "Click to Place Structure" /\
  placeBtn_active p = false /\ cursor p = EmptyString.

(** Placement state right after [setupEventListeners], with the button
    showing [text]. *)
Definition placingStart (text : string) : Placing :=
  {| placingMode := false; clickHandler := None; mapClickOnce := [];
     nextClosure := 0; placeBtn_text := text; placeBtn_active := false;
     cursor := EmptyString |}.

(** * Properties *)

(** ** Running computations *)

Lemma run_bind {A B} (m : JS A) (k : A -> JS B) (s : State) :
  (m ≫= k) s = match m s with
               | (Normal a, s') => k a s'
               | (Throw e, s') => (Throw e, s')
               end.
Proof. reflexivity. Qed.

Lemma run_bind_normal {A B} (m : JS A) (k : A -> JS B) (s s' : State) (a : A) :
  m s = (Normal a, s') -> (m ≫= k) s = k a s'.
Proof. intros Hm. rewrite run_bind, Hm. reflexivity. Qed.

Lemma run_bind_throw {A B} (m : JS A) (k : A -> JS B) (s s' : State) (e : Exn) :
  m s = (Throw e, s') -> (m ≫= k) s = (Throw e, s').
Proof. intros Hm. rewrite run_bind, Hm. reflexivity. Qed.

Lemma run_try_catch_normal {A} (body : JS A) (handler : Exn -> JS A) s s' a :
  body s = (Normal a, s') -> try_catch body handler s = (Normal a, s').
Proof. intros Hb. unfold try_catch. rewrite Hb. reflexivity. Qed.

Lemma run_try_catch_throw {A} (body : JS A) (handler : Exn -> JS A) s s' e :
  body s = (Throw e, s') -> try_catch body handler s = handler e s'.
Proof. intros Hb. unfold try_catch. rewrite Hb. reflexivity. Qed.

Lemma exec_bind_normal {A B} (m : JS A) (k : A -> JS B) (s : State) (a : A) :
  completion m s = Normal a -> exec (m ≫= k) s = exec (k a) (exec m s).
Proof.
  unfold completion, exec. rewrite run_bind.
  destruct (m s) as [c s']; simpl. intros ->. reflexivity.
Qed.

(** ** Imagery layers *)

Section LayerRegistryFacts.

Variable tileLayerThrows : string -> bool.

Lemma rebuildLayer_absent key cfg d s :
  activeLayers s !! key = None ->
  rebuildLayer tileLayerThrows key cfg d s = (Normal tt, s).
Proof.
  intros Hk. unfold rebuildLayer. js_unfold. rewrite Hk. reflexivity.
Qed.

Lemma rebuildLayer_ok key cfg d s old :
  activeLayers s !! key = Some old ->
  tileLayerThrows (createGIBSTileUrl cfg d) = false ->
  rebuildLayer tileLayerThrows key cfg d s
  = (Normal tt, set_activeLayers (<[key := rebuiltLayer cfg d old]>) s).
Proof.
  intros Hk Hok. unfold rebuildLayer, L_tileLayer. js_unfold.
  rewrite Hk, Hok. unfold rebuiltLayer, set_activeLayers, addTo_map.
  destruct (tl_onMap old); cbn; rewrite !insert_insert_eq; reflexivity.
Qed.

Lemma rebuildLayer_fail key cfg d s old :
  activeLayers s !! key = Some old ->
  tileLayerThrows (createGIBSTileUrl cfg d) = true ->
  rebuildLayer tileLayerThrows key cfg d s
  = (Throw (TileLayerError (createGIBSTileUrl cfg d)),
     set_activeLayers (<[key := removeLayer_map old]>) s).
Proof.
  intros Hk Hf. unfold rebuildLayer, L_tileLayer. js_unfold.
  rewrite Hk, Hf. reflexivity.
Qed.

Lemma rebuildLayer_succeeds key cfg d s :
  tileLayerThrows (createGIBSTileUrl cfg d) = false ->
  rebuildLayer tileLayerThrows key cfg d s
  = (Normal tt, set_activeLayers (rebuildEntry key cfg d) s).
Proof.
  intros Hok. unfold rebuildEntry, set_activeLayers at 1.
  destruct (activeLayers s !! key) as [old|] eqn:Hk.
  - rewrite (rebuildLayer_ok _ _ _ _ old) by assumption. reflexivity.
  - rewrite rebuildLayer_absent by assumption. destruct s; reflexivity.
Qed.

Lemma rebuildEntry_onMap key cfg d m k :
  tl_onMap <$> rebuildEntry key cfg d m !! k = tl_onMap <$> m !! k.
Proof.
  unfold rebuildEntry. destruct (m !! key) as [old|] eqn:Hk; [|reflexivity].
  destruct (decide (key = k)) as [->|Hne].
  - rewrite lookup_insert_eq, Hk. reflexivity.
  - rewrite lookup_insert_ne by assumption. reflexivity.
Qed.

Lemma rebuildEntry_url_same key cfg d m :
  is_Some (m !! key) ->
  tl_url <$> rebuildEntry key cfg d m !! key = Some (createGIBSTileUrl cfg d).
Proof.
  intros [old Hk]. unfold rebuildEntry. rewrite Hk, lookup_insert_eq.
  reflexivity.
Qed.

Lemma rebuildEntry_other key cfg d m k :
  key ≠ k -> rebuildEntry key cfg d m !! k = m !! k.
Proof.
  intros Hne. unfold rebuildEntry. destruct (m !! key); [|reflexivity].
  rewrite lookup_insert_ne by assumption. reflexivity.
Qed.

Lemma rebuildEntry_is_Some key cfg d m k :
  is_Some (rebuildEntry key cfg d m !! k) <-> is_Some (m !! k).
Proof.
  rewrite <- !(fmap_is_Some tl_onMap), rebuildEntry_onMap. reflexivity.
Qed.

Lemma updateGIBSLayersWithDate_ok d s :
  buildsSucceed tileLayerThrows d ->
  updateGIBSLayersWithDate tileLayerThrows d s
  = (Normal tt, set_activeLayers (rebuildAll d) (set_currentDate (Some d) s)).
Proof.
  intros Hok. unfold updateGIBSLayersWithDate.
  apply run_try_catch_normal.
  rewrite (run_bind_normal _ _ s (set_currentDate (Some d) s) tt) by reflexivity.
  erewrite run_bind_normal;
    [| apply rebuildLayer_succeeds, (Hok "temperature"); set_solver].
  erewrite run_bind_normal;
    [| apply rebuildLayer_succeeds, (Hok "nightLights"); set_solver].
  rewrite rebuildLayer_succeeds by (apply (Hok "vegetation"); set_solver).
  reflexivity.
Qed.

End LayerRegistryFacts.

Lemma rebuildAll_onMap d m k :
  tl_onMap <$> rebuildAll d m !! k = tl_onMap <$> m !! k.
Proof. unfold rebuildAll. rewrite !rebuildEntry_onMap. reflexivity. Qed.

Lemma rebuildAll_is_Some d m k :
  is_Some (rebuildAll d m !! k) <-> is_Some (m !! k).
Proof. unfold rebuildAll. rewrite !rebuildEntry_is_Some. reflexivity. Qed.

Lemma rebuildAll_url d m key cfg :
  (key, cfg) ∈ Gibs.layers ->
  is_Some (m !! key) ->
  tl_url <$> rebuildAll d m !! key = Some (createGIBSTileUrl cfg d).
Proof.
  intros Hin Hk. unfold rebuildAll, Gibs.layers in *.
  apply elem_of_cons in Hin as [Heq|Hin]; [simplify_eq|].
  { rewrite !rebuildEntry_other by discriminate.
    apply rebuildEntry_url_same. assumption. }
  apply elem_of_cons in Hin as [Heq|Hin]; [simplify_eq|].
  { rewrite rebuildEntry_other by discriminate.
    apply rebuildEntry_url_same. rewrite rebuildEntry_is_Some. assumption. }
  apply list_elem_of_singleton in Hin. simplify_eq.
  apply rebuildEntry_url_same. rewrite !rebuildEntry_is_Some. assumption.
Qed.

(** *** A failing build *)

Lemma updateGIBSLayersWithDate_caught throws d s s1 e :
  (modify (set_currentDate (Some d));;
   rebuildLayer throws "temperature" Gibs.temperature d;;
   rebuildLayer throws "nightLights" Gibs.nightLights d;;
   rebuildLayer throws "vegetation" Gibs.vegetation d) s = (Throw e, s1) ->
  updateGIBSLayersWithDate throws d s
  = (Normal tt, set_console (fun l => l ++ [ConsoleError "Error updating layers:" e]) s1).
Proof.
  intros Hbody. unfold updateGIBSLayersWithDate.
  erewrite run_try_catch_throw by exact Hbody. reflexivity.
Qed.

(** [setDate] never lets an exception out. *)
Lemma updateGIBSLayersWithDate_completes throws d s :
  completion (updateGIBSLayersWithDate throws d) s = Normal tt.
Proof.
  unfold completion, updateGIBSLayersWithDate, try_catch.
  match goal with |- context [match ?b with _ => _ end] => destruct b as [[[]|e] s1] end;
    reflexivity.
Qed.

(** C1, as the script has it.  When the build of one registered layer
    throws, the single handler around the three blocks logs the exception
    and [setDate] returns normally; the layers handled before the failing
    one are rebuilt for the new date with their attachment kept, and the
    layers that come after it are left exactly as they were: neither
    detached nor rebuilt. *)
Theorem setDate_failure_stops_later_layers throws s d pre key cfg post :
  Gibs.layers = pre ++ (key, cfg) :: post ->
  is_Some (activeLayers s !! key) ->
  (forall k c, (k, c) ∈ pre -> throws (createGIBSTileUrl c d) = false) ->
  throws (createGIBSTileUrl cfg d) = true ->
  let s' := exec (updateGIBSLayersWithDate throws d) s in
  completion (updateGIBSLayersWithDate throws d) s = Normal tt /\
  console s' = console s ++ [ConsoleError "Error updating layers:"
                               (TileLayerError (createGIBSTileUrl cfg d))] /\
  (forall k c old, (k, c) ∈ pre -> activeLayers s !! k = Some old ->
     activeLayers s' !! k = Some (rebuiltLayer c d old)) /\
  (forall k c, (k, c) ∈ post -> activeLayers s' !! k = activeLayers s !! k).
Proof.
  intros Hsplit [old Hold] Hpre Hfail s'. subst s'.
  split; [apply updateGIBSLayersWithDate_completes|].
  unfold exec, Gibs.layers in *.
  destruct pre as [|[k1 c1] pre]; simplify_eq/=.
  { (* the temperature build throws *)
    erewrite updateGIBSLayersWithDate_caught; cycle 1.
    { rewrite (run_bind_normal _ _ s (set_currentDate (Some d) s) tt) by reflexivity.
      eapply run_bind_throw, rebuildLayer_fail; eassumption. }
    cbn. split; [reflexivity|]. split.
    - intros k c o Hin. inversion Hin.
    - intros k c Hin. rewrite lookup_insert_ne; [reflexivity|].
      intros <-. elem_of_cases Hin; discriminate. }
  destruct pre as [|[k2 c2] pre]; simplify_eq/=.
  { (* the night-lights build throws *)
    erewrite updateGIBSLayersWithDate_caught; cycle 1.
    { rewrite (run_bind_normal _ _ s (set_currentDate (Some d) s) tt) by reflexivity.
      erewrite run_bind_normal;
        [| apply rebuildLayer_succeeds, (Hpre "temperature"); set_solver].
      eapply run_bind_throw, rebuildLayer_fail; [|eassumption].
      cbn. rewrite rebuildEntry_other by discriminate. eassumption. }
    cbn. split; [reflexivity|]. split.
    - intros k c o Hin Hk. apply list_elem_of_singleton in Hin.
      simplify_eq.
      rewrite lookup_insert_ne by discriminate.
      unfold rebuildEntry. rewrite Hk, lookup_insert_eq. reflexivity.
    - intros k c Hin. apply list_elem_of_singleton in Hin.
      simplify_eq.
      rewrite lookup_insert_ne by discriminate.
      apply rebuildEntry_other. discriminate. }
  destruct pre as [|[k3 c3] pre]; simplify_eq/=.
  { (* the vegetation build throws *)
    erewrite updateGIBSLayersWithDate_caught; cycle 1.
    { rewrite (run_bind_normal _ _ s (set_currentDate (Some d) s) tt) by reflexivity.
      erewrite run_bind_normal;
        [| apply rebuildLayer_succeeds, (Hpre "temperature"); set_solver].
      erewrite run_bind_normal;
        [| apply rebuildLayer_succeeds, (Hpre "nightLights"); set_solver].
      eapply rebuildLayer_fail; [|eassumption].
      cbn. rewrite !rebuildEntry_other by discriminate. eassumption. }
    cbn. split; [reflexivity|]. split.
    - intros k c o Hin Hk. elem_of_cases Hin; simplify_eq.
      + rewrite lookup_insert_ne, rebuildEntry_other by discriminate.
        unfold rebuildEntry. rewrite Hk, lookup_insert_eq. reflexivity.
      + rewrite lookup_insert_ne by discriminate.
        unfold rebuildEntry at 1.
        rewrite rebuildEntry_other, Hk, lookup_insert_eq by discriminate.
        reflexivity.
    - intros k c Hin. inversion Hin. }
  destruct pre; discriminate.
Qed.

Lemma setDate_failure_stops_later_layers_witness :
  Scenario.temperatureFails "2024-02-01"
    (createGIBSTileUrl Gibs.temperature "2024-02-01") = true /\
  completion (updateGIBSLayersWithDate (Scenario.temperatureFails "2024-02-01")
                                       "2024-02-01")
             Scenario.initialized = Normal tt /\
  (forall k c, (k, c) ∈ [("nightLights", Gibs.nightLights);
                         ("vegetation", Gibs.vegetation)] ->
     activeLayers
       (exec (updateGIBSLayersWithDate (Scenario.temperatureFails "2024-02-01")
                                       "2024-02-01")
             Scenario.initialized) !! k
     = activeLayers Scenario.initialized !! k).
Proof.
  assert (Hfail : Scenario.temperatureFails "2024-02-01"
                    (createGIBSTileUrl Gibs.temperature "2024-02-01") = true)
    by reflexivity.
  split; [exact Hfail|].
  assert (Hreg : is_Some (activeLayers Scenario.initialized !! "temperature"))
    by (vm_compute; eexists; reflexivity).
  destruct (setDate_failure_stops_later_layers
              (Scenario.temperatureFails "2024-02-01") Scenario.initialized
              "2024-02-01" [] "temperature" Gibs.temperature
              [("nightLights", Gibs.nightLights); ("vegetation", Gibs.vegetation)]
              eq_refl Hreg
              (fun k c Hin => False_ind _ (not_elem_of_nil _ Hin)) Hfail)
    as (Hc & _ & _ & Hpost).
  split; [exact Hc | exact Hpost].
Defined.

(** C1, as the claim has it, fails: with the temperature build throwing,
    the registered night-lights layer is not rebuilt for the new date. *)
Lemma setDate_isolation_counterexample :
  Scenario.temperatureFails "2024-02-01"
    (createGIBSTileUrl Gibs.temperature "2024-02-01") = true /\
  Scenario.temperatureFails "2024-02-01"
    (createGIBSTileUrl Gibs.nightLights "2024-02-01") = false /\
  is_Some (activeLayers Scenario.initialized !! "nightLights") /\
  ~ rebuiltFor Scenario.initialized
      (exec (updateGIBSLayersWithDate (Scenario.temperatureFails "2024-02-01")
                                      "2024-02-01")
            Scenario.initialized)
      "nightLights" Gibs.nightLights "2024-02-01".
Proof.
  split; [reflexivity|]. split; [reflexivity|].
  split; [vm_compute; eexists; reflexivity|].
  intros (old & Hold & Hnew).
  vm_compute in Hold. injection Hold as <-.
  vm_compute in Hnew. discriminate Hnew.
Qed.

(** The failing layer itself: its old source has already been taken off the
    map when the build throws, and it stays stored and detached. *)
Lemma setDate_failed_build_detaches :
  tl_onMap <$> activeLayers Scenario.initialized !! "temperature" = Some true /\
  activeLayers
    (exec (updateGIBSLayersWithDate (Scenario.temperatureFails "2024-02-01")
                                    "2024-02-01")
          Scenario.initialized) !! "temperature"
  = removeLayer_map <$> activeLayers Scenario.initialized !! "temperature".
Proof. split; vm_compute; reflexivity. Qed.

(** *** Attaching *)

Lemma noneAttached_refl s : noneAttached s s.
Proof. intros key H. exact H. Qed.

Lemma noneAttached_trans s1 s2 s3 :
  noneAttached s1 s2 -> noneAttached s2 s3 -> noneAttached s1 s3.
Proof. intros H12 H23 key H. apply H12, H23, H. Qed.

Lemma noneAttached_bind {A B} (m : JS A) (k : A -> JS B) s :
  noneAttached s (exec m s) ->
  (forall a s1, noneAttached s1 (exec (k a) s1)) ->
  noneAttached s (exec (m ≫= k) s).
Proof.
  unfold exec. intros Hm Hk. rewrite run_bind.
  destruct (m s) as [[a|e] s1]; cbn in *; [|exact Hm].
  eapply noneAttached_trans; [exact Hm | apply Hk].
Qed.

Lemma rebuildLayer_noneAttached throws key cfg d s :
  noneAttached s (exec (rebuildLayer throws key cfg d) s).
Proof.
  unfold exec.
  destruct (activeLayers s !! key) as [old|] eqn:Hk;
    [|rewrite rebuildLayer_absent by assumption; apply noneAttached_refl].
  destruct (throws (createGIBSTileUrl cfg d)) eqn:Hthrows.
  - erewrite rebuildLayer_fail by eassumption. intros k. cbn.
    destruct (decide (key = k)) as [<-|Hne].
    + rewrite lookup_insert_eq. discriminate.
    + rewrite lookup_insert_ne by assumption. auto.
  - erewrite rebuildLayer_ok by eassumption. intros k. cbn.
    destruct (decide (key = k)) as [<-|Hne].
    + rewrite lookup_insert_eq, Hk. auto.
    + rewrite lookup_insert_ne by assumption. auto.
Qed.

(** Whatever the builds do, [setDate] never puts on the map a layer that
    was not on it. *)
Lemma setDate_never_attaches throws d s :
  noneAttached s (exec (updateGIBSLayersWithDate throws d) s).
Proof.
  unfold updateGIBSLayersWithDate.
  assert (Hbody : noneAttached s
            (exec (modify (set_currentDate (Some d));;
                   rebuildLayer throws "temperature" Gibs.temperature d;;
                   rebuildLayer throws "nightLights" Gibs.nightLights d;;
                   rebuildLayer throws "vegetation" Gibs.vegetation d) s)).
  { apply noneAttached_bind; [intros key H; exact H|]. intros _ s1.
    apply noneAttached_bind; [apply rebuildLayer_noneAttached|]. intros _ s2.
    apply noneAttached_bind; [apply rebuildLayer_noneAttached|]. intros _ s3.
    apply rebuildLayer_noneAttached. }
  unfold exec, try_catch in *.
  match goal with
  | |- context [match ?b with _ => _ end] => destruct b as [[a|e] s1]
  end; exact Hbody.
Qed.

(** C3, as the script has it.  When the tile sources of a date build, one
    call of [setDate] leaves every layer on the map exactly when it was on
    the map before (a layer that is not registered stays unregistered) and
    stores for each registered layer the source built for that date; so
    with the sources of both dates building, [setDate d1] followed by
    [setDate d2] leaves the attachment of every layer as it was before
    either call, with the sources of [d2] and [d2] as the current date.
    Whatever the builds do, no call puts on the map a layer that was not on
    it. *)
Theorem setDate_keeps_attachment throws s d1 d2 :
  buildsSucceed throws d1 ->
  buildsSucceed throws d2 ->
  (forall key, tl_onMap <$> activeLayers (exec (updateGIBSLayersWithDate throws d1) s) !! key
               = tl_onMap <$> activeLayers s !! key) /\
  (forall key cfg, (key, cfg) ∈ Gibs.layers ->
     is_Some (activeLayers s !! key) ->
     tl_url <$> activeLayers (exec (updateGIBSLayersWithDate throws d1) s) !! key
     = Some (createGIBSTileUrl cfg d1)) /\
  (forall key, tl_onMap <$> activeLayers
                 (exec (updateGIBSLayersWithDate throws d1;;
                        updateGIBSLayersWithDate throws d2) s) !! key
               = tl_onMap <$> activeLayers s !! key) /\
  (forall key cfg, (key, cfg) ∈ Gibs.layers ->
     is_Some (activeLayers s !! key) ->
     tl_url <$> activeLayers
       (exec (updateGIBSLayersWithDate throws d1;;
              updateGIBSLayersWithDate throws d2) s) !! key
     = Some (createGIBSTileUrl cfg d2)) /\
  currentDate (exec (updateGIBSLayersWithDate throws d1;;
                     updateGIBSLayersWithDate throws d2) s) = Some d2 /\
  (forall engine d key,
     tl_onMap <$> activeLayers (exec (updateGIBSLayersWithDate engine d) s) !! key
     = Some true ->
     tl_onMap <$> activeLayers s !! key = Some true).
Proof.
  intros H1 H2.
  split; [|split; [|split; [|split; [|split]]]].
  - intros key. unfold exec. rewrite updateGIBSLayersWithDate_ok by assumption.
    cbn. apply rebuildAll_onMap.
  - intros key cfg Hin Hk. unfold exec.
    rewrite updateGIBSLayersWithDate_ok by assumption. cbn.
    apply rebuildAll_url; assumption.
  - intros key.
    rewrite (exec_bind_normal _ _ s tt)
      by (unfold completion; rewrite updateGIBSLayersWithDate_ok by assumption;
          reflexivity).
    unfold exec. rewrite !updateGIBSLayersWithDate_ok by assumption. cbn.
    rewrite !rebuildAll_onMap. reflexivity.
  - intros key cfg Hin Hk.
    rewrite (exec_bind_normal _ _ s tt)
      by (unfold completion; rewrite updateGIBSLayersWithDate_ok by assumption;
          reflexivity).
    unfold exec. rewrite !updateGIBSLayersWithDate_ok by assumption. cbn.
    apply rebuildAll_url; [assumption|].
    rewrite rebuildAll_is_Some. assumption.
  - rewrite (exec_bind_normal _ _ s tt)
      by (unfold completion; rewrite updateGIBSLayersWithDate_ok by assumption;
          reflexivity).
    unfold exec. rewrite !updateGIBSLayersWithDate_ok by assumption. reflexivity.
  - intros engine d key. apply setDate_never_attaches.
Qed.

Lemma setDate_keeps_attachment_witness :
  buildsSucceed Scenario.neverThrows "2024-02-01" /\
  buildsSucceed Scenario.neverThrows "2024-03-01" /\
  (forall key,
     tl_onMap <$> activeLayers
         (exec (updateGIBSLayersWithDate Scenario.neverThrows "2024-02-01")
               Scenario.initialized) !! key
     = tl_onMap <$> activeLayers Scenario.initialized !! key) /\
  (forall key,
     tl_onMap <$> activeLayers
         (exec (updateGIBSLayersWithDate Scenario.neverThrows "2024-02-01";;
                updateGIBSLayersWithDate Scenario.neverThrows "2024-03-01")
               Scenario.initialized) !! key
     = tl_onMap <$> activeLayers Scenario.initialized !! key).
Proof.
  assert (Hok : forall d, buildsSucceed Scenario.neverThrows d)
    by (intros d key cfg _; reflexivity).
  split; [apply Hok|]. split; [apply Hok|].
  destruct (setDate_keeps_attachment Scenario.neverThrows
              Scenario.initialized "2024-02-01" "2024-03-01"
              (Hok "2024-02-01") (Hok "2024-03-01"))
    as (Hone & _ & Htwo & _).
  split; [exact Hone | exact Htwo].
Defined.

(** C3, as the claim has it, fails: with the temperature build throwing on
    the first date, the temperature layer, on the map before, is off the
    map after both calls. *)
Lemma setDate_attachment_counterexample :
  tl_onMap <$> activeLayers Scenario.initialized !! "temperature" = Some true /\
  tl_onMap <$> activeLayers
      (exec (updateGIBSLayersWithDate (Scenario.temperatureFails "2024-02-01")
                                      "2024-02-01";;
             updateGIBSLayersWithDate (Scenario.temperatureFails "2024-02-01")
                                      "2024-03-01")
            Scenario.initialized) !! "temperature"
  = Some false.
Proof. split; vm_compute; reflexivity. Qed.

(** *** No layer registered *)

(** C8, as the script has it.  With no layer registered, [setDate] records
    the date and returns normally: every block is skipped by its guard, and
    nothing is thrown, logged or shown. *)
Theorem setDate_without_layers_is_silent throws s d :
  activeLayers s = ∅ ->
  updateGIBSLayersWithDate throws d s = (Normal tt, set_currentDate (Some d) s).
Proof.
  intros Hempty. unfold updateGIBSLayersWithDate.
  apply run_try_catch_normal.
  rewrite (run_bind_normal _ _ s (set_currentDate (Some d) s) tt) by reflexivity.
  assert (Habsent : forall key cfg,
             rebuildLayer throws key cfg d (set_currentDate (Some d) s)
             = (Normal tt, set_currentDate (Some d) s)).
  { intros key cfg. apply rebuildLayer_absent. cbn. rewrite Hempty.
    apply lookup_empty. }
  rewrite !(run_bind_normal _ _ _ _ tt (Habsent _ _)). apply Habsent.
Qed.

Lemma setDate_without_layers_is_silent_witness :
  activeLayers initialState = ∅ /\
  updateGIBSLayersWithDate Scenario.neverThrows "2024-02-01" initialState
  = (Normal tt, set_currentDate (Some "2024-02-01") initialState).
Proof.
  split; [reflexivity|].
  apply (setDate_without_layers_is_silent Scenario.neverThrows initialState
           "2024-02-01").
  reflexivity.
Defined.

(** C8, as the claim has it, fails: before [initMap] the call returns
    normally, with nothing logged and nothing shown. *)
Lemma setDate_before_initialize_counterexample :
  completion (updateGIBSLayersWithDate Scenario.neverThrows "2024-02-01")
             initialState = Normal tt /\
  console (exec (updateGIBSLayersWithDate Scenario.neverThrows "2024-02-01")
                initialState) = [] /\
  alerts (exec (updateGIBSLayersWithDate Scenario.neverThrows "2024-02-01")
               initialState) = [].
Proof. vm_compute. repeat split. Qed.

(** ** Reading the placed structures *)

Lemma Qlt_bool_iff (a b : Q) : Qlt_bool a b = true <-> (a < b)%Q.
Proof.
  unfold Qlt_bool. rewrite negb_true_iff, <- not_true_iff_false, Qle_bool_iff.
  split; [apply Qnot_le_lt | apply Qlt_not_le].
Qed.

Lemma Qlt_bool_false_iff (a b : Q) : Qlt_bool a b = false <-> (b <= a)%Q.
Proof.
  unfold Qlt_bool. rewrite negb_false_iff. apply Qle_bool_iff.
Qed.

Lemma forEachFrom_collectPoint idx layers s :
  forEachFrom idx collectPoint layers s
  = (Normal tt, set_selectedPoints (fun pts => pts ++ collected layers) s).
Proof.
  revert idx s. induction layers as [|[id layer] rest IH]; intros idx s.
  - cbn. unfold js_ret, set_selectedPoints. rewrite app_nil_r.
    destruct s; reflexivity.
  - cbn [forEachFrom]. rewrite run_bind. unfold collectPoint at 1, collected.
    simpl. destruct (truthy (mk_structureType layer)); simpl.
    + rewrite IH. unfold set_selectedPoints; simpl.
      rewrite <- app_assoc. reflexivity.
    + apply IH.
Qed.

(** ** Rows *)

Lemma forEachFrom_rows idx results s :
  forEachFrom idx
    (fun result idx => s ← get;
       modify (set_dom (appendChild (renderRow (selectedPoints s) result idx))))
    results s
  = (Normal tt,
     set_dom (fun d => set_recommendations
                ((fun c => {| c_heading := c_heading c;
                              c_rows := c_rows c ++
                                imap (fun i result =>
                                        renderRow (selectedPoints s) result (idx + i))
                                     results |})
                   <$> recommendations d) d) s).
Proof.
  revert idx s. induction results as [|r rest IH]; intros idx s.
  - cbn. unfold js_ret, set_dom, set_recommendations.
    destruct s as [? ? ? ? ? ? ? [[[]|] ? ? ? ? ? ?] ? ? ?]; cbn;
      rewrite ?app_nil_r; reflexivity.
  - cbn [forEachFrom]. erewrite run_bind_normal by reflexivity.
    rewrite IH. cbn. f_equal. unfold set_dom, appendChild, set_recommendations; cbn.
    destruct (recommendations (dom s)) as [c|]; cbn; [|reflexivity].
    rewrite <- app_assoc, Nat.add_0_r. cbn.
    rewrite (imap_ext (fun i result => renderRow (selectedPoints s) result (S (idx + i)))
                      ((fun i result => renderRow (selectedPoints s) result (idx + i)) ∘ S)
                      rest); [reflexivity|].
    intros i x _. cbn. f_equal. lia.
Qed.

Lemma displayResults_absent results s :
  recommendations (dom s) = None ->
  displayResults results s = (Normal tt, s).
Proof.
  intros Hnone. unfold displayResults. js_unfold. rewrite Hnone. reflexivity.
Qed.

Lemma displayResults_present results s c :
  recommendations (dom s) = Some c ->
  displayResults results s
  = (Normal tt,
     set_dom (set_recommendations
                (Some {| c_heading := true;
                         c_rows := rowsFor (selectedPoints s) results |}))
             (set_analysisResults (Some results) s)).
Proof.
  intros Hsome. unfold displayResults, forEach.
  rewrite run_bind. cbn [get]. rewrite Hsome.
  erewrite run_bind_normal by reflexivity.
  erewrite run_bind_normal by reflexivity.
  rewrite forEachFrom_rows. reflexivity.
Qed.

Lemma displayResults_completes results s :
  completion (displayResults results) s = Normal tt.
Proof.
  unfold completion.
  destruct (recommendations (dom s)) as [c|] eqn:Hc.
  - erewrite displayResults_present by eassumption. reflexivity.
  - rewrite displayResults_absent by assumption. reflexivity.
Qed.

(** ** Heat map *)

Lemma tempRange_foldl minTemp maxTemp results :
  tempRange minTemp maxTemp results
  = (foldl Math_min minTemp (definedTemps results),
     foldl Math_max maxTemp (definedTemps results)).
Proof.
  revert minTemp maxTemp. unfold definedTemps.
  induction results as [|r rest IH]; intros minTemp maxTemp; [reflexivity|].
  cbn. destruct (meanTempOf r) as [temp|]; cbn; apply IH.
Qed.

Lemma foldl_Math_min_Some m temps :
  exists m', foldl Math_min (Some m) temps = Some m' /\
    (m' <= m)%Q /\ (forall t, t ∈ temps -> (m' <= t)%Q) /\ m' ∈ m :: temps.
Proof.
  revert m. induction temps as [|t rest IH]; intros m.
  - exists m. cbn. split; [reflexivity|]. split; [apply Qle_refl|].
    split; [intros t Ht; inversion Ht | apply list_elem_of_here].
  - cbn [foldl Math_min]. destruct (Qlt_bool t m) eqn:Hlt.
    + destruct (IH t) as (m' & Heq & Hle & Hall & Hin).
      apply Qlt_bool_iff in Hlt.
      exists m'. split; [exact Heq|].
      split; [eapply Qle_trans; [exact Hle | apply Qlt_le_weak, Hlt]|].
      split.
      * intros u Hu. apply elem_of_cons in Hu as [->|Hu]; [exact Hle | auto].
      * apply list_elem_of_further. exact Hin.
    + destruct (IH m) as (m' & Heq & Hle & Hall & Hin).
      apply Qlt_bool_false_iff in Hlt.
      exists m'. split; [exact Heq|]. split; [exact Hle|]. split.
      * intros u Hu. apply elem_of_cons in Hu as [->|Hu]; [|auto].
        eapply Qle_trans; eassumption.
      * apply elem_of_cons in Hin as [->|Hin];
          [apply list_elem_of_here | do 2 apply list_elem_of_further; exact Hin].
Qed.

Lemma foldl_Math_max_Some m temps :
  exists m', foldl Math_max (Some m) temps = Some m' /\
    (m <= m')%Q /\ (forall t, t ∈ temps -> (t <= m')%Q) /\ m' ∈ m :: temps.
Proof.
  revert m. induction temps as [|t rest IH]; intros m.
  - exists m. cbn. split; [reflexivity|]. split; [apply Qle_refl|].
    split; [intros t Ht; inversion Ht | apply list_elem_of_here].
  - cbn [foldl Math_max]. destruct (Qlt_bool m t) eqn:Hlt.
    + destruct (IH t) as (m' & Heq & Hle & Hall & Hin).
      apply Qlt_bool_iff in Hlt.
      exists m'. split; [exact Heq|].
      split; [eapply Qle_trans; [apply Qlt_le_weak, Hlt | exact Hle]|].
      split.
      * intros u Hu. apply elem_of_cons in Hu as [->|Hu]; [exact Hle | auto].
      * apply list_elem_of_further. exact Hin.
    + destruct (IH m) as (m' & Heq & Hle & Hall & Hin).
      apply Qlt_bool_false_iff in Hlt.
      exists m'. split; [exact Heq|]. split; [exact Hle|]. split.
      * intros u Hu. apply elem_of_cons in Hu as [->|Hu]; [|auto].
        eapply Qle_trans; eassumption.
      * apply elem_of_cons in Hin as [->|Hin];
          [apply list_elem_of_here | do 2 apply list_elem_of_further; exact Hin].
Qed.

(** With a defined temperature among the results, the first loop ends with
    the least and the greatest of the defined temperatures. *)
Lemma tempRange_defined results :
  definedTemps results <> [] ->
  exists minTemp maxTemp,
    tempRange None None results = (Some minTemp, Some maxTemp) /\
    minTemp ∈ definedTemps results /\ maxTemp ∈ definedTemps results /\
    forall t, t ∈ definedTemps results -> (minTemp <= t)%Q /\ (t <= maxTemp)%Q.
Proof.
  intros Hne. rewrite tempRange_foldl.
  destruct (definedTemps results) as [|t0 rest]; [congruence|]. cbn [foldl Math_min Math_max].
  destruct (foldl_Math_min_Some t0 rest) as (mn & Hmn & Hmn0 & Hmnall & Hmnin).
  destruct (foldl_Math_max_Some t0 rest) as (mx & Hmx & Hmx0 & Hmxall & Hmxin).
  exists mn, mx. rewrite Hmn, Hmx. split; [reflexivity|].
  split; [exact Hmnin|]. split; [exact Hmxin|].
  intros t Ht. apply elem_of_cons in Ht as [->|Ht]; auto.
Qed.

Lemma tempRange_undefined results :
  definedTemps results = [] -> tempRange None None results = (None, None).
Proof. intros Hnil. rewrite tempRange_foldl, Hnil. reflexivity. Qed.

Lemma definedTemps_nonempty results :
  definedTemps results <> [] <->
  exists r t, r ∈ results /\ meanTempOf r = Some t.
Proof.
  unfold definedTemps. split.
  - intros Hne. destruct (omap meanTempOf results) as [|t rest] eqn:Hts; [congruence|].
    assert (Hin : t ∈ omap meanTempOf results) by (rewrite Hts; apply list_elem_of_here).
    apply list_elem_of_omap in Hin as (r & Hr & Ht). eauto.
  - intros (r & t & Hr & Ht) Hnil.
    assert (Hin : t ∈ omap meanTempOf results)
      by (apply list_elem_of_omap; eauto).
    rewrite Hnil in Hin. inversion Hin.
Qed.

Lemma forEachFrom_circles idx minTemp maxTemp results s :
  forEachFrom idx
    (fun r (_ : nat) =>
       match meanTempOf r with
       | None => mret tt
       | Some temp =>
           let normalized := normalize minTemp maxTemp temp in
           let color := heatColor normalized in
           modify (set_heatLayer (addTo_heatLayer (circleMarker r temp color)))
       end)
    results s
  = (Normal tt,
     set_heatLayer (fun h => {| hl_layers := hl_layers h ++ circlesFor minTemp maxTemp results;
                                hl_onMap := hl_onMap h |}) s).
Proof.
  revert idx s. induction results as [|r rest IH]; intros idx s.
  - cbn. unfold js_ret, set_heatLayer. rewrite app_nil_r.
    destruct s as [? ? ? [] ? ? ? ? ? ? ?]; reflexivity.
  - cbn [forEachFrom]. rewrite run_bind. unfold circlesFor. simpl.
    destruct (meanTempOf r) as [temp|]; simpl.
    + rewrite IH. unfold set_heatLayer, addTo_heatLayer; simpl.
      rewrite <- app_assoc. reflexivity.
    + apply IH.
Qed.

Lemma updateAnalysisHeatmap_defined results s minTemp maxTemp :
  results <> [] ->
  tempRange None None results = (Some minTemp, Some maxTemp) ->
  updateAnalysisHeatmap results s
  = (Normal tt, heatmapDrawn minTemp maxTemp results s).
Proof.
  intros Hne Hrange. unfold updateAnalysisHeatmap, forEach, heatmapDrawn.
  erewrite run_bind_normal by reflexivity.
  destruct results as [|r rest]; [congruence|]. rewrite Hrange.
  erewrite run_bind_normal by apply forEachFrom_circles.
  rewrite run_bind. cbn [get]. cbn [dom set_heatLayer].
  destruct (bool_decide (layer_heatmap (dom s) = Some false)); reflexivity.
Qed.

Lemma updateAnalysisHeatmap_undefined results s :
  results <> [] ->
  definedTemps results = [] ->
  updateAnalysisHeatmap results s = (Normal tt, heatmapSkipped s).
Proof.
  intros Hne Hnil. unfold updateAnalysisHeatmap, heatmapSkipped.
  erewrite run_bind_normal by reflexivity.
  destruct results as [|r rest]; [congruence|].
  rewrite tempRange_undefined by assumption. reflexivity.
Qed.

Lemma updateAnalysisHeatmap_completes results s :
  completion (updateAnalysisHeatmap results) s = Normal tt.
Proof.
  unfold completion.
  destruct results as [|r rest] eqn:Hres; [reflexivity|]. rewrite <- Hres.
  assert (Hne : results <> []) by (rewrite Hres; discriminate).
  destruct (definedTemps results) as [|t ts] eqn:Hts.
  - rewrite updateAnalysisHeatmap_undefined by assumption. reflexivity.
  - destruct (tempRange_defined results) as (mn & mx & Hrange & _);
      [rewrite Hts; discriminate|].
    erewrite updateAnalysisHeatmap_defined by eassumption. reflexivity.
Qed.




(** ** Analysis run *)

Lemma snapshot_then {A} (k : State -> JS A) (s : State) :
  (modify (set_selectedPoints (fun _ => []));;
   s0 ← get;
   forEach collectPoint (drawnLayers s0);;
   s1 ← get;
   k s1) s
  = k (snapshot s) (snapshot s).
Proof.
  erewrite run_bind_normal by reflexivity.
  rewrite run_bind. cbn [get]. unfold forEach.
  erewrite run_bind_normal by apply forEachFrom_collectPoint.
  reflexivity.
Qed.

Lemma analyzePoints_empty fetch s :
  collected (drawnLayers s) = [] ->
  analyzePoints fetch s
  = (Normal tt,
     exec (showLoading false)
          (set_alerts (fun l => l ++ [pleasePlace]) (snapshot s))).
Proof.
  intros Hnil. unfold analyzePoints, try_finally, try_catch.
  rewrite snapshot_then. cbn [snapshot selectedPoints set_selectedPoints].
  rewrite Hnil. reflexivity.
Qed.

Lemma requestScores_run fetch s :
  requestScores fetch (payloadOf s) (exec (showLoading true) (snapshot s))
  = match fetch (payloadOf s) with
    | FetchFails msg => (Throw (FetchRejected msg), requested s)
    | FetchResponse status statusText body =>
        if response_ok status then
          match body with
          | BodyMalformed msg => (Throw (JsonSyntaxError msg), requested s)
          | BodyJson data => (Normal data, requested s)
          end
        else (Throw (ServerReturned status statusText), requested s)
    end.
Proof.
  unfold requestScores. erewrite run_bind_normal by reflexivity.
  fold (requested s).
  destruct (fetch (payloadOf s)) as [msg|status statusText body]; [reflexivity|].
  destruct (response_ok status); [|reflexivity].
  destruct body; reflexivity.
Qed.

(** The run from the point where the markers have been read and at least
    one point was found. *)
Lemma analyzePoints_requesting fetch s :
  collected (drawnLayers s) <> [] ->
  analyzePoints fetch s
  = try_finally
      (try_catch
         (data ← requestScores fetch (payloadOf s);
          match data_error data with
          | Some msg => when (truthy msg) (throw (ErrorMessage msg))
          | None => mret tt
          end;;
          match data_results data with
          | Some ((_ :: _) as results) =>
              displayResults results;; updateAnalysisHeatmap results
          | _ => alert (AlertText "No results returned from analysis.")
          end)
         (fun error =>
            console_error "Analysis error:" error;;
            alert (AlertAnalysisFailed error)))
      (showLoading false)
      (exec (showLoading true) (snapshot s)).
Proof.
  intros Hne. unfold analyzePoints, try_finally at 1, try_catch at 1.
  rewrite snapshot_then. cbn [snapshot selectedPoints set_selectedPoints].
  destruct (collected (drawnLayers s)) as [|p ps] eqn:Hpts; [congruence|].
  erewrite run_bind_normal by reflexivity.
  unfold try_finally, try_catch, payloadOf. cbn. rewrite Hpts. reflexivity.
Qed.

Lemma analyzePoints_failed fetch s e :
  collected (drawnLayers s) <> [] ->
  responseError (fetch (payloadOf s)) = Some e ->
  analyzePoints fetch s = (Normal tt, failedWith e s).
Proof.
  intros Hne Herr. rewrite analyzePoints_requesting by assumption.
  unfold try_finally, try_catch. rewrite run_bind, requestScores_run.
  unfold responseError in Herr.
  destruct (fetch (payloadOf s)) as [msg|status statusText body];
    [injection Herr as <-; reflexivity|].
  destruct (response_ok status); [|injection Herr as <-; reflexivity].
  destruct body as [msg|data]; [injection Herr as <-; reflexivity|].
  destruct (data_error data) as [msg|]; [|discriminate].
  destruct (truthy msg) eqn:Ht; [|discriminate]. injection Herr as <-.
  reflexivity.
Qed.

Lemma analyzePoints_rendered fetch s status statusText data results :
  collected (drawnLayers s) <> [] ->
  fetch (payloadOf s) = FetchResponse status statusText (BodyJson data) ->
  response_ok status = true ->
  error_truthy (data_error data) = false ->
  data_results data = Some results ->
  results <> [] ->
  analyzePoints fetch s
  = (Normal tt, exec (showLoading false) (exec (render results) (requested s))).
Proof.
  intros Hne Hfetch Hok Herr Hres Hresne.
  rewrite analyzePoints_requesting by assumption.
  unfold try_finally, try_catch. rewrite run_bind, requestScores_run.
  rewrite Hfetch, Hok, Hres.
  destruct results as [|r rest]; [congruence|].
  assert (Hcheck : match data_error data with
                   | Some msg => when (truthy msg) (throw (ErrorMessage msg))
                   | None => mret tt
                   end (requested s) = (Normal tt, requested s)).
  { unfold error_truthy in Herr. destruct (data_error data) as [msg|]; [|reflexivity].
    cbn [when]. rewrite Herr. reflexivity. }
  erewrite run_bind_normal by exact Hcheck.
  fold (render (r :: rest)). unfold exec.
  assert (Hrender : completion (render (r :: rest)) (requested s) = Normal tt).
  { unfold completion, render. rewrite run_bind.
    pose proof (displayResults_completes (r :: rest) (requested s)) as Hd.
    unfold completion in Hd.
    destruct (displayResults (r :: rest) (requested s)) as [c1 s1]. cbn in Hd.
    rewrite Hd. apply updateAnalysisHeatmap_completes. }
  unfold completion in Hrender.
  destruct (render (r :: rest) (requested s)) as [c2 s2]. cbn in Hrender.
  rewrite Hrender. reflexivity.
Qed.

Lemma collected_nil : collected [] = [].
Proof. reflexivity. Qed.

(** C7.  With no structure placed, an analysis run sends no request, shows
    the message asking for a structure, returns normally, and leaves the
    rows, the heat group and the stored result array as they were. *)
Theorem analyze_without_placements fetch s :
  drawnLayers s = [] ->
  let s' := exec (analyzePoints fetch) s in
  completion (analyzePoints fetch) s = Normal tt /\
  requests s' = requests s /\
  alerts s' = alerts s ++ [pleasePlace] /\
  recommendations (dom s') = recommendations (dom s) /\
  heatLayer s' = heatLayer s /\
  analysisResults s' = analysisResults s.
Proof.
  intros Hempty s'. subst s'. unfold completion, exec.
  rewrite analyzePoints_empty by (rewrite Hempty; apply collected_nil).
  repeat split.
Qed.

Lemma analyze_without_placements_witness :
  drawnLayers Scenario.emptied3 = [] /\
  requests (exec (analyzePoints Scenario.serverError) Scenario.emptied3)
  = requests Scenario.emptied3 /\
  recommendations (dom (exec (analyzePoints Scenario.serverError) Scenario.emptied3))
  = recommendations (dom Scenario.emptied3).
Proof.
  assert (H : drawnLayers Scenario.emptied3 = []) by (vm_compute; reflexivity).
  split; [exact H|].
  destruct (analyze_without_placements Scenario.serverError Scenario.emptied3 H)
    as (_ & Hreq & _ & Hrows & _).
  split; [exact Hreq | exact Hrows].
Defined.

(** C6, as the script has it.  When the request of a run comes back with a
    status outside 200..299, or with a body whose [error] field is a
    non-empty string, the run shows the failure message, returns normally,
    leaves the rows, the circles and the stored result array as they were,
    and the loading indicator, if the page has one, is hidden. *)
Theorem failed_response_keeps_render fetch s status statusText body :
  collected (drawnLayers s) <> [] ->
  fetch (payloadOf s) = FetchResponse status statusText body ->
  (response_ok status = false \/
   exists data, body = BodyJson data /\ error_truthy (data_error data) = true) ->
  let s' := exec (analyzePoints fetch) s in
  completion (analyzePoints fetch) s = Normal tt /\
  (exists e, alerts s' = alerts s ++ [AlertAnalysisFailed e]) /\
  recommendations (dom s') = recommendations (dom s) /\
  heatLayer s' = heatLayer s /\
  analysisResults s' = analysisResults s /\
  loading (dom s') = (fun _ => false) <$> loading (dom s).
Proof.
  intros Hne Hfetch Hfail s'. subst s'.
  assert (Herr : exists e, responseError (fetch (payloadOf s)) = Some e).
  { rewrite Hfetch. unfold responseError.
    destruct Hfail as [Hnok|(data & -> & Htruthy)].
    - rewrite Hnok. eauto.
    - destruct (response_ok status); [|eauto].
      unfold error_truthy in Htruthy.
      destruct (data_error data) as [msg|]; [|discriminate].
      rewrite Htruthy. eauto. }
  destruct Herr as [e Herr]. unfold completion, exec.
  rewrite (analyzePoints_failed fetch s e) by assumption.
  split; [reflexivity|]. split; [exists e; reflexivity|].
  do 3 (split; [reflexivity|]).
  cbn. destruct (loading (dom s)); reflexivity.
Qed.

Lemma failed_response_keeps_render_witness :
  collected (drawnLayers Scenario.analyzed3) <> [] /\
  response_ok 500 = false /\
  recommendations (dom (exec (analyzePoints Scenario.serverError) Scenario.analyzed3))
  = recommendations (dom Scenario.analyzed3) /\
  heatLayer (exec (analyzePoints Scenario.serverError) Scenario.analyzed3)
  = heatLayer Scenario.analyzed3 /\
  loading (dom (exec (analyzePoints Scenario.serverError) Scenario.analyzed3))
  = (fun _ => false) <$> loading (dom Scenario.analyzed3).
Proof.
  assert (Hne : collected (drawnLayers Scenario.analyzed3) <> [])
    by (vm_compute; discriminate).
  split; [exact Hne|]. split; [reflexivity|].
  destruct (failed_response_keeps_render Scenario.serverError Scenario.analyzed3
              500%Z "INTERNAL SERVER ERROR"
              (BodyJson {| data_error := Some "boom"; data_results := None |})
              Hne eq_refl (or_introl eq_refl))
    as (_ & _ & Hrows & Hheat & _ & Hload).
  split; [exact Hrows|]. split; [exact Hheat | exact Hload].
Defined.

(** C6, as the claim has it, fails: a 200 body that contains an [error]
    field holding the empty string is not taken as a failure; its results
    are rendered over the rows shown before and no message is shown. *)
Lemma error_field_counterexample :
  (exists status statusText data,
     Scenario.servesWithEmptyError Scenario.results1 (payloadOf Scenario.analyzed3)
     = FetchResponse status statusText (BodyJson data) /\
     is_Some (data_error data)) /\
  recommendations
    (dom (exec (analyzePoints (Scenario.servesWithEmptyError Scenario.results1))
               Scenario.analyzed3))
  <> recommendations (dom Scenario.analyzed3) /\
  alerts (exec (analyzePoints (Scenario.servesWithEmptyError Scenario.results1))
               Scenario.analyzed3)
  = alerts Scenario.analyzed3.
Proof.
  split; [|split].
  - eexists _, _, _. split; [reflexivity|]. eexists. reflexivity.
  - vm_compute. discriminate.
  - vm_compute. reflexivity.
Qed.

(** ** Rendering a result array *)

Lemma displayResults_frame results s :
  heatLayer (exec (displayResults results) s) = heatLayer s /\
  layer_heatmap (dom (exec (displayResults results) s)) = layer_heatmap (dom s) /\
  selectedPoints (exec (displayResults results) s) = selectedPoints s.
Proof.
  unfold exec. destruct (recommendations (dom s)) as [c|] eqn:Hc.
  - erewrite displayResults_present by eassumption. repeat split.
  - rewrite displayResults_absent by assumption. repeat split.
Qed.

Lemma render_run results s :
  render results s
  = updateAnalysisHeatmap results (exec (displayResults results) s).
Proof.
  unfold render. rewrite run_bind.
  pose proof (displayResults_completes results s) as Hd.
  unfold completion, exec in *.
  destruct (displayResults results s) as [c s1]. cbn in *. rewrite Hd.
  reflexivity.
Qed.

(** C9.  When a run gets a 2xx answer without a truthy [error] and with
    results of which at least one has a defined mean temperature, while the
    heat-map box is unchecked, the run ends with the box checked and the
    heat group on the map, wherever the group was before. *)
Theorem analysis_forces_heatmap_on fetch s status statusText data results :
  collected (drawnLayers s) <> [] ->
  fetch (payloadOf s) = FetchResponse status statusText (BodyJson data) ->
  response_ok status = true ->
  error_truthy (data_error data) = false ->
  data_results data = Some results ->
  (exists r t, r ∈ results /\ meanTempOf r = Some t) ->
  layer_heatmap (dom s) = Some false ->
  layer_heatmap (dom (exec (analyzePoints fetch) s)) = Some true /\
  hl_onMap (heatLayer (exec (analyzePoints fetch) s)) = true.
Proof.
  intros Hne Hfetch Hok Herr Hres Hdef Hbox.
  pose proof Hdef as (r0 & _ & Hr0 & _).
  assert (Hresne : results <> []) by (intros ->; inversion Hr0).
  apply definedTemps_nonempty in Hdef.
  destruct (tempRange_defined results Hdef) as (mn & mx & Hrange & _).
  assert (Hrun : exec (analyzePoints fetch) s
                 = exec (showLoading false)
                     (heatmapDrawn mn mx results
                        (exec (displayResults results) (requested s)))).
  { unfold exec at 1. erewrite analyzePoints_rendered by eassumption.
    cbn [snd]. f_equal. unfold exec at 1. rewrite render_run.
    erewrite updateAnalysisHeatmap_defined by eassumption. reflexivity. }
  rewrite Hrun. unfold heatmapDrawn.
  destruct (displayResults_frame results (requested s)) as (_ & Hbox' & _).
  rewrite Hbox'.
  assert (Hreq : layer_heatmap (dom (requested s)) = Some false)
    by (rewrite <- Hbox; reflexivity).
  rewrite Hreq, bool_decide_eq_true_2 by reflexivity.
  split; reflexivity.
Qed.

Lemma analysis_forces_heatmap_on_witness :
  collected (drawnLayers Scenario.placed3) <> [] /\
  layer_heatmap (dom Scenario.placed3) = Some false /\
  hl_onMap (heatLayer Scenario.placed3) = false /\
  layer_heatmap (dom (exec (analyzePoints (Scenario.serves Scenario.results3))
                           Scenario.placed3)) = Some true /\
  hl_onMap (heatLayer (exec (analyzePoints (Scenario.serves Scenario.results3))
                            Scenario.placed3)) = true.
Proof.
  assert (Hne : collected (drawnLayers Scenario.placed3) <> [])
    by (vm_compute; discriminate).
  split; [exact Hne|]. split; [reflexivity|]. split; [reflexivity|].
  apply (analysis_forces_heatmap_on (Scenario.serves Scenario.results3)
           Scenario.placed3 200%Z "OK"
           {| data_error := None; data_results := Some Scenario.results3 |}
           Scenario.results3 Hne eq_refl eq_refl eq_refl eq_refl).
  - exists (Scenario.result 1 2 80 (Some 30%Q)), 30%Q.
    split; [apply list_elem_of_here | reflexivity].
  - reflexivity.
Defined.

Lemma withTemp_cons_Some r t rest :
  meanTempOf r = Some t -> withTemp (r :: rest) = r :: withTemp rest.
Proof.
  intros Ht. unfold withTemp. apply filter_cons_True. rewrite Ht. eauto.
Qed.

Lemma withTemp_cons_None r rest :
  meanTempOf r = None -> withTemp (r :: rest) = withTemp rest.
Proof.
  intros Ht. unfold withTemp. apply filter_cons_False. rewrite Ht.
  apply is_Some_None.
Qed.

Lemma circlesFor_positions minTemp maxTemp results :
  circlePosition <$> circlesFor minTemp maxTemp results
  = resultPosition <$> withTemp results.
Proof.
  induction results as [|r rest IH]; [reflexivity|].
  destruct (meanTempOf r) as [t|] eqn:Ht.
  - rewrite (withTemp_cons_Some r t) by assumption.
    unfold circlesFor in *. cbn [omap list_omap]. rewrite Ht.
    cbn [fmap option_fmap option_map list_fmap]. rewrite IH. reflexivity.
  - rewrite withTemp_cons_None by assumption.
    unfold circlesFor in *. cbn [omap list_omap]. rewrite Ht. exact IH.
Qed.

Lemma withTemp_undefined results :
  definedTemps results = [] -> withTemp results = [].
Proof.
  unfold definedTemps. induction results as [|r rest IH]; [reflexivity|].
  intros Hnil. cbn [omap list_omap] in Hnil.
  destruct (meanTempOf r) as [t|] eqn:Ht; [discriminate|].
  rewrite withTemp_cons_None by assumption. auto.
Qed.

Lemma withTemp_all results :
  (forall r, r ∈ results -> is_Some (meanTempOf r)) -> withTemp results = results.
Proof.
  induction results as [|r rest IH]; intros Hall; [reflexivity|].
  destruct (Hall r (list_elem_of_here _ _)) as [t Ht].
  rewrite (withTemp_cons_Some r t) by assumption. f_equal. apply IH.
  intros r' Hr'. apply Hall, list_elem_of_further, Hr'.
Qed.

(** The heat-map update leaves the rows alone and draws one circle per
    result with a temperature, at that result's position. *)
Lemma updateAnalysisHeatmap_effect results s :
  recommendations (dom (exec (updateAnalysisHeatmap results) s))
  = recommendations (dom s) /\
  circlePosition <$> shownCircles (exec (updateAnalysisHeatmap results) s)
  = resultPosition <$> withTemp results.
Proof.
  unfold exec, shownCircles.
  destruct results as [|r rest] eqn:Hres; [split; reflexivity|]. rewrite <- Hres.
  assert (Hne : results <> []) by (rewrite Hres; discriminate).
  destruct (definedTemps results) as [|t ts] eqn:Hts.
  - rewrite updateAnalysisHeatmap_undefined by assumption.
    rewrite withTemp_undefined by assumption. split; reflexivity.
  - destruct (tempRange_defined results) as (mn & mx & Hrange & _);
      [rewrite Hts; discriminate|].
    erewrite updateAnalysisHeatmap_defined by eassumption.
    unfold heatmapDrawn.
    destruct (bool_decide (layer_heatmap (dom s) = Some false)); cbn;
      (split; [reflexivity | apply circlesFor_positions]).
Qed.

Lemma rowsFor_lookup pts results i :
  rowsFor pts results !! i = (fun r => renderRow pts r i) <$> results !! i.
Proof. unfold rowsFor. apply list_lookup_imap. Qed.

Lemma render_rows results s c :
  recommendations (dom s) = Some c ->
  shownRows (exec (render results) s) = rowsFor (selectedPoints s) results.
Proof.
  intros Hc. unfold exec at 1. rewrite render_run. fold (exec (updateAnalysisHeatmap results) (exec (displayResults results) s)).
  unfold shownRows.
  rewrite (proj1 (updateAnalysisHeatmap_effect results _)).
  unfold exec. erewrite displayResults_present by eassumption. reflexivity.
Qed.

Lemma render_completes results s :
  completion (render results) s = Normal tt.
Proof.
  unfold completion. rewrite render_run. apply updateAnalysisHeatmap_completes.
Qed.

(** C5, as the script has it.  On a page with the results container, for a
    non-empty list of points and as many results, rendering returns
    normally and shows exactly one row per result, the row at each index
    built from the result at that index and labelled with the type of the
    point at that index; the circles drawn are exactly one per result with
    a defined mean temperature, at that result's position and in the order
    of the results, so there are as many circles as results when every
    result has a temperature. *)
Theorem render_rows_and_circles results s c :
  recommendations (dom s) = Some c ->
  selectedPoints s <> [] ->
  length results = length (selectedPoints s) ->
  completion (render results) s = Normal tt /\
  length (shownRows (exec (render results) s)) = length results /\
  (forall i point, selectedPoints s !! i = Some point ->
     exists result row,
       results !! i = Some result /\
       shownRows (exec (render results) s) !! i = Some row /\
       row = renderRow (selectedPoints s) result i /\
       row_structureType row = sp_type point /\
       row_detailIndex row = i) /\
  circlePosition <$> shownCircles (exec (render results) s)
  = resultPosition <$> withTemp results /\
  ((forall r, r ∈ results -> is_Some (meanTempOf r)) ->
   length (shownCircles (exec (render results) s)) = length results).
Proof.
  intros Hc Hpts Hlen.
  assert (Hcircles : circlePosition <$> shownCircles (exec (render results) s)
                     = resultPosition <$> withTemp results).
  { unfold exec at 1. rewrite render_run.
    apply (updateAnalysisHeatmap_effect results). }
  split; [apply render_completes|].
  rewrite (render_rows results s c Hc).
  split; [apply length_imap|]. split; [|split; [exact Hcircles|]].
  - intros i point Hpoint.
    assert (Hi : i < length results)
      by (rewrite Hlen; eapply lookup_lt_Some; eassumption).
    destruct (lookup_lt_is_Some_2 results i Hi) as [result Hresult].
    exists result, (renderRow (selectedPoints s) result i).
    split; [exact Hresult|].
    split; [rewrite rowsFor_lookup, Hresult; reflexivity|].
    split; [reflexivity|]. split; [|reflexivity].
    cbn. unfold structureTypeAt. rewrite Hpoint. reflexivity.
  - intros Hall.
    rewrite <- (length_fmap circlePosition), Hcircles, length_fmap.
    rewrite withTemp_all by assumption. reflexivity.
Qed.

Lemma render_rows_and_circles_witness :
  selectedPoints (snapshot Scenario.placed3) <> [] /\
  length Scenario.results3 = length (selectedPoints (snapshot Scenario.placed3)) /\
  length (shownRows (exec (render Scenario.results3) (snapshot Scenario.placed3)))
  = length Scenario.results3 /\
  circlePosition <$> shownCircles (exec (render Scenario.results3)
                                        (snapshot Scenario.placed3))
  = resultPosition <$> withTemp Scenario.results3.
Proof.
  assert (Hpts : selectedPoints (snapshot Scenario.placed3) <> [])
    by (vm_compute; discriminate).
  assert (Hlen : length Scenario.results3
                 = length (selectedPoints (snapshot Scenario.placed3)))
    by reflexivity.
  split; [exact Hpts|]. split; [exact Hlen|].
  destruct (render_rows_and_circles Scenario.results3 (snapshot Scenario.placed3)
              {| c_heading := false; c_rows := [] |} eq_refl Hpts Hlen)
    as (_ & Hrows & _ & Hcircles & _).
  split; [exact Hrows | exact Hcircles].
Defined.

(** C5, as the claim has it, fails: one point and one result without a
    temperature give one row and no circle. *)
Lemma render_marker_count_counterexample :
  selectedPoints (snapshot Scenario.placed1) <> [] /\
  length Scenario.results1 = length (selectedPoints (snapshot Scenario.placed1)) /\
  length (shownRows (exec (render Scenario.results1) (snapshot Scenario.placed1)))
  = length Scenario.results1 /\
  length (shownCircles (exec (render Scenario.results1) (snapshot Scenario.placed1)))
  <> length Scenario.results1.
Proof.
  split; [vm_compute; discriminate|]. split; [reflexivity|].
  split; [vm_compute; reflexivity | vm_compute; discriminate].
Qed.

(** ** Detail view and length mismatch *)

Lemma showDetailedAnalysis_no_result index s :
  resultAt s index = None ->
  showDetailedAnalysis index s = (Normal tt, s).
Proof.
  unfold resultAt, showDetailedAnalysis. intros Hnone.
  rewrite run_bind. cbn [get]. rewrite Hnone. reflexivity.
Qed.

Lemma showDetailedAnalysis_shown index s result m b :
  resultAt s index = Some result ->
  rec_modal (dom s) = Some m ->
  rec_body (dom s) = Some b ->
  showDetailedAnalysis index s
  = (Normal tt,
     set_dom (set_rec_modal (Some true))
       (set_dom (set_rec_body
                   (Some (Some (renderDetail (selectedPoints s) result index)))) s)).
Proof.
  unfold resultAt, showDetailedAnalysis. intros Hres Hm Hb.
  rewrite run_bind. cbn [get]. rewrite Hres, Hm, Hb. reflexivity.
Qed.

Lemma structureTypeAt_beyond pts idx :
  length pts <= idx -> structureTypeAt pts idx = "Unknown".
Proof.
  intros Hle. unfold structureTypeAt.
  rewrite (lookup_ge_None_2 pts idx) by exact Hle. reflexivity.
Qed.

(** C10.  On a page with the results container, displaying a result array
    returns normally with one row per result, and every row whose index has
    no point in [selectedPoints] is labelled [Unknown]; opening the detail
    view at an index that has a result but no point writes a detail
    labelled [Unknown] and shows the modal; opening it at an index with no
    result in the stored array returns normally and changes nothing. *)
Theorem rendering_total_on_length_mismatch results s index :
  (forall c, recommendations (dom s) = Some c ->
     completion (displayResults results) s = Normal tt /\
     length (shownRows (exec (displayResults results) s)) = length results /\
     (forall idx, idx < length results -> length (selectedPoints s) <= idx ->
        exists row,
          shownRows (exec (displayResults results) s) !! idx = Some row /\
          row_structureType row = "Unknown" /\ row_title row = "Unknown")) /\
  (forall result m b,
     resultAt s index = Some result ->
     length (selectedPoints s) <= index ->
     rec_modal (dom s) = Some m ->
     rec_body (dom s) = Some b ->
     completion (showDetailedAnalysis index) s = Normal tt /\
     rec_modal (dom (exec (showDetailedAnalysis index) s)) = Some true /\
     exists detail,
       shownDetail (exec (showDetailedAnalysis index) s) = Some detail /\
       d_structureType detail = "Unknown" /\ d_score detail = r_score result) /\
  (resultAt s index = None ->
   showDetailedAnalysis index s = (Normal tt, s)).
Proof.
  split; [|split].
  - intros c Hc. split; [apply displayResults_completes|].
    unfold exec, shownRows. erewrite displayResults_present by eassumption.
    cbn [snd dom set_dom recommendations set_recommendations from_option c_rows
         set_analysisResults selectedPoints].
    split; [apply length_imap|].
    intros idx Hidx Hpts.
    destruct (lookup_lt_is_Some_2 results idx Hidx) as [result Hresult].
    exists (renderRow (selectedPoints s) result idx).
    split; [rewrite rowsFor_lookup, Hresult; reflexivity|].
    cbn. rewrite structureTypeAt_beyond by assumption. split; reflexivity.
  - intros result m b Hres Hpts Hm Hb. unfold completion, exec, shownDetail.
    erewrite showDetailedAnalysis_shown by eassumption.
    split; [reflexivity|]. split; [reflexivity|].
    exists (renderDetail (selectedPoints s) result index).
    split; [reflexivity|]. cbn.
    rewrite structureTypeAt_beyond by assumption. split; reflexivity.
  - apply showDetailedAnalysis_no_result.
Qed.

Lemma rendering_total_on_length_mismatch_witness :
  length (selectedPoints (snapshot Scenario.placed1)) <= 2 /\
  2 < length Scenario.results3 /\
  (exists row,
     shownRows (exec (displayResults Scenario.results3)
                     (snapshot Scenario.placed1)) !! 2 = Some row /\
     row_structureType row = "Unknown" /\ row_title row = "Unknown") /\
  resultAt Scenario.analyzed3 7 = None /\
  showDetailedAnalysis 7 Scenario.analyzed3 = (Normal tt, Scenario.analyzed3).
Proof.
  assert (Hpts : length (selectedPoints (snapshot Scenario.placed1)) <= 2)
    by (vm_compute; lia).
  assert (Hidx : 2 < length Scenario.results3) by (vm_compute; lia).
  assert (Hnone : resultAt Scenario.analyzed3 7 = None) by (vm_compute; reflexivity).
  split; [exact Hpts|]. split; [exact Hidx|]. split.
  - destruct (proj1 (rendering_total_on_length_mismatch Scenario.results3
                       (snapshot Scenario.placed1) 0)
                    {| c_heading := false; c_rows := [] |} eq_refl)
      as (_ & _ & Hrows).
    exact (Hrows 2 Hidx Hpts).
  - split; [exact Hnone|].
    exact (proj2 (proj2 (rendering_total_on_length_mismatch Scenario.results3
                           Scenario.analyzed3 7)) Hnone).
Defined.

(** ** Results after the placements change *)

Lemma removeMarker_keeps_rendering layerId s :
  recommendations (dom (exec (removeMarker layerId) s)) = recommendations (dom s) /\
  heatLayer (exec (removeMarker layerId) s) = heatLayer s /\
  analysisResults (exec (removeMarker layerId) s) = analysisResults s /\
  selectedPoints (exec (removeMarker layerId) s) = selectedPoints s.
Proof. repeat split. Qed.

Lemma clearAllMarkers_keeps_results s :
  analysisResults (exec clearAllMarkers s) = analysisResults s /\
  shownCircles (exec clearAllMarkers s) = [] /\
  shownRows (exec clearAllMarkers s) = [] /\
  selectedPoints (exec clearAllMarkers s) = [].
Proof.
  unfold exec, clearAllMarkers, shownRows, shownCircles.
  erewrite run_bind_normal by reflexivity.
  erewrite run_bind_normal by reflexivity.
  rewrite run_bind. cbn [get]. cbn.
  destruct (recommendations (dom s)) as [c|] eqn:Hc; cbn;
    erewrite run_bind_normal by reflexivity; cbn; rewrite ?Hc; repeat split.
Qed.

(** C2 at a concrete run: three structures are placed and analysed.
    Removing the first marker leaves the three rows, the two circles and
    the stored result array in place, and the detail view still opens the
    first result; clearing all markers empties the rows and the circles but
    keeps the stored result array, so the detail view still opens the
    second result, now labelled [Unknown]. *)
Lemma stale_results_after_placement_change :
  length (drawnLayers (exec (removeMarker 0) Scenario.analyzed3)) = 2 /\
  length (shownRows (exec (removeMarker 0) Scenario.analyzed3)) = 3 /\
  length (shownCircles (exec (removeMarker 0) Scenario.analyzed3)) = 2 /\
  analysisResults (exec (removeMarker 0) Scenario.analyzed3)
  = Some Scenario.results3 /\
  shownDetail (exec (removeMarker 0;; showDetailedAnalysis 0) Scenario.analyzed3)
  = Some (renderDetail (selectedPoints Scenario.analyzed3)
                       (Scenario.result 1 2 80 (Some 30%Q)) 0) /\
  drawnLayers (exec clearAllMarkers Scenario.analyzed3) = [] /\
  shownRows (exec clearAllMarkers Scenario.analyzed3) = [] /\
  shownCircles (exec clearAllMarkers Scenario.analyzed3) = [] /\
  analysisResults (exec clearAllMarkers Scenario.analyzed3)
  = Some Scenario.results3 /\
  shownDetail (exec (clearAllMarkers;; showDetailedAnalysis 1) Scenario.analyzed3)
  = Some (renderDetail [] (Scenario.result 3 4 45 None) 1).
Proof. vm_compute. repeat split. Qed.

(** * Further properties *)

(** ** Tile URLs *)

Lemma string_length_append (a b : string) :
  String.length (a +:+ b) = String.length a + String.length b.
Proof.
  induction a as [|c a IH]; [reflexivity|].
  change (S (String.length (a +:+ b)) = S (String.length a + String.length b)).
  rewrite IH. reflexivity.
Qed.

Lemma string_append_inj_r (a b t : string) : a +:+ t = b +:+ t -> a = b.
Proof.
  revert b. induction a as [|c a IH]; intros b Heq.
  - destruct b as [|c' b]; [reflexivity|].
    apply (f_equal String.length) in Heq.
    rewrite !string_length_append in Heq. simpl in Heq. lia.
  - destruct b as [|c' b].
    + apply (f_equal String.length) in Heq.
      rewrite !string_length_append in Heq. simpl in Heq. lia.
    + simpl in Heq. injection Heq as -> Heq. f_equal. apply IH, Heq.
Qed.

(** X1.  For one layer configuration, two dates give the same tile URL only
    when they are the same date. *)
Theorem createGIBSTileUrl_date_inj (cfg : LayerConfig) (d1 d2 : string) :
  createGIBSTileUrl cfg d1 = createGIBSTileUrl cfg d2 <-> d1 = d2.
Proof.
  split; [|intros ->; reflexivity].
  unfold createGIBSTileUrl. intros Heq.
  do 3 apply String.app_inj in Heq.
  apply string_append_inj_r in Heq. exact Heq.
Qed.

(** ** Initialization *)

Lemma L_tileLayer_ok throws cfg date s :
  throws (createGIBSTileUrl cfg date) = false ->
  L_tileLayer throws cfg date s = (Normal (builtLayer cfg date false), s).
Proof. intros Hok. unfold L_tileLayer. rewrite Hok. reflexivity. Qed.

Lemma initializeGIBSLayers_ok throws s :
  buildsSucceed throws (date_text (currentDate s)) ->
  initializeGIBSLayers throws s
  = (Normal tt, set_activeLayers (initAll (date_text (currentDate s))) s).
Proof.
  intros Hok. unfold initializeGIBSLayers. apply run_try_catch_normal.
  rewrite run_bind. cbn [get].
  erewrite run_bind_normal
    by (apply L_tileLayer_ok, (Hok "temperature"); set_solver).
  erewrite run_bind_normal by reflexivity.
  erewrite run_bind_normal
    by (apply L_tileLayer_ok, (Hok "nightLights"); set_solver).
  erewrite run_bind_normal by reflexivity.
  erewrite run_bind_normal
    by (apply L_tileLayer_ok, (Hok "vegetation"); set_solver).
  reflexivity.
Qed.

Lemma initAll_lookup date m key cfg :
  (key, cfg) ∈ Gibs.layers ->
  initAll date m !! key
  = Some (builtLayer cfg date (bool_decide (key = "temperature"))).
Proof.
  intros Hin. unfold Gibs.layers in Hin. elem_of_cases Hin; simplify_eq;
    unfold initAll; simplify_map_eq; reflexivity.
Qed.

Lemma initAll_lookup_other date m key :
  (forall cfg, (key, cfg) ∉ Gibs.layers) ->
  initAll date m !! key = m !! key.
Proof.
  intros Hnot. unfold initAll.
  rewrite !lookup_insert_ne; [reflexivity|..]; intros <-;
    first [ solve [apply (Hnot Gibs.temperature); unfold Gibs.layers; set_solver]
          | solve [apply (Hnot Gibs.nightLights); unfold Gibs.layers; set_solver]
          | solve [apply (Hnot Gibs.vegetation); unfold Gibs.layers; set_solver] ].
Qed.

(** X2.  When the three tile sources build, initialization returns normally
    without logging, registers each of the three layers with the source for
    the current date, puts the temperature layer (and only it) on the map,
    and leaves every other key of the registry alone. *)
Theorem initializeGIBSLayers_registers throws s :
  buildsSucceed throws (date_text (currentDate s)) ->
  completion (initializeGIBSLayers throws) s = Normal tt /\
  console (exec (initializeGIBSLayers throws) s) = console s /\
  (forall key cfg, (key, cfg) ∈ Gibs.layers ->
     activeLayers (exec (initializeGIBSLayers throws) s) !! key
     = Some (builtLayer cfg (date_text (currentDate s))
                        (bool_decide (key = "temperature")))) /\
  (forall key, (forall cfg, (key, cfg) ∉ Gibs.layers) ->
     activeLayers (exec (initializeGIBSLayers throws) s) !! key
     = activeLayers s !! key).
Proof.
  intros Hok. unfold completion, exec.
  rewrite initializeGIBSLayers_ok by assumption. cbn.
  split; [reflexivity|]. split; [reflexivity|]. split.
  - intros key cfg Hin. apply initAll_lookup, Hin.
  - intros key Hnot. apply initAll_lookup_other, Hnot.
Qed.

Lemma initializeGIBSLayers_registers_witness :
  buildsSucceed Scenario.neverThrows
    (date_text (currentDate (set_currentDate (Some "2024-01-01") initialState))) /\
  tl_onMap <$> activeLayers Scenario.initialized !! "temperature" = Some true /\
  tl_onMap <$> activeLayers Scenario.initialized !! "nightLights" = Some false.
Proof.
  assert (Hok : buildsSucceed Scenario.neverThrows
            (date_text (currentDate (set_currentDate (Some "2024-01-01") initialState))))
    by (intros key cfg _; reflexivity).
  split; [exact Hok|].
  destruct (initializeGIBSLayers_registers Scenario.neverThrows
              (set_currentDate (Some "2024-01-01") initialState) Hok)
    as (_ & _ & Hreg & _).
  unfold Scenario.initialized. split.
  - rewrite (Hreg "temperature" Gibs.temperature) by (unfold Gibs.layers; set_solver).
    reflexivity.
  - rewrite (Hreg "nightLights" Gibs.nightLights) by (unfold Gibs.layers; set_solver).
    reflexivity.
Defined.

(** ** Date changes compose *)

Lemma rebuildAll_lookup d m key cfg :
  (key, cfg) ∈ Gibs.layers ->
  rebuildAll d m !! key = rebuiltLayer cfg d <$> m !! key.
Proof.
  intros Hin. unfold Gibs.layers in Hin. unfold rebuildAll.
  elem_of_cases Hin; simplify_eq.
  - rewrite !rebuildEntry_other by discriminate.
    unfold rebuildEntry. destruct (m !! "temperature") as [old|] eqn:Hk.
    + rewrite lookup_insert_eq. reflexivity.
    + rewrite Hk. reflexivity.
  - rewrite rebuildEntry_other by discriminate.
    unfold rebuildEntry at 1. rewrite rebuildEntry_other by discriminate.
    destruct (m !! "nightLights") as [old|] eqn:Hk.
    + rewrite lookup_insert_eq. reflexivity.
    + rewrite rebuildEntry_other, Hk by discriminate. reflexivity.
  - unfold rebuildEntry at 1. rewrite !rebuildEntry_other by discriminate.
    destruct (m !! "vegetation") as [old|] eqn:Hk.
    + rewrite lookup_insert_eq. reflexivity.
    + rewrite !rebuildEntry_other, Hk by discriminate. reflexivity.
Qed.

Lemma rebuildAll_lookup_other d m key :
  (forall cfg, (key, cfg) ∉ Gibs.layers) ->
  rebuildAll d m !! key = m !! key.
Proof.
  intros Hnot. unfold rebuildAll.
  rewrite !rebuildEntry_other; [reflexivity|..]; intros <-;
    first [ solve [apply (Hnot Gibs.temperature); unfold Gibs.layers; set_solver]
          | solve [apply (Hnot Gibs.nightLights); unfold Gibs.layers; set_solver]
          | solve [apply (Hnot Gibs.vegetation); unfold Gibs.layers; set_solver] ].
Qed.

(** Every key is one of the three configured keys or none of them. *)
Lemma layer_key_cases key :
  (exists cfg, (key, cfg) ∈ Gibs.layers) \/ (forall cfg, (key, cfg) ∉ Gibs.layers).
Proof.
  unfold Gibs.layers.
  destruct (decide (key = "temperature")) as [->|H1];
    [left; exists Gibs.temperature; set_solver|].
  destruct (decide (key = "nightLights")) as [->|H2];
    [left; exists Gibs.nightLights; set_solver|].
  destruct (decide (key = "vegetation")) as [->|H3];
    [left; exists Gibs.vegetation; set_solver|].
  right. intros cfg Hin. elem_of_cases Hin; simplify_eq.
Qed.

Lemma rebuildAll_rebuildAll d1 d2 m :
  rebuildAll d2 (rebuildAll d1 m) = rebuildAll d2 m.
Proof.
  apply map_eq. intros key.
  destruct (layer_key_cases key) as [[cfg Hin]|Hnot].
  - rewrite !(rebuildAll_lookup _ _ key cfg) by assumption.
    destruct (m !! key); reflexivity.
  - rewrite !rebuildAll_lookup_other by assumption. reflexivity.
Qed.

(** X3.  With the tile sources of both dates building, changing the date to
    [d1] and then to [d2] ends in exactly the state that changing it to
    [d2] alone ends in; in particular setting the same date twice is the
    same as setting it once. *)
Theorem setDate_last_wins throws s d1 d2 :
  buildsSucceed throws d1 ->
  buildsSucceed throws d2 ->
  exec (updateGIBSLayersWithDate throws d1;; updateGIBSLayersWithDate throws d2) s
  = exec (updateGIBSLayersWithDate throws d2) s.
Proof.
  intros H1 H2.
  rewrite (exec_bind_normal _ _ s tt)
    by (unfold completion; rewrite updateGIBSLayersWithDate_ok by assumption;
        reflexivity).
  unfold exec. rewrite !updateGIBSLayersWithDate_ok by assumption. cbn.
  unfold set_activeLayers, set_currentDate. cbn.
  rewrite rebuildAll_rebuildAll. reflexivity.
Qed.

Lemma setDate_last_wins_witness :
  buildsSucceed Scenario.neverThrows "2024-02-01" /\
  buildsSucceed Scenario.neverThrows "2024-03-01" /\
  exec (updateGIBSLayersWithDate Scenario.neverThrows "2024-02-01";;
        updateGIBSLayersWithDate Scenario.neverThrows "2024-03-01")
       Scenario.initialized
  = exec (updateGIBSLayersWithDate Scenario.neverThrows "2024-03-01")
         Scenario.initialized.
Proof.
  assert (Hok : forall d, buildsSucceed Scenario.neverThrows d)
    by (intros d key cfg _; reflexivity).
  split; [apply Hok|]. split; [apply Hok|].
  apply (setDate_last_wins Scenario.neverThrows Scenario.initialized
           "2024-02-01" "2024-03-01"); apply Hok.
Defined.

Lemma rebuildAll_initAll d0 d m :
  rebuildAll d (initAll d0 m) = initAll d m.
Proof.
  apply map_eq. intros key.
  destruct (layer_key_cases key) as [[cfg Hin]|Hnot].
  - rewrite (rebuildAll_lookup _ _ key cfg) by assumption.
    rewrite !(initAll_lookup _ _ key cfg) by assumption. reflexivity.
  - rewrite rebuildAll_lookup_other, !initAll_lookup_other by assumption.
    reflexivity.
Qed.

(** X4.  Initializing for the current date and then changing the date to
    [d] ends in the state that initializing directly for [d] ends in, when
    the tile sources of both dates build. *)
Theorem initialize_then_setDate throws s d :
  buildsSucceed throws (date_text (currentDate s)) ->
  buildsSucceed throws d ->
  exec (initializeGIBSLayers throws;; updateGIBSLayersWithDate throws d) s
  = exec (initializeGIBSLayers throws) (set_currentDate (Some d) s).
Proof.
  intros H0 Hd.
  rewrite (exec_bind_normal _ _ s tt)
    by (unfold completion; rewrite initializeGIBSLayers_ok by assumption;
        reflexivity).
  unfold exec. rewrite updateGIBSLayersWithDate_ok by assumption.
  rewrite !initializeGIBSLayers_ok by assumption. cbn.
  unfold set_activeLayers, set_currentDate. cbn.
  rewrite rebuildAll_initAll. reflexivity.
Qed.

Lemma initialize_then_setDate_witness :
  buildsSucceed Scenario.neverThrows (date_text (currentDate initialState)) /\
  buildsSucceed Scenario.neverThrows "2024-03-01" /\
  exec (initializeGIBSLayers Scenario.neverThrows;;
        updateGIBSLayersWithDate Scenario.neverThrows "2024-03-01") initialState
  = exec (initializeGIBSLayers Scenario.neverThrows)
         (set_currentDate (Some "2024-03-01") initialState).
Proof.
  assert (Hok : forall d, buildsSucceed Scenario.neverThrows d)
    by (intros d key cfg _; reflexivity).
  split; [apply Hok|]. split; [apply Hok|].
  apply (initialize_then_setDate Scenario.neverThrows initialState "2024-03-01");
    apply Hok.
Defined.

(** ** What a date change never does *)

Lemma layersKept_refl s : layersKept s s.
Proof.
  split; [repeat split|]. split; [apply noneAttached_refl|].
  intros key. reflexivity.
Qed.

Lemma layersKept_trans s1 s2 s3 :
  layersKept s1 s2 -> layersKept s2 s3 -> layersKept s1 s3.
Proof.
  intros (Ha & Hb & Hc) (Ha' & Hb' & Hc'). split; [|split].
  - unfold onlyLayersChanged in *.
    destruct Ha as (?&?&?&?&?&?&?&?), Ha' as (?&?&?&?&?&?&?&?).
    repeat split; congruence.
  - eapply noneAttached_trans; eassumption.
  - intros key. etransitivity; [apply Hc' | apply Hc].
Qed.

Lemma exec_bind_preserves {A B} (R : State -> State -> Prop)
    (m : JS A) (k : A -> JS B) s :
  (forall s1 s2 s3, R s1 s2 -> R s2 s3 -> R s1 s3) ->
  R s (exec m s) ->
  (forall a s1, R s1 (exec (k a) s1)) ->
  R s (exec (m ≫= k) s).
Proof.
  unfold exec. intros Htrans Hm Hk. rewrite run_bind.
  destruct (m s) as [[a|e] s1]; cbn in *; [|exact Hm].
  eapply Htrans; [exact Hm | apply Hk].
Qed.

Lemma layersKept_bind {A B} (m : JS A) (k : A -> JS B) s :
  layersKept s (exec m s) ->
  (forall a s1, layersKept s1 (exec (k a) s1)) ->
  layersKept s (exec (m ≫= k) s).
Proof.
  unfold exec. intros Hm Hk. rewrite run_bind.
  destruct (m s) as [[a|e] s1]; cbn in *; [|exact Hm].
  eapply layersKept_trans; [exact Hm | apply Hk].
Qed.

Lemma layersKept_insert s key old new :
  activeLayers s !! key = Some old ->
  (tl_onMap new = true -> tl_onMap old = true) ->
  layersKept s (set_activeLayers (<[key := new]>) s).
Proof.
  intros Hk Hmap. split; [repeat split|]. split.
  - intros k. cbn. destruct (decide (key = k)) as [<-|Hne].
    + rewrite lookup_insert_eq, Hk. cbn. intros [= H]. rewrite Hmap; auto.
    + rewrite lookup_insert_ne by assumption. auto.
  - intros k. cbn. destruct (decide (key = k)) as [<-|Hne].
    + rewrite lookup_insert_eq, Hk. split; eauto.
    + rewrite lookup_insert_ne by assumption. reflexivity.
Qed.

Lemma rebuildLayer_layersKept throws key cfg d s :
  layersKept s (exec (rebuildLayer throws key cfg d) s).
Proof.
  unfold exec.
  destruct (activeLayers s !! key) as [old|] eqn:Hk;
    [|rewrite rebuildLayer_absent by assumption; apply layersKept_refl].
  destruct (throws (createGIBSTileUrl cfg d)) eqn:Hthrows.
  - erewrite rebuildLayer_fail by eassumption.
    eapply layersKept_insert; [eassumption | discriminate].
  - erewrite rebuildLayer_ok by eassumption.
    eapply layersKept_insert; [eassumption | auto].
Qed.

(** The frame of a date change, for every engine. *)
Lemma setDate_frame throws d s :
  completion (updateGIBSLayersWithDate throws d) s = Normal tt /\
  onlyLayersChanged s (exec (updateGIBSLayersWithDate throws d) s) /\
  noneAttached s (exec (updateGIBSLayersWithDate throws d) s) /\
  sameKeys s (exec (updateGIBSLayersWithDate throws d) s) /\
  currentDate (exec (updateGIBSLayersWithDate throws d) s) = Some d.
Proof.
  split; [apply updateGIBSLayersWithDate_completes|].
  assert (Hbody : layersKept s
            (exec (modify (set_currentDate (Some d));;
                   rebuildLayer throws "temperature" Gibs.temperature d;;
                   rebuildLayer throws "nightLights" Gibs.nightLights d;;
                   rebuildLayer throws "vegetation" Gibs.vegetation d) s) /\
          currentDate
            (exec (modify (set_currentDate (Some d));;
                   rebuildLayer throws "temperature" Gibs.temperature d;;
                   rebuildLayer throws "nightLights" Gibs.nightLights d;;
                   rebuildLayer throws "vegetation" Gibs.vegetation d) s) = Some d).
  { assert (Hdate : forall key cfg s1,
              currentDate (exec (rebuildLayer throws key cfg d) s1) = currentDate s1).
    { intros key cfg s1. unfold exec.
      destruct (activeLayers s1 !! key) as [old|] eqn:Hk;
        [|rewrite rebuildLayer_absent by assumption; reflexivity].
      destruct (throws (createGIBSTileUrl cfg d)) eqn:Hthrows.
      - erewrite rebuildLayer_fail by eassumption. reflexivity.
      - erewrite rebuildLayer_ok by eassumption. reflexivity. }
    split.
    - apply layersKept_bind.
      { split; [repeat split|]. split; intros key; cbn; [auto | reflexivity]. }
      intros _ s1.
      apply layersKept_bind; [apply rebuildLayer_layersKept|]. intros _ s2.
      apply layersKept_bind; [apply rebuildLayer_layersKept|]. intros _ s3.
      apply rebuildLayer_layersKept.
    - rewrite (exec_bind_normal _ _ s tt) by reflexivity.
      set (s1 := exec (modify (set_currentDate (Some d))) s).
      change (currentDate
                (exec (rebuildLayer throws "temperature" Gibs.temperature d;;
                       rebuildLayer throws "nightLights" Gibs.nightLights d;;
                       rebuildLayer throws "vegetation" Gibs.vegetation d) s1)
              = currentDate s1).
      apply (exec_bind_preserves (fun a b => currentDate b = currentDate a));
        [intros; congruence | apply Hdate |]. intros _ s2.
      apply (exec_bind_preserves (fun a b => currentDate b = currentDate a));
        [intros; congruence | apply Hdate |]. intros _ s3.
      apply Hdate. }
  destruct Hbody as [(Hframe & Hatt & Hkeys) Hdate].
  unfold updateGIBSLayersWithDate, exec, try_catch in *.
  match goal with
  | |- context [match ?b with _ => _ end] => destruct b as [[a|e] s1]
  end; cbn in *; auto.
Qed.

(** X5.  Whatever the tile builds do, a date change returns normally and
    touches nothing but the imagery registry, the current date and the
    console: placed structures, selected points, results, the heat group,
    the page, alerts and requests are as before; it registers and
    unregisters no layer, and puts no layer on the map that was not on it. *)
Theorem setDate_touches_layers_only throws d s :
  completion (updateGIBSLayersWithDate throws d) s = Normal tt /\
  onlyLayersChanged s (exec (updateGIBSLayersWithDate throws d) s) /\
  noneAttached s (exec (updateGIBSLayersWithDate throws d) s) /\
  sameKeys s (exec (updateGIBSLayersWithDate throws d) s) /\
  currentDate (exec (updateGIBSLayersWithDate throws d) s) = Some d.
Proof. exact (setDate_frame throws d s). Qed.

(** ** Layer toggles *)

Lemma layerToggle_heat checked s :
  layerToggle "analysisHeat" checked s = heatToggle checked s.
Proof. reflexivity. Qed.

Lemma heatToggle_run checked s :
  heatToggle checked s
  = (Normal tt,
     set_heatLayer (fun h => {| hl_layers := hl_layers h; hl_onMap := checked |})
       (set_dom (fun d => set_layer_heatmap ((fun _ => checked) <$> layer_heatmap d) d)
                s)).
Proof. reflexivity. Qed.

Lemma layerToggle_absent key checked s :
  key <> "analysisHeat" ->
  activeLayers s !! key = None ->
  layerToggle key checked s = (Normal tt, s).
Proof.
  intros Hkey Hk. unfold layerToggle.
  destruct (String.eqb_spec key "analysisHeat") as [Heq|_]; [contradiction|].
  rewrite run_bind. cbn [get]. rewrite Hk. reflexivity.
Qed.

Lemma layerToggle_present key checked s layer :
  key <> "analysisHeat" ->
  activeLayers s !! key = Some layer ->
  layerToggle key checked s
  = (Normal tt, set_activeLayers (<[key := setOnMap checked layer]>) s).
Proof.
  intros Hkey Hk. unfold layerToggle.
  destruct (String.eqb_spec key "analysisHeat") as [Heq|_]; [contradiction|].
  rewrite run_bind. cbn [get]. rewrite Hk. reflexivity.
Qed.

Lemma setOnMap_own (l : TileLayer) : setOnMap (tl_onMap l) l = l.
Proof. destruct l as [? ? ? ? []]; reflexivity. Qed.

Lemma setOnMap_setOnMap a b (l : TileLayer) : setOnMap a (setOnMap b l) = setOnMap a l.
Proof. destruct a, b; reflexivity. Qed.

(** X6.  The toggle handler of an imagery key (any key but
    [analysisHeat]) changes nothing when no layer is registered under the
    key; for a registered layer it sets the attachment to the box and keeps
    the tile source, leaving the other layers alone; a later toggle
    overrides an earlier one, so toggling away and back to the attachment
    the layer had restores the state exactly.  The handler of the key
    [analysisHeat] instead puts the heat group on the map or takes it off
    as the box says, keeps its circles, and leaves the registry alone. *)
Theorem layerToggle_round_trip key s :
  (key <> "analysisHeat" ->
   (forall checked, activeLayers s !! key = None ->
      layerToggle key checked s = (Normal tt, s)) /\
   (forall checked layer, activeLayers s !! key = Some layer ->
      activeLayers (exec (layerToggle key checked) s) !! key
      = Some (setOnMap checked layer) /\
      tl_url (setOnMap checked layer) = tl_url layer /\
      tl_onMap (setOnMap checked layer) = checked /\
      heatLayer (exec (layerToggle key checked) s) = heatLayer s /\
      forall k, k <> key ->
        activeLayers (exec (layerToggle key checked) s) !! k = activeLayers s !! k) /\
   (forall a b layer, activeLayers s !! key = Some layer ->
      exec (layerToggle key a;; layerToggle key b) s = exec (layerToggle key b) s) /\
   (forall a layer, activeLayers s !! key = Some layer ->
      exec (layerToggle key a;; layerToggle key (tl_onMap layer)) s = s)) /\
  (forall checked,
     completion (layerToggle "analysisHeat" checked) s = Normal tt /\
     hl_onMap (heatLayer (exec (layerToggle "analysisHeat" checked) s)) = checked /\
     hl_layers (heatLayer (exec (layerToggle "analysisHeat" checked) s))
     = hl_layers (heatLayer s) /\
     layer_heatmap (dom (exec (layerToggle "analysisHeat" checked) s))
     = (fun _ => checked) <$> layer_heatmap (dom s) /\
     activeLayers (exec (layerToggle "analysisHeat" checked) s) = activeLayers s).
Proof.
  split; [|intros checked; repeat split].
  intros Hkey.
  assert (Htwice : forall a b layer, activeLayers s !! key = Some layer ->
            exec (layerToggle key a;; layerToggle key b) s
            = set_activeLayers (<[key := setOnMap b layer]>) s).
  { intros a b layer Hk.
    rewrite (exec_bind_normal _ _ s tt)
      by (unfold completion; erewrite layerToggle_present by eassumption;
          reflexivity).
    unfold exec at 2. erewrite layerToggle_present by eassumption. cbn [snd].
    unfold exec.
    erewrite (layerToggle_present key b _ (setOnMap a layer))
      by (try assumption; cbn; apply lookup_insert_eq).
    cbn. unfold set_activeLayers; cbn.
    rewrite insert_insert_eq, setOnMap_setOnMap. reflexivity. }
  split; [intros checked; apply layerToggle_absent, Hkey|]. split; [|split].
  - intros checked layer Hk. unfold exec.
    erewrite layerToggle_present by eassumption. cbn.
    split; [apply lookup_insert_eq|].
    split; [destruct checked; reflexivity|].
    split; [destruct checked; reflexivity|].
    split; [reflexivity|].
    intros k Hne. apply lookup_insert_ne. congruence.
  - intros a b layer Hk. rewrite (Htwice a b layer Hk).
    unfold exec. erewrite layerToggle_present by eassumption. reflexivity.
  - intros a layer Hk. rewrite (Htwice a _ layer Hk).
    rewrite setOnMap_own. unfold set_activeLayers.
    rewrite insert_id by assumption. destruct s; reflexivity.
Qed.

Lemma layerToggle_round_trip_witness :
  "nightLights" <> "analysisHeat" /\
  activeLayers Scenario.initialized !! "nightLights"
  = Some (builtLayer Gibs.nightLights "2024-01-01" false) /\
  tl_onMap <$> activeLayers
      (exec (layerToggle "nightLights" true) Scenario.initialized) !! "nightLights"
  = Some true /\
  exec (layerToggle "nightLights" true;; layerToggle "nightLights" false)
       Scenario.initialized
  = Scenario.initialized /\
  hl_onMap (heatLayer (exec (layerToggle "analysisHeat" true) Scenario.initialized))
  = true.
Proof.
  assert (Hkey : "nightLights" <> "analysisHeat") by discriminate.
  assert (Hk : activeLayers Scenario.initialized !! "nightLights"
               = Some (builtLayer Gibs.nightLights "2024-01-01" false))
    by (vm_compute; reflexivity).
  split; [exact Hkey|]. split; [exact Hk|].
  destruct (layerToggle_round_trip "nightLights" Scenario.initialized)
    as (Himagery & Hheat).
  destruct (Himagery Hkey) as (_ & Hset & _ & Hback).
  split; [|split].
  - rewrite (proj1 (Hset true _ Hk)). reflexivity.
  - exact (Hback true _ Hk).
  - exact (proj1 (proj2 (Hheat true))).
Defined.

Lemma rebuildAll_insert d m key layer :
  m !! key = Some layer ->
  forall b new,
    rebuildAll d m !! key = Some new ->
    rebuildAll d (<[key := setOnMap b layer]> m)
    = <[key := setOnMap b new]> (rebuildAll d m).
Proof.
  intros Hk b new Hnew. apply map_eq. intros k.
  destruct (decide (key = k)) as [<-|Hne].
  - rewrite lookup_insert_eq.
    destruct (layer_key_cases key) as [[cfg Hin]|Hnot].
    + rewrite (rebuildAll_lookup d m key cfg), Hk in Hnew by assumption.
      rewrite (rebuildAll_lookup _ _ key cfg) by assumption.
      rewrite lookup_insert_eq. injection Hnew as <-.
      destruct b; reflexivity.
    + rewrite (rebuildAll_lookup_other d m), Hk in Hnew by assumption.
      rewrite rebuildAll_lookup_other by assumption.
      rewrite lookup_insert_eq. congruence.
  - rewrite lookup_insert_ne by assumption.
    destruct (layer_key_cases k) as [[cfg Hin]|Hnot].
    + rewrite !(rebuildAll_lookup _ _ k cfg) by assumption.
      rewrite lookup_insert_ne by assumption. reflexivity.
    + rewrite !rebuildAll_lookup_other by assumption.
      apply lookup_insert_ne. assumption.
Qed.

(** X7.  With the tile sources of [d] building, toggling a layer and
    changing the date commute: whichever comes first, the end state is the
    same, so a toggle made before a date change is kept by it and a toggle
    made after it acts on the rebuilt layer. *)
Theorem layerToggle_setDate_commute throws key checked d s :
  buildsSucceed throws d ->
  exec (layerToggle key checked;; updateGIBSLayersWithDate throws d) s
  = exec (updateGIBSLayersWithDate throws d;; layerToggle key checked) s.
Proof.
  intros Hok.
  set (s2 := set_activeLayers (rebuildAll d) (set_currentDate (Some d) s)).
  assert (Hright : exec (updateGIBSLayersWithDate throws d;; layerToggle key checked) s
                   = exec (layerToggle key checked) s2).
  { rewrite (exec_bind_normal (updateGIBSLayersWithDate throws d) _ s tt)
      by (unfold completion; rewrite updateGIBSLayersWithDate_ok by assumption;
          reflexivity).
    unfold exec at 2. rewrite updateGIBSLayersWithDate_ok by assumption.
    reflexivity. }
  rewrite Hright.
  destruct (decide (key = "analysisHeat")) as [->|Hkey].
  { rewrite (exec_bind_normal (layerToggle "analysisHeat" checked) _ s tt)
      by reflexivity.
    unfold exec. rewrite !layerToggle_heat, !heatToggle_run. cbn [snd].
    rewrite updateGIBSLayersWithDate_ok by assumption. reflexivity. }
  destruct (activeLayers s !! key) as [layer|] eqn:Hk.
  - rewrite (exec_bind_normal (layerToggle key checked) _ s tt)
      by (unfold completion; erewrite layerToggle_present by eassumption;
          reflexivity).
    unfold exec at 2. erewrite layerToggle_present by eassumption. cbn [snd].
    unfold exec. rewrite updateGIBSLayersWithDate_ok by assumption.
    assert (Hsome : is_Some (rebuildAll d (activeLayers s) !! key))
      by (apply rebuildAll_is_Some; eauto).
    destruct Hsome as [new Hnew].
    erewrite (layerToggle_present key checked s2 new) by (assumption || exact Hnew).
    cbn. unfold s2, set_activeLayers, set_currentDate; cbn.
    rewrite (rebuildAll_insert d _ key layer Hk checked new Hnew). reflexivity.
  - rewrite (exec_bind_normal (layerToggle key checked) _ s tt)
      by (unfold completion; rewrite layerToggle_absent by assumption;
          reflexivity).
    unfold exec. rewrite (layerToggle_absent key checked s) by assumption. cbn [snd].
    rewrite updateGIBSLayersWithDate_ok by assumption.
    rewrite layerToggle_absent; [reflexivity | assumption |]. cbn.
    apply eq_None_not_Some. rewrite rebuildAll_is_Some, Hk.
    apply is_Some_None.
Qed.

Lemma layerToggle_setDate_commute_witness :
  buildsSucceed Scenario.neverThrows "2024-03-01" /\
  exec (layerToggle "vegetation" true;;
        updateGIBSLayersWithDate Scenario.neverThrows "2024-03-01")
       Scenario.initialized
  = exec (updateGIBSLayersWithDate Scenario.neverThrows "2024-03-01";;
          layerToggle "vegetation" true)
         Scenario.initialized.
Proof.
  assert (Hok : buildsSucceed Scenario.neverThrows "2024-03-01")
    by (intros key cfg _; reflexivity).
  split; [exact Hok|].
  apply (layerToggle_setDate_commute Scenario.neverThrows "vegetation" true
           "2024-03-01" Scenario.initialized Hok).
Defined.

(** ** The end-date input *)

(** X8.  On a page with the end-date input, a change to an empty value
    leaves the imagery registry and the current date alone, and a change to
    a non-empty value makes that value the current date, whatever the tile
    builds do; either way the handler returns normally, and the next
    analysis request carries the new value without its dashes as [end] and
    an unchanged [start]. *)
Theorem endDateChange_effect throws value s old :
  end_date (dom s) = Some old ->
  completion (endDateChange throws value) s = Normal tt /\
  (truthy value = false ->
   activeLayers (exec (endDateChange throws value) s) = activeLayers s /\
   currentDate (exec (endDateChange throws value) s) = currentDate s) /\
  (truthy value = true ->
   currentDate (exec (endDateChange throws value) s) = Some value) /\
  p_end (payloadOf (exec (endDateChange throws value) s)) = compactDate (Some value) /\
  p_start (payloadOf (exec (endDateChange throws value) s)) = p_start (payloadOf s) /\
  points (payloadOf (exec (endDateChange throws value) s)) = points (payloadOf s).
Proof.
  intros Hold.
  set (s1 := set_dom (set_end_date (Some value)) s).
  assert (Hrun : endDateChange throws value s
                 = when (truthy value) (updateGIBSLayersWithDate throws value) s1).
  { unfold endDateChange. rewrite run_bind. cbn [get]. rewrite Hold.
    erewrite run_bind_normal by reflexivity. reflexivity. }
  unfold completion, exec. rewrite Hrun.
  destruct (truthy value) eqn:Ht; cbn [when].
  - destruct (setDate_frame throws value s1)
      as (Hc & Hframe & _ & _ & Hdate).
    unfold completion, exec in *.
    destruct Hframe as (Hdrawn & _ & _ & _ & _ & Hdom & _).
    split; [exact Hc|]. split; [discriminate|]. split; [intros _; exact Hdate|].
    unfold payloadOf. cbn [p_end p_start points]. rewrite Hdom, Hdrawn.
    repeat split.
  - split; [reflexivity|]. split; [intros _; split; reflexivity|].
    split; [discriminate|]. repeat split.
Qed.

Lemma endDateChange_effect_witness :
  end_date (dom Scenario.placed3) = Some "2024-01-31" /\
  currentDate (exec (endDateChange Scenario.neverThrows "2024-02-29") Scenario.placed3)
  = Some "2024-02-29" /\
  p_end (payloadOf (exec (endDateChange Scenario.neverThrows "2024-02-29")
                         Scenario.placed3))
  = compactDate (Some "2024-02-29").
Proof.
  assert (Hold : end_date (dom Scenario.placed3) = Some "2024-01-31") by reflexivity.
  split; [exact Hold|].
  destruct (endDateChange_effect Scenario.neverThrows "2024-02-29"
              Scenario.placed3 _ Hold) as (_ & _ & Hdate & Hend & _).
  split; [apply Hdate; reflexivity | exact Hend].
Defined.

(** ** Every way an analysis run can end *)

Lemma analyzePoints_no_results fetch s status statusText data :
  collected (drawnLayers s) <> [] ->
  fetch (payloadOf s) = FetchResponse status statusText (BodyJson data) ->
  response_ok status = true ->
  error_truthy (data_error data) = false ->
  data_results data = None \/ data_results data = Some [] ->
  analyzePoints fetch s = (Normal tt, noResultsRun s).
Proof.
  intros Hne Hfetch Hok Herr Hres.
  rewrite analyzePoints_requesting by assumption.
  unfold try_finally, try_catch. rewrite run_bind, requestScores_run.
  rewrite Hfetch, Hok.
  assert (Hcheck : match data_error data with
                   | Some msg => when (truthy msg) (throw (ErrorMessage msg))
                   | None => mret tt
                   end (requested s) = (Normal tt, requested s)).
  { unfold error_truthy in Herr. destruct (data_error data) as [msg|]; [|reflexivity].
    cbn [when]. rewrite Herr. reflexivity. }
  erewrite run_bind_normal by exact Hcheck.
  destruct Hres as [-> | ->]; reflexivity.
Qed.

Lemma render_frame results s :
  renderFrame s (exec (render results) s).
Proof.
  unfold exec. rewrite render_run.
  assert (Hd : renderFrame s (exec (displayResults results) s)).
  { unfold exec. destruct (recommendations (dom s)) as [c|] eqn:Hc.
    - erewrite displayResults_present by eassumption. repeat split.
    - rewrite displayResults_absent by assumption. repeat split. }
  set (s1 := exec (displayResults results) s) in *.
  assert (Hh : renderFrame s1 (updateAnalysisHeatmap results s1).2).
  { destruct results as [|r rest] eqn:Hres; [repeat split|]. rewrite <- Hres.
    assert (Hne : results <> []) by (rewrite Hres; discriminate).
    destruct (definedTemps results) as [|t ts] eqn:Hts.
    - rewrite updateAnalysisHeatmap_undefined by assumption. repeat split.
    - destruct (tempRange_defined results) as (mn & mx & Hrange & _);
        [rewrite Hts; discriminate|].
      erewrite updateAnalysisHeatmap_defined by eassumption.
      unfold heatmapDrawn.
      destruct (bool_decide (layer_heatmap (dom s1) = Some false)); repeat split. }
  unfold renderFrame in *.
  destruct Hd as (?&?&?&?&?&?&?&?&?&?&?&?), Hh as (?&?&?&?&?&?&?&?&?&?&?&?).
  repeat split; congruence.
Qed.

(** A property that holds of each of the four end states holds of the end
    state of every run, and every run returns normally. *)
Lemma analyzePoints_post (P : State -> Prop) fetch s :
  (collected (drawnLayers s) = [] -> P (emptyRun s)) ->
  (forall e, collected (drawnLayers s) <> [] -> P (failedWith e s)) ->
  (collected (drawnLayers s) <> [] -> P (noResultsRun s)) ->
  (forall results, collected (drawnLayers s) <> [] -> results <> [] ->
     P (renderedRun results s)) ->
  completion (analyzePoints fetch) s = Normal tt /\
  P (exec (analyzePoints fetch) s).
Proof.
  intros Hempty Hfailed Hnone Hrendered. unfold completion, exec.
  destruct (collected (drawnLayers s)) as [|p ps] eqn:Hpts.
  - rewrite analyzePoints_empty by assumption. cbn [fst snd]; split; [reflexivity | auto].
  - assert (Hne : collected (drawnLayers s) <> []) by (rewrite Hpts; discriminate).
    rewrite <- Hpts in *.
    destruct (responseError (fetch (payloadOf s))) as [e|] eqn:Herr.
    { rewrite (analyzePoints_failed fetch s e) by assumption.
      cbn [fst snd]; split; [reflexivity | auto]. }
    unfold responseError in Herr.
    destruct (fetch (payloadOf s)) as [msg|status statusText body] eqn:Hfetch;
      [discriminate|].
    destruct (response_ok status) eqn:Hok; [|discriminate].
    destruct body as [msg|data]; [discriminate|].
    assert (Htruthy : error_truthy (data_error data) = false).
    { unfold error_truthy. destruct (data_error data) as [msg|]; [|reflexivity].
      destruct (truthy msg); [discriminate | reflexivity]. }
    destruct (data_results data) as [[|r rest]|] eqn:Hres.
    + erewrite analyzePoints_no_results by eauto. cbn [fst snd]; split; [reflexivity | auto].
    + erewrite analyzePoints_rendered by (eauto; discriminate).
      cbn [fst snd]; split; [reflexivity|]. apply Hrendered; [assumption | discriminate].
    + erewrite analyzePoints_no_results by eauto. cbn [fst snd]; split; [reflexivity | auto].
Qed.

(** The frame of an analysis run, for every service. *)
Lemma analyzePoints_frame fetch s :
  completion (analyzePoints fetch) s = Normal tt /\
  loading (dom (exec (analyzePoints fetch) s)) = (fun _ => false) <$> loading (dom s) /\
  drawnLayers (exec (analyzePoints fetch) s) = drawnLayers s /\
  nextLayerId (exec (analyzePoints fetch) s) = nextLayerId s /\
  activeLayers (exec (analyzePoints fetch) s) = activeLayers s /\
  currentDate (exec (analyzePoints fetch) s) = currentDate s /\
  start_date (dom (exec (analyzePoints fetch) s)) = start_date (dom s) /\
  end_date (dom (exec (analyzePoints fetch) s)) = end_date (dom s) /\
  selectedPoints (exec (analyzePoints fetch) s) = collected (drawnLayers s).
Proof.
  apply (analyzePoints_post
           (fun s' =>
              loading (dom s') = (fun _ => false) <$> loading (dom s) /\
              drawnLayers s' = drawnLayers s /\
              nextLayerId s' = nextLayerId s /\
              activeLayers s' = activeLayers s /\
              currentDate s' = currentDate s /\
              start_date (dom s') = start_date (dom s) /\
              end_date (dom s') = end_date (dom s) /\
              selectedPoints s' = collected (drawnLayers s))).
  - intros _. cbn. destruct (loading (dom s)); repeat split.
  - intros e _. cbn. destruct (loading (dom s)); repeat split.
  - intros _. cbn. destruct (loading (dom s)); repeat split.
  - intros results _ _. unfold renderedRun.
    destruct (render_frame results (requested s))
      as (Hd & Hn & Hsel & Ha & Hc & _ & _ & Hl & Hs & He & _).
    cbn. rewrite Hd, Hn, Hsel, Ha, Hc, Hl, Hs, He. cbn.
    destruct (loading (dom s)); repeat split.
Qed.

(** X9.  Whatever the scoring service does, an analysis run returns
    normally, ends with the loading indicator hidden, leaves the placed
    markers, the imagery registry, the current date and the two date
    inputs as they were, and ends with [selectedPoints] read afresh from
    the placed markers. *)
Theorem analyzePoints_always fetch s :
  completion (analyzePoints fetch) s = Normal tt /\
  loading (dom (exec (analyzePoints fetch) s)) = (fun _ => false) <$> loading (dom s) /\
  drawnLayers (exec (analyzePoints fetch) s) = drawnLayers s /\
  nextLayerId (exec (analyzePoints fetch) s) = nextLayerId s /\
  activeLayers (exec (analyzePoints fetch) s) = activeLayers s /\
  currentDate (exec (analyzePoints fetch) s) = currentDate s /\
  start_date (dom (exec (analyzePoints fetch) s)) = start_date (dom s) /\
  end_date (dom (exec (analyzePoints fetch) s)) = end_date (dom s) /\
  selectedPoints (exec (analyzePoints fetch) s) = collected (drawnLayers s).
Proof. exact (analyzePoints_frame fetch s). Qed.

(** ** Requests *)

Lemma collected_allTyped layers :
  (forall entry, entry ∈ layers -> truthy (mk_structureType entry.2) = true) ->
  collected layers
  = (fun entry : nat * Marker =>
       {| sp_marker := entry.1; sp_lat := mk_lat entry.2;
          sp_lon := mk_lng entry.2; sp_type := mk_structureType entry.2 |})
      <$> layers.
Proof.
  induction layers as [|entry rest IH]; intros Hall; [reflexivity|].
  unfold collected in *. cbn [omap list_omap fmap list_fmap].
  rewrite (Hall entry) by apply list_elem_of_here.
  cbn. f_equal. apply IH. intros e He. apply Hall, list_elem_of_further, He.
Qed.

(** X10.  A run sends no request when no placed marker has a structure
    type, and exactly one request otherwise, whatever the service answers.
    The request has one point per typed marker; when every marker is typed
    its i-th point is the i-th placed marker's position and type with the
    fixed covariates 0.3, 2000, 1 and 2, and its dates are the two inputs
    without dashes. *)
Theorem analyzePoints_one_request fetch s :
  (collected (drawnLayers s) = [] ->
   requests (exec (analyzePoints fetch) s) = requests s) /\
  (collected (drawnLayers s) <> [] ->
   requests (exec (analyzePoints fetch) s) = requests s ++ [payloadOf s]) /\
  length (points (payloadOf s)) = length (collected (drawnLayers s)) /\
  (allTyped s ->
   length (points (payloadOf s)) = length (drawnLayers s) /\
   forall i id marker, drawnLayers s !! i = Some (id, marker) ->
     points (payloadOf s) !! i
     = Some {| pp_lat := mk_lat marker; pp_lon := mk_lng marker;
               pp_type := mk_structureType marker; pp_ndvi := 3 # 10;
               pp_population := 2000; pp_road_km := 1; pp_water_km := 2 |}) /\
  p_start (payloadOf s) = compactDate (start_date (dom s)) /\
  p_end (payloadOf s) = compactDate (end_date (dom s)).
Proof.
  split; [|split; [|split; [|split; [|split; reflexivity]]]].
  - intros Hnil. unfold exec. rewrite analyzePoints_empty by assumption.
    reflexivity.
  - intros Hne.
    apply (analyzePoints_post
             (fun s' => requests s' = requests s ++ [payloadOf s]) fetch s);
      try (intros; reflexivity).
    + intros Hnil. congruence.
    + intros results _ _. unfold renderedRun.
      destruct (render_frame results (requested s)) as (_&_&_&_&_&_&Hreq&_).
      cbn. rewrite Hreq. reflexivity.
  - unfold payloadOf. cbn. apply length_fmap.
  - intros Hall. unfold payloadOf. cbn [points].
    rewrite (collected_allTyped _ Hall). split.
    + rewrite !length_fmap. reflexivity.
    + intros i id marker Hi. rewrite !list_lookup_fmap, Hi. reflexivity.
Qed.

Lemma analyzePoints_one_request_witness :
  collected (drawnLayers Scenario.placed3) <> [] /\
  allTyped Scenario.placed3 /\
  requests (exec (analyzePoints Scenario.serverError) Scenario.placed3)
  = requests Scenario.placed3 ++ [payloadOf Scenario.placed3] /\
  length (points (payloadOf Scenario.placed3)) = length (drawnLayers Scenario.placed3).
Proof.
  assert (Hne : collected (drawnLayers Scenario.placed3) <> [])
    by (vm_compute; discriminate).
  assert (Hall : allTyped Scenario.placed3).
  { unfold allTyped. apply Forall_forall. vm_compute. repeat constructor. }
  split; [exact Hne|]. split; [exact Hall|].
  destruct (analyzePoints_one_request Scenario.serverError Scenario.placed3)
    as (_ & Hone & _ & Hpts & _).
  split; [exact (Hone Hne) | exact (proj1 (Hpts Hall))].
Defined.

(** ** Answers without results, and failures *)

(** X11.  A 2xx answer without a truthy [error] whose [results] are missing
    or empty makes the run show the no-results message and nothing else:
    rows, circles, the stored result array and the console are as before,
    and no failure is reported. *)
Theorem analyzePoints_no_results_keeps_render fetch s status statusText data :
  collected (drawnLayers s) <> [] ->
  fetch (payloadOf s) = FetchResponse status statusText (BodyJson data) ->
  response_ok status = true ->
  error_truthy (data_error data) = false ->
  data_results data = None \/ data_results data = Some [] ->
  alerts (exec (analyzePoints fetch) s) = alerts s ++ [noResults] /\
  console (exec (analyzePoints fetch) s) = console s /\
  recommendations (dom (exec (analyzePoints fetch) s)) = recommendations (dom s) /\
  heatLayer (exec (analyzePoints fetch) s) = heatLayer s /\
  layer_heatmap (dom (exec (analyzePoints fetch) s)) = layer_heatmap (dom s) /\
  analysisResults (exec (analyzePoints fetch) s) = analysisResults s.
Proof.
  intros Hne Hfetch Hok Herr Hres. unfold exec.
  erewrite analyzePoints_no_results by eassumption. repeat split.
Qed.

Lemma analyzePoints_no_results_keeps_render_witness :
  collected (drawnLayers Scenario.analyzed3) <> [] /\
  alerts (exec (analyzePoints (Scenario.serves [])) Scenario.analyzed3)
  = alerts Scenario.analyzed3 ++ [noResults] /\
  recommendations (dom (exec (analyzePoints (Scenario.serves [])) Scenario.analyzed3))
  = recommendations (dom Scenario.analyzed3).
Proof.
  assert (Hne : collected (drawnLayers Scenario.analyzed3) <> [])
    by (vm_compute; discriminate).
  split; [exact Hne|].
  destruct (analyzePoints_no_results_keeps_render (Scenario.serves [])
              Scenario.analyzed3 200%Z "OK"
              {| data_error := None; data_results := Some [] |}
              Hne eq_refl eq_refl eq_refl (or_intror eq_refl))
    as (Halert & _ & Hrows & _).
  split; [exact Halert | exact Hrows].
Defined.

(** X12.  A run that fails reports its cause once in an alert and once on
    the console, and leaves rows, circles and the stored result array as
    they were: a rejected [fetch] and a body that is not JSON fail the run
    like a bad status or a truthy [error] do, and the cause carried is,
    respectively, the rejection, the parse error, the status with its text,
    and the [error] string of the body. *)
Theorem analyzePoints_failure_cause fetch s e :
  collected (drawnLayers s) <> [] ->
  ((exists msg, fetch (payloadOf s) = FetchFails msg /\ e = FetchRejected msg) \/
   (exists status statusText body,
      fetch (payloadOf s) = FetchResponse status statusText body /\
      response_ok status = false /\ e = ServerReturned status statusText) \/
   (exists status statusText msg,
      fetch (payloadOf s) = FetchResponse status statusText (BodyMalformed msg) /\
      response_ok status = true /\ e = JsonSyntaxError msg) \/
   (exists status statusText data msg,
      fetch (payloadOf s) = FetchResponse status statusText (BodyJson data) /\
      response_ok status = true /\ data_error data = Some msg /\
      truthy msg = true /\ e = ErrorMessage msg)) ->
  alerts (exec (analyzePoints fetch) s) = alerts s ++ [AlertAnalysisFailed e] /\
  console (exec (analyzePoints fetch) s)
  = console s ++ [ConsoleError "Analysis error:" e] /\
  recommendations (dom (exec (analyzePoints fetch) s)) = recommendations (dom s) /\
  heatLayer (exec (analyzePoints fetch) s) = heatLayer s /\
  analysisResults (exec (analyzePoints fetch) s) = analysisResults s.
Proof.
  intros Hne Hcause.
  assert (Herr : responseError (fetch (payloadOf s)) = Some e).
  { unfold responseError.
    destruct Hcause as [(msg & -> & ->)
                       |[(st & txt & body & -> & Hok & ->)
                        |[(st & txt & msg & -> & Hok & ->)
                         |(st & txt & data & msg & -> & Hok & Hmsg & Ht & ->)]]].
    - reflexivity.
    - rewrite Hok. reflexivity.
    - rewrite Hok. reflexivity.
    - rewrite Hok, Hmsg, Ht. reflexivity. }
  unfold exec. rewrite (analyzePoints_failed fetch s e) by assumption.
  repeat split.
Qed.

Lemma analyzePoints_failure_cause_witness :
  collected (drawnLayers Scenario.analyzed3) <> [] /\
  alerts (exec (analyzePoints (fun _ => FetchFails "offline")) Scenario.analyzed3)
  = alerts Scenario.analyzed3 ++ [AlertAnalysisFailed (FetchRejected "offline")] /\
  recommendations
    (dom (exec (analyzePoints (fun _ => FetchFails "offline")) Scenario.analyzed3))
  = recommendations (dom Scenario.analyzed3).
Proof.
  assert (Hne : collected (drawnLayers Scenario.analyzed3) <> [])
    by (vm_compute; discriminate).
  split; [exact Hne|].
  destruct (analyzePoints_failure_cause (fun _ => FetchFails "offline")
              Scenario.analyzed3 (FetchRejected "offline") Hne
              (or_introl (ex_intro _ "offline" (conj eq_refl eq_refl))))
    as (Halert & _ & Hrows & _).
  split; [exact Halert | exact Hrows].
Defined.

(** ** A run that renders *)

(** X13.  On a page with the results container, a run that gets a 2xx
    answer without a truthy [error] and with a non-empty result array
    replaces whatever was rendered before: the rows are exactly one per
    result, each carrying the score and position of the result at its
    index, the stored array is the new array, the circles are those of the
    new results with a temperature, and no alert is shown.  Each row is
    labelled with the type of the element of [selectedPoints] at its index,
    as the run leaves [selectedPoints], or [Unknown] when there is none. *)
Theorem analyzePoints_replaces_render fetch s status statusText data results c :
  collected (drawnLayers s) <> [] ->
  fetch (payloadOf s) = FetchResponse status statusText (BodyJson data) ->
  response_ok status = true ->
  error_truthy (data_error data) = false ->
  data_results data = Some results ->
  results <> [] ->
  recommendations (dom s) = Some c ->
  shownRows (exec (analyzePoints fetch) s)
  = rowsFor (selectedPoints (exec (analyzePoints fetch) s)) results /\
  length (shownRows (exec (analyzePoints fetch) s)) = length results /\
  analysisResults (exec (analyzePoints fetch) s) = Some results /\
  circlePosition <$> shownCircles (exec (analyzePoints fetch) s)
  = resultPosition <$> withTemp results /\
  alerts (exec (analyzePoints fetch) s) = alerts s /\
  (forall i row, shownRows (exec (analyzePoints fetch) s) !! i = Some row ->
     exists r, results !! i = Some r /\ row_score row = r_score r /\
       row_lat row = r_lat r /\ row_lon row = r_lon r /\
       row_structureType row
       = from_option sp_type "Unknown"
           (selectedPoints (exec (analyzePoints fetch) s) !! i)).
Proof.
  intros Hne Hfetch Hok Herr Hres Hresne Hc.
  assert (Hrun : exec (analyzePoints fetch) s = renderedRun results s)
    by (unfold exec at 1; erewrite analyzePoints_rendered by eassumption;
        reflexivity).
  assert (Hsel : selectedPoints (exec (analyzePoints fetch) s)
                 = collected (drawnLayers s))
    by apply analyzePoints_frame.
  assert (Hrows : shownRows (exec (analyzePoints fetch) s)
                  = rowsFor (collected (drawnLayers s)) results).
  { rewrite Hrun. unfold renderedRun.
    change (shownRows (exec (render results) (requested s))
            = rowsFor (collected (drawnLayers s)) results).
    rewrite (render_rows results (requested s) c) by exact Hc. reflexivity. }
  rewrite Hsel. split; [exact Hrows|]. rewrite Hrows.
  split; [apply length_imap|]. split; [|split; [|split]].
  - rewrite Hrun. unfold renderedRun.
    change (analysisResults (exec (render results) (requested s)) = Some results).
    unfold exec. rewrite render_run.
    assert (Hstored : analysisResults (exec (displayResults results) (requested s))
                      = Some results)
      by (unfold exec; erewrite displayResults_present by exact Hc; reflexivity).
    set (s1 := exec (displayResults results) (requested s)) in *.
    destruct (definedTemps results) as [|t ts] eqn:Hts.
    + rewrite updateAnalysisHeatmap_undefined by assumption. exact Hstored.
    + destruct (tempRange_defined results) as (mn & mx & Hrange & _);
        [rewrite Hts; discriminate|].
      erewrite updateAnalysisHeatmap_defined by eassumption.
      unfold heatmapDrawn.
      destruct (bool_decide (layer_heatmap (dom s1) = Some false)); exact Hstored.
  - rewrite Hrun. unfold renderedRun.
    change (circlePosition <$> shownCircles (exec (render results) (requested s))
            = resultPosition <$> withTemp results).
    unfold exec. rewrite render_run. apply (updateAnalysisHeatmap_effect results).
  - rewrite Hrun. unfold renderedRun.
    destruct (render_frame results (requested s)) as (_&_&_&_&_&Halerts&_).
    cbn. rewrite Halerts. reflexivity.
  - intros i row Hrow. rewrite rowsFor_lookup in Hrow.
    destruct (results !! i) as [r|] eqn:Hr; [|discriminate].
    injection Hrow as <-. exists r. repeat split.
Qed.

Lemma analyzePoints_replaces_render_witness :
  collected (drawnLayers Scenario.analyzed3) <> [] /\
  shownRows (exec (analyzePoints (Scenario.serves Scenario.results1))
                  Scenario.analyzed3)
  = rowsFor (selectedPoints (exec (analyzePoints (Scenario.serves Scenario.results1))
                                  Scenario.analyzed3))
            Scenario.results1 /\
  analysisResults (exec (analyzePoints (Scenario.serves Scenario.results1))
                        Scenario.analyzed3)
  = Some Scenario.results1.
Proof.
  assert (Hne : collected (drawnLayers Scenario.analyzed3) <> [])
    by (vm_compute; discriminate).
  split; [exact Hne|].
  assert (Hc : exists c, recommendations (dom Scenario.analyzed3) = Some c)
    by (vm_compute; eexists; reflexivity).
  destruct Hc as [c Hc].
  destruct (analyzePoints_replaces_render (Scenario.serves Scenario.results1)
              Scenario.analyzed3 200%Z "OK"
              {| data_error := None; data_results := Some Scenario.results1 |}
              Scenario.results1 c Hne eq_refl eq_refl eq_refl eq_refl
              ltac:(discriminate) Hc)
    as (Hrows & _ & Hstored & _).
  split; [exact Hrows | exact Hstored].
Defined.

(** ** The heat-map box and the heat group *)

Lemma updateAnalysisHeatmap_sync results s :
  heatInSync s -> heatInSync (exec (updateAnalysisHeatmap results) s).
Proof.
  intros Hsync. unfold exec.
  destruct results as [|r rest] eqn:Hres; [exact Hsync|]. rewrite <- Hres.
  assert (Hne : results <> []) by (rewrite Hres; discriminate).
  destruct (definedTemps results) as [|t ts] eqn:Hts.
  - rewrite updateAnalysisHeatmap_undefined by assumption. exact Hsync.
  - destruct (tempRange_defined results) as (mn & mx & Hrange & _);
      [rewrite Hts; discriminate|].
    erewrite updateAnalysisHeatmap_defined by eassumption.
    unfold heatmapDrawn.
    destruct (bool_decide (layer_heatmap (dom s) = Some false)) eqn:Hbox.
    + intros checked. cbn. congruence.
    + exact Hsync.
Qed.

(** X14.  Toggling the heat-map box leaves the box and the attachment of
    the heat group in agreement, and every other operation keeps them in
    agreement once they are: displaying results, updating the heat map
    (which checks the box and attaches the group together), clearing all
    markers, and a whole analysis run whatever the service answers. *)
Theorem heat_checkbox_in_sync s :
  (forall checked, heatInSync (exec (heatToggle checked) s)) /\
  (heatInSync s ->
   (forall results, heatInSync (exec (displayResults results) s)) /\
   (forall results, heatInSync (exec (updateAnalysisHeatmap results) s)) /\
   heatInSync (exec clearAllMarkers s) /\
   (forall fetch, heatInSync (exec (analyzePoints fetch) s))).
Proof.
  split.
  - intros checked b. unfold exec, heatToggle.
    erewrite run_bind_normal by reflexivity. cbn.
    destruct (layer_heatmap (dom s)); cbn; congruence.
  - intros Hsync. split; [|split; [|split]].
    + intros results b.
      destruct (displayResults_frame results s) as (-> & -> & _). apply Hsync.
    + intros results. apply updateAnalysisHeatmap_sync, Hsync.
    + intros b. unfold exec, clearAllMarkers.
      erewrite run_bind_normal by reflexivity.
      erewrite run_bind_normal by reflexivity.
      rewrite run_bind. cbn [get]. cbn.
      destruct (recommendations (dom s)) as [c|]; cbn;
        erewrite run_bind_normal by reflexivity; cbn; apply Hsync.
    + intros fetch.
      apply (analyzePoints_post heatInSync fetch s); try (intros; exact Hsync).
      intros results _ _. unfold renderedRun.
      assert (Hr : heatInSync (exec (render results) (requested s))).
      { unfold exec. rewrite render_run. apply updateAnalysisHeatmap_sync.
        intros b. destruct (displayResults_frame results (requested s)) as (-> & -> & _).
        apply Hsync. }
      exact Hr.
Qed.

Lemma heat_checkbox_in_sync_witness :
  heatInSync Scenario.placed3 /\
  heatInSync (exec (analyzePoints (Scenario.serves Scenario.results3))
                   Scenario.placed3) /\
  layer_heatmap (dom Scenario.analyzed3) = Some true.
Proof.
  assert (Hsync : heatInSync Scenario.placed3)
    by (intros b Hb; vm_compute in Hb; injection Hb as <-; reflexivity).
  split; [exact Hsync|]. split; [|reflexivity].
  exact (proj2 (proj2 (proj2 (proj2 (heat_checkbox_in_sync Scenario.placed3) Hsync)))
           (Scenario.serves Scenario.results3)).
Defined.

(** ** Detail view after a render *)

(** X15.  After a result array is displayed on a page with the results
    container and the modal, opening the detail view at an index of the
    array shows the modal with the detail of the result at that index of
    the array just displayed, whatever array was stored before, and the
    detail agrees with the row of the same index on structure type, title,
    score, score colour, position, temperature and precipitation. *)
Theorem detail_matches_row results s c m b index result :
  recommendations (dom s) = Some c ->
  rec_modal (dom s) = Some m ->
  rec_body (dom s) = Some b ->
  results !! index = Some result ->
  completion (displayResults results;; showDetailedAnalysis index) s = Normal tt /\
  rec_modal (dom (exec (displayResults results;; showDetailedAnalysis index) s))
  = Some true /\
  exists row detail,
    shownRows (exec (displayResults results;; showDetailedAnalysis index) s) !! index
    = Some row /\
    shownDetail (exec (displayResults results;; showDetailedAnalysis index) s)
    = Some detail /\
    detail = renderDetail (selectedPoints s) result index /\
    d_structureType detail = row_structureType row /\
    d_title detail = row_title row /\
    d_score detail = row_score row /\
    d_scoreColor detail = row_scoreColor row /\
    d_lat detail = row_lat row /\ d_lon detail = row_lon row /\
    d_meanTemp detail = row_temp row /\ d_meanPrecip detail = row_precip row.
Proof.
  intros Hc Hm Hb Hres.
  set (s1 := set_dom (set_recommendations
                        (Some {| c_heading := true;
                                 c_rows := rowsFor (selectedPoints s) results |}))
                     (set_analysisResults (Some results) s)).
  assert (Hrun : (displayResults results;; showDetailedAnalysis index) s
                 = (Normal tt,
                    set_dom (set_rec_modal (Some true))
                      (set_dom (set_rec_body
                                  (Some (Some (renderDetail (selectedPoints s) result index))))
                               s1))).
  { erewrite run_bind_normal by (eapply displayResults_present; exact Hc).
    fold s1.
    erewrite (showDetailedAnalysis_shown index s1 result m b);
      [reflexivity | unfold resultAt; cbn; exact Hres | exact Hm | exact Hb]. }
  unfold completion, exec. rewrite Hrun. cbn [fst snd].
  split; [reflexivity|]. split; [reflexivity|].
  exists (renderRow (selectedPoints s) result index),
         (renderDetail (selectedPoints s) result index).
  split; [unfold shownRows; cbn; rewrite rowsFor_lookup, Hres; reflexivity|].
  repeat split.
Qed.

Lemma detail_matches_row_witness :
  Scenario.results1 !! 0 = Some (Scenario.result 1 2 80 None) /\
  shownDetail (exec (displayResults Scenario.results1;; showDetailedAnalysis 0)
                    Scenario.analyzed3)
  = Some (renderDetail (selectedPoints Scenario.analyzed3)
                       (Scenario.result 1 2 80 None) 0).
Proof.
  split; [reflexivity|].
  assert (Hc : exists c, recommendations (dom Scenario.analyzed3) = Some c)
    by (vm_compute; eexists; reflexivity).
  assert (Hm : exists m, rec_modal (dom Scenario.analyzed3) = Some m)
    by (vm_compute; eexists; reflexivity).
  assert (Hb : exists b, rec_body (dom Scenario.analyzed3) = Some b)
    by (vm_compute; eexists; reflexivity).
  destruct Hc as [c Hc], Hm as [m Hm], Hb as [b Hb].
  destruct (detail_matches_row Scenario.results1 Scenario.analyzed3 c m b 0
              (Scenario.result 1 2 80 None) Hc Hm Hb eq_refl)
    as (_ & _ & row & detail & _ & Hdetail & -> & _).
  exact Hdetail.
Defined.

(** X16.  A run that finds no typed structure empties [selectedPoints]
    while keeping the stored result array, so a detail opened afterwards
    for a stored result is labelled [Unknown], whatever type its row
    shows. *)
Theorem empty_run_unlabels_details fetch s index result m b :
  collected (drawnLayers s) = [] ->
  resultAt s index = Some result ->
  rec_modal (dom s) = Some m ->
  rec_body (dom s) = Some b ->
  shownRows (exec (analyzePoints fetch;; showDetailedAnalysis index) s) = shownRows s /\
  shownDetail (exec (analyzePoints fetch;; showDetailedAnalysis index) s)
  = Some (renderDetail [] result index) /\
  d_structureType (renderDetail [] result index) = "Unknown".
Proof.
  intros Hnil Hres Hm Hb.
  assert (Hrun : (analyzePoints fetch;; showDetailedAnalysis index) s
                 = showDetailedAnalysis index (emptyRun s))
    by (erewrite run_bind_normal by (apply analyzePoints_empty; exact Hnil);
        reflexivity).
  unfold exec. rewrite Hrun.
  erewrite (showDetailedAnalysis_shown index (emptyRun s) result m b);
    [| exact Hres | exact Hm | exact Hb].
  cbn. rewrite Hnil. repeat split.
Qed.

Lemma empty_run_unlabels_details_witness :
  collected (drawnLayers Scenario.emptied3) = [] /\
  resultAt Scenario.emptied3 0 = Some (Scenario.result 1 2 80 (Some 30%Q)) /\
  shownDetail (exec (analyzePoints Scenario.serverError;; showDetailedAnalysis 0)
                    Scenario.emptied3)
  = Some (renderDetail [] (Scenario.result 1 2 80 (Some 30%Q)) 0).
Proof.
  assert (Hnil : collected (drawnLayers Scenario.emptied3) = [])
    by (vm_compute; reflexivity).
  assert (Hres : resultAt Scenario.emptied3 0
                 = Some (Scenario.result 1 2 80 (Some 30%Q)))
    by (vm_compute; reflexivity).
  split; [exact Hnil|]. split; [exact Hres|].
  assert (Hm : exists m, rec_modal (dom Scenario.emptied3) = Some m)
    by (vm_compute; eexists; reflexivity).
  assert (Hb : exists b, rec_body (dom Scenario.emptied3) = Some b)
    by (vm_compute; eexists; reflexivity).
  destruct Hm as [m Hm], Hb as [b Hb].
  exact (proj1 (proj2 (empty_run_unlabels_details Scenario.serverError
                         Scenario.emptied3 0 _ m b Hnil Hres Hm Hb))).
Defined.

(** ** Heat colours *)











(** ** Score colours *)

(** X19.  The score colour of a row and of a detail is green from 70,
    amber from 50 and below 70, and red below 50, and the recommendation
    text of the detail always belongs to the same band as its colour. *)
Theorem scoreColor_bands (score : Q) :
  (scoreColor score = green <-> 70 <= score)%Q /\
  (scoreColor score = amber <-> 50 <= score /\ score < 70)%Q /\
  (scoreColor score = red <-> score < 50)%Q /\
  (scoreColor score = green <->
   recommendationText score
   = "Excellent location for infrastructure. High suitability based on climate and accessibility factors.") /\
  (scoreColor score = amber <->
   recommendationText score
   = "Moderate suitability. Consider additional site assessments and potential improvements.") /\
  (scoreColor score = red <->
   recommendationText score
   = "Low suitability. This location may face significant challenges. Consider alternative sites.").
Proof.
  unfold scoreColor, recommendationText, green, amber, red.
  destruct (Qle_bool 70 score) eqn:H70.
  { apply Qle_bool_iff in H70.
    repeat split; intros; try discriminate; try reflexivity; lra. }
  assert (H70' : (score < 70)%Q).
  { apply Qnot_le_lt. intros Hle. apply Qle_bool_iff in Hle. congruence. }
  destruct (Qle_bool 50 score) eqn:H50.
  { apply Qle_bool_iff in H50.
    repeat split; intros; try discriminate; try reflexivity; lra. }
  assert (H50' : (score < 50)%Q).
  { apply Qnot_le_lt. intros Hle. apply Qle_bool_iff in Hle. congruence. }
  repeat split; intros; try discriminate; try reflexivity; lra.
Qed.

(** ** Compact dates *)

Lemma removeDashes_cons (c : ascii) (rest : string) :
  removeDashes (String c rest)
  = if Ascii.eqb c "-" then removeDashes rest else String c (removeDashes rest).
Proof. reflexivity. Qed.

Lemma removeDashes_app (a b : string) :
  removeDashes (a +:+ b) = removeDashes a +:+ removeDashes b.
Proof.
  induction a as [|c a IH]; [reflexivity|].
  change (String c a +:+ b) with (String c (a +:+ b)).
  rewrite !removeDashes_cons.
  destruct (Ascii.eqb c "-"); [exact IH|].
  change (String c (removeDashes a) +:+ removeDashes b)
    with (String c (removeDashes a +:+ removeDashes b)).
  f_equal. exact IH.
Qed.

Lemma removeDashes_dashFree (v : string) : dashFree v -> removeDashes v = v.
Proof.
  unfold dashFree. induction v as [|c v IH]; [reflexivity|].
  change (list_ascii_of_string (String c v)) with (c :: list_ascii_of_string v).
  rewrite removeDashes_cons. intros Hfree.
  destruct (Ascii.eqb c "-") eqn:Hc.
  - apply Ascii.eqb_eq in Hc. subst c. exfalso. apply Hfree, list_elem_of_here.
  - f_equal. apply IH. intros Hin. apply Hfree, list_elem_of_further, Hin.
Qed.

Lemma removeDashes_clean (v : string) : dashFree (removeDashes v).
Proof.
  unfold dashFree. induction v as [|c v IH]; [apply not_elem_of_nil|].
  rewrite removeDashes_cons. destruct (Ascii.eqb c "-") eqn:Hc; [exact IH|].
  change (list_ascii_of_string (String c (removeDashes v)))
    with (c :: list_ascii_of_string (removeDashes v)).
  intros Hin. apply elem_of_cons in Hin as [Heq|Hin]; [|auto].
  subst c. rewrite Ascii.eqb_refl in Hc. discriminate.
Qed.

(** X20.  The compact date sent in a request never contains a dash; a
    missing input and an empty input both give the empty string; and an
    input of three dash-free parts joined by dashes gives the three parts
    joined without separator. *)
Theorem compactDate_spec :
  (forall input, dashFree (compactDate input)) /\
  compactDate None = EmptyString /\
  compactDate (Some EmptyString) = EmptyString /\
  (forall year month day,
     dashFree year -> dashFree month -> dashFree day ->
     compactDate (Some (year +:+ "-" +:+ month +:+ "-" +:+ day))
     = year +:+ month +:+ day).
Proof.
  split; [|split; [reflexivity|split; [reflexivity|]]].
  - intros [v|]; [|apply not_elem_of_nil]. unfold compactDate.
    destruct (truthy v); [apply removeDashes_clean | apply not_elem_of_nil].
  - intros year month day Hy Hm Hd. unfold compactDate.
    assert (Ht : truthy (year +:+ "-" +:+ month +:+ "-" +:+ day) = true)
      by (destruct year; reflexivity).
    rewrite Ht, !removeDashes_app.
    rewrite (removeDashes_dashFree year), (removeDashes_dashFree month),
      (removeDashes_dashFree day) by assumption.
    reflexivity.
Qed.

Lemma compactDate_spec_witness :
  dashFree "2024" /\ dashFree "01" /\ dashFree "31" /\
  compactDate (Some ("2024" +:+ "-" +:+ "01" +:+ "-" +:+ "31"))
  = "2024" +:+ "01" +:+ "31".
Proof.
  assert (H1 : dashFree "2024") 
    by (unfold dashFree; intros Hin; cbn in Hin; elem_of_cases Hin; discriminate).
  assert (H2 : dashFree "01") 
    by (unfold dashFree; intros Hin; cbn in Hin; elem_of_cases Hin; discriminate).
  assert (H3 : dashFree "31") 
    by (unfold dashFree; intros Hin; cbn in Hin; elem_of_cases Hin; discriminate).
  split; [exact H1|]. split; [exact H2|]. split; [exact H3|].
  exact (proj2 (proj2 (proj2 compactDate_spec)) "2024" "01" "31" H1 H2 H3).
Defined.

(** ** Placed markers *)

Lemma placeStructure_run lat lng structureType s :
  placeStructure lat lng structureType s
  = (Normal tt,
     set_nextLayerId S
       (set_drawnLayers
          (fun l => l ++ [(nextLayerId s,
                           {| mk_lat := lat; mk_lng := lng;
                              mk_structureType := structureType |})]) s)).
Proof. reflexivity. Qed.

Lemma collected_app l1 l2 : collected (l1 ++ l2) = collected l1 ++ collected l2.
Proof. unfold collected. apply omap_app. Qed.

(** X21.  Placing a structure appends one marker under the id that was
    next, and returns normally.  A structure with a non-empty type becomes
    the last point of the next request; a structure placed with an empty
    type is on the map but is never read by an analysis run. *)
Theorem placeStructure_appends lat lng structureType s :
  completion (placeStructure lat lng structureType) s = Normal tt /\
  drawnLayers (exec (placeStructure lat lng structureType) s)
  = drawnLayers s ++ [(nextLayerId s,
                       {| mk_lat := lat; mk_lng := lng;
                          mk_structureType := structureType |})] /\
  (truthy structureType = true ->
   collected (drawnLayers (exec (placeStructure lat lng structureType) s))
   = collected (drawnLayers s) ++ [pointOf (nextLayerId s) lat lng structureType]) /\
  (truthy structureType = false ->
   collected (drawnLayers (exec (placeStructure lat lng structureType) s))
   = collected (drawnLayers s)).
Proof.
  unfold completion, exec. rewrite placeStructure_run. cbn [fst snd].
  split; [reflexivity|]. split; [reflexivity|].
  cbn [drawnLayers set_nextLayerId set_drawnLayers]. rewrite collected_app.
  split; intros Ht; unfold collected at 2; cbn; rewrite Ht; cbn.
  - reflexivity.
  - apply app_nil_r.
Qed.

Lemma placeStructure_appends_witness :
  truthy "park" = true /\
  collected (drawnLayers (exec (placeStructure 7 8 "park") Scenario.placed3))
  = collected (drawnLayers Scenario.placed3)
    ++ [pointOf (nextLayerId Scenario.placed3) 7 8 "park"].
Proof.
  split; [reflexivity|].
  exact (proj1 (proj2 (proj2 (placeStructure_appends 7 8 "park" Scenario.placed3)))
           eq_refl).
Defined.

Lemma removeMarker_run layerId s :
  removeMarker layerId s
  = (Normal tt,
     set_drawnLayers
       (filter (fun entry : nat * Marker => negb (Nat.eqb entry.1 layerId))) s).
Proof. reflexivity. Qed.

Lemma removeMarker_elem layerId (l : list (nat * Marker)) entry :
  entry ∈ filter (fun entry : nat * Marker => negb (Nat.eqb entry.1 layerId)) l
  <-> entry ∈ l /\ entry.1 <> layerId.
Proof.
  rewrite list_elem_of_filter. split; intros [H1 H2]; split; try assumption.
  - intros Heq. rewrite Heq, Nat.eqb_refl in H1. exact H1.
  - apply Is_true_true, negb_true_iff, Nat.eqb_neq. exact H2.
Qed.

Lemma removeMarker_unknown layerId (l : list (nat * Marker)) :
  layerId ∉ l.*1 ->
  filter (fun entry : nat * Marker => negb (Nat.eqb entry.1 layerId)) l = l.
Proof.
  induction l as [|entry rest IH]; intros Hnot; [reflexivity|].
  rewrite filter_cons_True.
  - f_equal. apply IH. intros Hin. apply Hnot. cbn. apply list_elem_of_further, Hin.
  - apply Is_true_true, negb_true_iff, Nat.eqb_neq. intros Heq.
    apply Hnot. cbn. rewrite Heq. apply list_elem_of_here.
Qed.

Lemma collected_marker layers p :
  p ∈ collected layers ->
  exists entry, entry ∈ layers /\ sp_marker p = entry.1.
Proof.
  unfold collected. intros Hin.
  apply list_elem_of_omap in Hin as (entry & Hentry & Hp).
  exists entry. split; [exact Hentry|].
  destruct (truthy (mk_structureType entry.2)); [|discriminate].
  injection Hp as <-. reflexivity.
Qed.

(** X22.  Removing a marker by id returns normally and removes exactly the
    markers with that id: the others stay, in their order; an id that no
    marker has changes nothing.  Whatever the service answers, a later run
    reads no point from a removed marker. *)
Theorem removeMarker_removes layerId s :
  completion (removeMarker layerId) s = Normal tt /\
  (forall entry, entry ∈ drawnLayers (exec (removeMarker layerId) s) <->
                 entry ∈ drawnLayers s /\ entry.1 <> layerId) /\
  drawnLayers (exec (removeMarker layerId) s) `sublist_of` drawnLayers s /\
  (layerId ∉ markerIds s -> exec (removeMarker layerId) s = s) /\
  (forall fetch p,
     p ∈ selectedPoints (exec (removeMarker layerId;; analyzePoints fetch) s) ->
     sp_marker p <> layerId).
Proof.
  unfold completion, exec. rewrite removeMarker_run. cbn [fst snd].
  split; [reflexivity|]. split; [|split; [|split]].
  - intros entry. apply removeMarker_elem.
  - apply sublist_filter.
  - intros Hnot. unfold set_drawnLayers.
    rewrite removeMarker_unknown by exact Hnot. destruct s; reflexivity.
  - intros fetch p.
    erewrite run_bind_normal by apply removeMarker_run.
    destruct (analyzePoints_frame fetch
                (set_drawnLayers
                   (filter (fun entry : nat * Marker => negb (Nat.eqb entry.1 layerId))) s))
      as (_ & _ & _ & _ & _ & _ & _ & _ & Hsel).
    unfold exec in Hsel. rewrite Hsel. cbn [drawnLayers set_drawnLayers].
    intros Hp. apply collected_marker in Hp as (entry & Hentry & ->).
    apply removeMarker_elem in Hentry. apply Hentry.
Qed.

Lemma wellStamped_fresh s : wellStamped s -> nextLayerId s ∉ markerIds s.
Proof.
  intros [Hlt _] Hin. rewrite Forall_forall in Hlt.
  specialize (Hlt _ Hin). lia.
Qed.

(** X23.  The ids of the placed markers stay distinct and below the next
    id through placing, removing, clearing and analysing, starting from the
    empty map; so the id a new marker gets is one no other marker has, and
    removing the marker just placed by that id restores the markers that
    were there before. *)
Theorem marker_ids_stay_distinct s :
  wellStamped initialState /\
  (wellStamped s ->
   (forall lat lng structureType,
      wellStamped (exec (placeStructure lat lng structureType) s)) /\
   (forall layerId, wellStamped (exec (removeMarker layerId) s)) /\
   wellStamped (exec clearAllMarkers s) /\
   (forall fetch, wellStamped (exec (analyzePoints fetch) s)) /\
   (nextLayerId s ∉ markerIds s) /\
   (forall lat lng structureType,
      drawnLayers (exec (placeStructure lat lng structureType;;
                         removeMarker (nextLayerId s)) s)
      = drawnLayers s)).
Proof.
  split; [split; [apply Forall_nil_2 | apply NoDup_nil_2]|].
  intros Hwf. pose proof (wellStamped_fresh s Hwf) as Hfresh.
  destruct Hwf as [Hlt Hnd].
  split; [|split; [|split; [|split; [|split; [exact Hfresh|]]]]].
  - intros lat lng structureType. unfold exec. rewrite placeStructure_run.
    unfold wellStamped, markerIds. cbn. rewrite fmap_app. cbn. split.
    + apply Forall_app. split.
      * eapply Forall_impl; [exact Hlt|]. cbn. intros; lia.
      * apply Forall_singleton. lia.
    + apply NoDup_app. split; [exact Hnd|]. split; [|apply NoDup_singleton].
      intros id Hid Hin. apply list_elem_of_singleton in Hin. subst id.
      apply Hfresh, Hid.
  - intros layerId. unfold exec. rewrite removeMarker_run.
    unfold wellStamped, markerIds. cbn.
    assert (Hsub : (filter (fun entry : nat * Marker => negb (Nat.eqb entry.1 layerId))
                           (drawnLayers s)).*1 `sublist_of` (drawnLayers s).*1)
      by (apply fmap_sublist, sublist_filter).
    split; [|eapply sublist_NoDup; eassumption].
    apply Forall_forall. intros id Hid. rewrite Forall_forall in Hlt.
    apply Hlt. eapply elem_of_sublist; eassumption.
  - destruct (clearAllMarkers_keeps_results s) as (_ & _ & _ & _).
    unfold exec, clearAllMarkers.
    erewrite run_bind_normal by reflexivity.
    erewrite run_bind_normal by reflexivity.
    rewrite run_bind. cbn [get]. cbn.
    destruct (recommendations (dom s)); cbn;
      erewrite run_bind_normal by reflexivity; cbn;
      (split; [apply Forall_nil_2 | apply NoDup_nil_2]).
  - intros fetch.
    destruct (analyzePoints_frame fetch s) as (_ & _ & Hd & Hn & _).
    unfold wellStamped, markerIds. rewrite Hd, Hn. split; assumption.
  - intros lat lng structureType. unfold exec.
    erewrite run_bind_normal by apply placeStructure_run.
    rewrite removeMarker_run. cbn.
    rewrite filter_app, removeMarker_unknown by exact Hfresh.
    rewrite filter_cons_False, filter_nil; [apply app_nil_r|].
    cbn. rewrite Nat.eqb_refl. cbn. auto.
Qed.

Lemma marker_ids_stay_distinct_witness :
  wellStamped Scenario.placed3 /\
  drawnLayers (exec (placeStructure 7 8 "park";;
                     removeMarker (nextLayerId Scenario.placed3)) Scenario.placed3)
  = drawnLayers Scenario.placed3.
Proof.
  assert (Hwf : wellStamped Scenario.placed3).
  { split; [vm_compute; repeat constructor|].
    change (markerIds Scenario.placed3) with [0; 1; 2].
    apply NoDup_cons. split; [intros Hin; elem_of_cases Hin; discriminate|].
    apply NoDup_cons. split; [intros Hin; elem_of_cases Hin; discriminate|].
    apply NoDup_singleton. }
  split; [exact Hwf|].
  exact (proj2 (proj2 (proj2 (proj2 (proj2
          (proj2 (marker_ids_stay_distinct Scenario.placed3) Hwf)))))
          7%Q 8%Q "park").
Defined.

(** ** Placement mode *)

Lemma map_off_self (h : ClickHandler) : map_off (Some h) [h] = [].
Proof.
  unfold map_off. rewrite filter_cons_False, filter_nil; [reflexivity|].
  intros Hne. apply Hne. reflexivity.
Qed.

Lemma mapClicked_placing lat lng p s h :
  placingMode p = true -> clickHandler p = Some h -> mapClickOnce p = [h] ->
  showsIdle (mapClicked lat lng (p, s)).1 /\
  (mapClicked lat lng (p, s)).2 = exec (placeStructure lat lng (ch_structureType h)) s.
Proof.
  intros Hmode Hvar Hreg. unfold mapClicked. cbn [fst]. rewrite Hreg.
  cbn [foldl]. unfold runClickHandler. cbn [fst snd].
  split; [|reflexivity].
  unfold showsIdle, leavePlacing. cbn. rewrite Hvar, Hreg. cbn.
  destruct (decide (ch_id h <> ch_id h)) as [Hne|_];
    [destruct Hne; reflexivity|].
  repeat split.
Qed.

(** X24.  Placement mode, from the state in which it is set up and from
    every state the button and the map can bring it to: (1) the mode is on
    exactly when one click closure is registered on the map, and both the
    button and a map click keep it so; (2) outside placement mode a click
    on the map places nothing and changes nothing; (3) a button click
    followed by a map click places exactly one structure, at the clicked
    position and of the type selected when the button was clicked, and
    leaves placement mode with the button and cursor restored, so that a
    further map click places nothing; (4) a second button click instead
    cancels: placement mode is left and a map click then places nothing. *)
Theorem placement_mode_cycle (p : Placing) (s : State) :
  (forall text, placingInv (placingStart text)) /\
  (placingInv p ->
   (forall selected, placingInv (placeBtnClick selected p)) /\
   (forall lat lng, placingInv (mapClicked lat lng (p, s)).1) /\
   (placingMode p = false ->
    (forall lat lng, mapClicked lat lng (p, s) = (p, s)) /\
    (forall selected lat lng,
       showsIdle (mapClicked lat lng (placeBtnClick selected p, s)).1 /\
       (mapClicked lat lng (placeBtnClick selected p, s)).2
       = exec (placeStructure lat lng selected) s /\
       forall lat' lng',
         mapClicked lat' lng' (mapClicked lat lng (placeBtnClick selected p, s))
         = mapClicked lat lng (placeBtnClick selected p, s)) /\
    (forall selected other lat lng,
       showsIdle (placeBtnClick other (placeBtnClick selected p)) /\
       (mapClicked lat lng (placeBtnClick other (placeBtnClick selected p), s)).2
       = s))).
Proof.
  split; [intros text; left; split; reflexivity|].
  intros Hinv.
  assert (Hidle_click : forall q t lat lng,
            mapClickOnce q = [] -> mapClicked lat lng (q, t) = (q, t)).
  { intros q t lat lng Hnil. unfold mapClicked. cbn [fst]. rewrite Hnil.
    reflexivity. }
  assert (Henter : forall q selected,
            placingMode q = false -> mapClickOnce q = [] ->
            placingMode (placeBtnClick selected q) = true /\
            clickHandler (placeBtnClick selected q)
            = Some {| ch_id := nextClosure q; ch_structureType := selected |} /\
            mapClickOnce (placeBtnClick selected q)
            = [{| ch_id := nextClosure q; ch_structureType := selected |}]).
  { intros q selected Hmode Hnil. unfold placeBtnClick. rewrite Hmode. cbn.
    rewrite Hnil. repeat split. }
  assert (Hcancel : forall q h,
            placingMode q = true -> clickHandler q = Some h ->
            mapClickOnce q = [h] ->
            forall selected, showsIdle (placeBtnClick selected q)).
  { intros q h Hmode Hvar Hreg selected. unfold placeBtnClick. rewrite Hmode.
    unfold showsIdle, leavePlacing. cbn. rewrite Hvar, Hreg, map_off_self.
    repeat split. }
  split; [|split].
  - intros selected. destruct Hinv as [[Hmode Hnil]|(Hmode & h & Hvar & Hreg)].
    + right. destruct (Henter p selected Hmode Hnil) as (H1 & H2 & H3).
      split; [exact H1|]. eexists. split; [exact H2 | exact H3].
    + left. destruct (Hcancel p h Hmode Hvar Hreg selected) as (H1 & H2 & _).
      split; assumption.
  - intros lat lng. destruct Hinv as [[Hmode Hnil]|(Hmode & h & Hvar & Hreg)].
    + rewrite Hidle_click by exact Hnil. left. split; assumption.
    + destruct (mapClicked_placing lat lng p s h Hmode Hvar Hreg)
        as ((H1 & H2 & _) & _).
      left. split; assumption.
  - intros Hmode.
    assert (Hnil : mapClickOnce p = []).
    { destruct Hinv as [[_ Hnil]|(Hmode' & _)]; [exact Hnil | congruence]. }
    split; [|split].
    + intros lat lng. apply Hidle_click, Hnil.
    + intros selected lat lng.
      destruct (Henter p selected Hmode Hnil) as (H1 & H2 & H3).
      destruct (mapClicked_placing lat lng (placeBtnClick selected p) s _ H1 H2 H3)
        as (Hshow & Hplaced).
      split; [exact Hshow|]. split; [exact Hplaced|].
      intros lat' lng'.
      destruct (mapClicked lat lng (placeBtnClick selected p, s)) as [q t] eqn:Hq.
      apply Hidle_click. apply Hshow.
    + intros selected other lat lng.
      destruct (Henter p selected Hmode Hnil) as (H1 & H2 & H3).
      pose proof (Hcancel (placeBtnClick selected p) _ H1 H2 H3 other) as Hshow.
      split; [exact Hshow|].
      rewrite Hidle_click by apply Hshow. reflexivity.
Qed.

Lemma placement_mode_cycle_witness :
  placingInv (placingStart "Click to Place Structure") /\
  placingMode (placingStart "Click to Place Structure") = false /\
  (mapClicked 7 8 (placeBtnClick "park" (placingStart "Click to Place Structure"),
                   Scenario.placed3)).2
  = exec (placeStructure 7 8 "park") Scenario.placed3.
Proof.
  assert (Hinv : placingInv (placingStart "Click to Place Structure"))
    by (left; split; reflexivity).
  split; [exact Hinv|]. split; [reflexivity|].
  destruct (proj2 (placement_mode_cycle (placingStart "Click to Place Structure")
                     Scenario.placed3) Hinv) as (_ & _ & Hidle).
  destruct (Hidle eq_refl) as (_ & Hplace & _).
  exact (proj1 (proj2 (Hplace "park" 7%Q 8%Q))).
Defined.

(** ** Clearing *)

Lemma clearAllMarkers_run s :
  exists s', clearAllMarkers s = (Normal tt, s') /\
    drawnLayers s' = [] /\ selectedPoints s' = [] /\
    shownRows s' = [] /\ shownCircles s' = [] /\
    analysisResults s' = analysisResults s /\
    alerts s' = alerts s /\ requests s' = requests s /\
    activeLayers s' = activeLayers s /\
    layer_heatmap (dom s') = layer_heatmap (dom s) /\
    hl_onMap (heatLayer s') = hl_onMap (heatLayer s).
Proof.
  unfold clearAllMarkers, shownRows, shownCircles.
  erewrite run_bind_normal by reflexivity.
  erewrite run_bind_normal by reflexivity.
  rewrite run_bind. cbn [get]. cbn.
  destruct (recommendations (dom s)) as [c|] eqn:Hc; cbn;
    erewrite run_bind_normal by reflexivity; cbn;
    (eexists; split; [reflexivity|]); cbn; rewrite ?Hc; repeat split.
Qed.

(** X25.  After all markers are cleared the rows and circles are empty, and
    every analysis run started next, whatever the service would answer,
    sends no request, shows the message asking for a structure, and leaves
    the rows and circles empty; clearing touches neither the imagery layers
    nor the heat-map box nor the attachment of the heat group. *)
Theorem clear_then_analyze fetch s :
  completion (clearAllMarkers;; analyzePoints fetch) s = Normal tt /\
  requests (exec (clearAllMarkers;; analyzePoints fetch) s) = requests s /\
  alerts (exec (clearAllMarkers;; analyzePoints fetch) s) = alerts s ++ [pleasePlace] /\
  shownRows (exec (clearAllMarkers;; analyzePoints fetch) s) = [] /\
  shownCircles (exec (clearAllMarkers;; analyzePoints fetch) s) = [] /\
  activeLayers (exec clearAllMarkers s) = activeLayers s /\
  layer_heatmap (dom (exec clearAllMarkers s)) = layer_heatmap (dom s) /\
  hl_onMap (heatLayer (exec clearAllMarkers s)) = hl_onMap (heatLayer s).
Proof.
  destruct (clearAllMarkers_run s)
    as (s' & Hrun & Hd & _ & Hrows & Hcircles & _ & Ha & Hr & Hl & Hbox & Hon).
  unfold completion, exec.
  erewrite run_bind_normal by exact Hrun.
  rewrite analyzePoints_empty by (rewrite Hd; reflexivity).
  rewrite Hrun. cbn [fst snd].
  split; [reflexivity|]. split; [cbn; exact Hr|].
  split; [cbn; rewrite Ha; reflexivity|].
  split; [exact Hrows|]. split; [exact Hcircles|].
  split; [exact Hl|]. split; [exact Hbox | exact Hon].
Qed.

(** ** Initialization with a failing build *)

(** X26.  Initialization never lets an exception out.  When the build of
    one layer throws, the exception is logged, the layers that come before
    it in the order temperature, night lights, vegetation are registered
    for the current date, and the failing layer and the ones after it keep
    whatever the registry held for them: nothing when it was empty. *)
Theorem initializeGIBSLayers_failure throws s pre key cfg post :
  Gibs.layers = pre ++ (key, cfg) :: post ->
  (forall k c, (k, c) ∈ pre ->
     throws (createGIBSTileUrl c (date_text (currentDate s))) = false) ->
  throws (createGIBSTileUrl cfg (date_text (currentDate s))) = true ->
  completion (initializeGIBSLayers throws) s = Normal tt /\
  console (exec (initializeGIBSLayers throws) s)
  = console s ++ [ConsoleError "Error initializing GIBS layers:"
                    (TileLayerError (createGIBSTileUrl cfg (date_text (currentDate s))))] /\
  (forall k c, (k, c) ∈ pre ->
     activeLayers (exec (initializeGIBSLayers throws) s) !! k
     = Some (builtLayer c (date_text (currentDate s))
                        (bool_decide (k = "temperature")))) /\
  (forall k c, (k, c) ∈ (key, cfg) :: post ->
     activeLayers (exec (initializeGIBSLayers throws) s) !! k
     = activeLayers s !! k).
Proof.
  intros Hsplit Hpre Hfail.
  set (d := date_text (currentDate s)) in *.
  assert (Hthrow : forall c t,
            throws (createGIBSTileUrl c d) = true ->
            L_tileLayer throws c d t = (Throw (TileLayerError (createGIBSTileUrl c d)), t)).
  { intros c t Hc. unfold L_tileLayer. rewrite Hc. reflexivity. }
  unfold completion, exec, initializeGIBSLayers, try_catch, Gibs.layers in *.
  rewrite run_bind. cbn [get]. fold d.
  destruct pre as [|[k1 c1] pre]; simplify_eq/=.
  { erewrite run_bind_throw by (apply Hthrow; assumption). cbn.
    split; [reflexivity|]. split; [reflexivity|]. split.
    - intros k c Hin. inversion Hin.
    - intros k c Hin. reflexivity. }
  erewrite run_bind_normal
    by (apply L_tileLayer_ok, (Hpre "temperature"); set_solver).
  erewrite run_bind_normal by reflexivity.
  destruct pre as [|[k2 c2] pre]; simplify_eq/=.
  { erewrite run_bind_throw by (apply Hthrow; assumption). cbn.
    split; [reflexivity|]. split; [reflexivity|]. split.
    - intros k c Hin. apply list_elem_of_singleton in Hin. simplify_eq.
      apply lookup_insert_eq.
    - intros k c Hin. elem_of_cases Hin; simplify_eq;
        apply lookup_insert_ne; discriminate. }
  erewrite run_bind_normal
    by (apply L_tileLayer_ok, (Hpre "nightLights"); set_solver).
  erewrite run_bind_normal by reflexivity.
  destruct pre as [|[k3 c3] pre]; simplify_eq/=.
  { erewrite run_bind_throw by (apply Hthrow; assumption). cbn.
    split; [reflexivity|]. split; [reflexivity|]. split.
    - intros k c Hin. elem_of_cases Hin; simplify_eq.
      + rewrite lookup_insert_ne by discriminate. apply lookup_insert_eq.
      + apply lookup_insert_eq.
    - intros k c Hin. elem_of_cases Hin; simplify_eq.
      rewrite !lookup_insert_ne by discriminate. reflexivity. }
  destruct pre; discriminate.
Qed.

Lemma initializeGIBSLayers_failure_witness :
  Scenario.temperatureFails "null"
    (createGIBSTileUrl Gibs.temperature (date_text (currentDate initialState))) = true /\
  completion (initializeGIBSLayers (Scenario.temperatureFails "null")) initialState
  = Normal tt /\
  (forall k c, (k, c) ∈ Gibs.layers ->
     activeLayers (exec (initializeGIBSLayers (Scenario.temperatureFails "null"))
                        initialState) !! k
     = activeLayers initialState !! k).
Proof.
  assert (Hfail : Scenario.temperatureFails "null"
            (createGIBSTileUrl Gibs.temperature (date_text (currentDate initialState)))
            = true) by reflexivity.
  split; [exact Hfail|].
  destruct (initializeGIBSLayers_failure (Scenario.temperatureFails "null")
              initialState [] "temperature" Gibs.temperature
              [("nightLights", Gibs.nightLights); ("vegetation", Gibs.vegetation)]
              eq_refl
              (fun k c Hin => False_ind _ (not_elem_of_nil _ Hin)) Hfail)
    as (Hc & _ & _ & Hpost).
  split; [exact Hc | exact Hpost].
Defined.

(** ** Opening the detail view *)

(** X27.  Opening the detail view returns normally for every index and
    state and can only write the modal: on a page without the modal or
    without its body nothing changes at all; rows, circles, stored
    results, selected points, placed markers, alerts and requests are never
    touched; and opening the same index twice is the same as opening it
    once. *)
Theorem showDetailedAnalysis_touches_modal_only index s :
  completion (showDetailedAnalysis index) s = Normal tt /\
  (rec_modal (dom s) = None \/ rec_body (dom s) = None ->
   exec (showDetailedAnalysis index) s = s) /\
  recommendations (dom (exec (showDetailedAnalysis index) s)) = recommendations (dom s) /\
  heatLayer (exec (showDetailedAnalysis index) s) = heatLayer s /\
  analysisResults (exec (showDetailedAnalysis index) s) = analysisResults s /\
  selectedPoints (exec (showDetailedAnalysis index) s) = selectedPoints s /\
  drawnLayers (exec (showDetailedAnalysis index) s) = drawnLayers s /\
  alerts (exec (showDetailedAnalysis index) s) = alerts s /\
  requests (exec (showDetailedAnalysis index) s) = requests s /\
  exec (showDetailedAnalysis index;; showDetailedAnalysis index) s
  = exec (showDetailedAnalysis index) s.
Proof.
  unfold completion, exec.
  destruct (resultAt s index) as [result|] eqn:Hres.
  - destruct (rec_modal (dom s)) as [m|] eqn:Hm, (rec_body (dom s)) as [b|] eqn:Hb.
    + assert (Hrun := showDetailedAnalysis_shown index s result m b Hres Hm Hb).
      rewrite Hrun. cbn [fst snd].
      split; [reflexivity|].
      split; [intros [H|H]; discriminate|].
      do 7 (split; [reflexivity|]).
      erewrite run_bind_normal by exact Hrun.
      erewrite showDetailedAnalysis_shown; [reflexivity| exact Hres | reflexivity..].
    + assert (Hrun : showDetailedAnalysis index s = (Normal tt, s)).
      { unfold showDetailedAnalysis, resultAt in *. rewrite run_bind. cbn [get].
        rewrite Hres, Hm, Hb. reflexivity. }
      rewrite Hrun. cbn [fst snd]. repeat split.
      erewrite run_bind_normal by exact Hrun. rewrite Hrun. reflexivity.
    + assert (Hrun : showDetailedAnalysis index s = (Normal tt, s)).
      { unfold showDetailedAnalysis, resultAt in *. rewrite run_bind. cbn [get].
        rewrite Hres, Hm. reflexivity. }
      rewrite Hrun. cbn [fst snd]. repeat split.
      erewrite run_bind_normal by exact Hrun. rewrite Hrun. reflexivity.
    + assert (Hrun : showDetailedAnalysis index s = (Normal tt, s)).
      { unfold showDetailedAnalysis, resultAt in *. rewrite run_bind. cbn [get].
        rewrite Hres, Hm. reflexivity. }
      rewrite Hrun. cbn [fst snd]. repeat split.
      erewrite run_bind_normal by exact Hrun. rewrite Hrun. reflexivity.
  - assert (Hrun := showDetailedAnalysis_no_result index s Hres).
    rewrite Hrun. cbn [fst snd]. repeat split.
    erewrite run_bind_normal by exact Hrun. rewrite Hrun. reflexivity.
Qed.

(** ** The heat map replaces, and never hides *)

Lemma circlesFor_length minTemp maxTemp results :
  length (circlesFor minTemp maxTemp results) <= length results.
Proof.
  unfold circlesFor. induction results as [|r rest IH]; [reflexivity|].
  cbn. destruct (meanTempOf r); cbn; lia.
Qed.

(** X28.  The circles a heat-map update leaves depend on the result array
    alone, not on what was drawn before or on anything else in the state;
    there are never more circles than results; and the update never takes
    the heat group off the map nor unchecks the heat-map box. *)
Theorem updateAnalysisHeatmap_replaces results s1 s2 :
  shownCircles (exec (updateAnalysisHeatmap results) s1)
  = shownCircles (exec (updateAnalysisHeatmap results) s2) /\
  length (shownCircles (exec (updateAnalysisHeatmap results) s1)) <= length results /\
  (hl_onMap (heatLayer s1) = true ->
   hl_onMap (heatLayer (exec (updateAnalysisHeatmap results) s1)) = true) /\
  (layer_heatmap (dom s1) = Some true ->
   layer_heatmap (dom (exec (updateAnalysisHeatmap results) s1)) = Some true).
Proof.
  unfold exec, shownCircles.
  destruct results as [|r rest] eqn:Hres.
  { cbn. repeat split; auto. }
  rewrite <- Hres.
  assert (Hne : results <> []) by (rewrite Hres; discriminate).
  destruct (definedTemps results) as [|t ts] eqn:Hts.
  - rewrite !updateAnalysisHeatmap_undefined by assumption. cbn.
    split; [reflexivity|]. split; [lia | auto].
  - destruct (tempRange_defined results) as (mn & mx & Hrange & _);
      [rewrite Hts; discriminate|].
    rewrite !(updateAnalysisHeatmap_defined results _ mn mx) by assumption.
    unfold heatmapDrawn.
    destruct (bool_decide (layer_heatmap (dom s1) = Some false)) eqn:H1,
             (bool_decide (layer_heatmap (dom s2) = Some false)) eqn:H2; cbn;
      (split; [reflexivity|]); (split; [apply circlesFor_length|]);
      (split; [auto|]); try auto.
    all: apply bool_decide_eq_true_1 in H1; intros Hbox; congruence.
Qed.

(** ** Further concrete instances *)

Lemma removeMarker_removes_witness :
  (7 ∉ markerIds Scenario.placed3) /\
  exec (removeMarker 7) Scenario.placed3 = Scenario.placed3 /\
  length (drawnLayers (exec (removeMarker 1) Scenario.placed3)) = 2.
Proof.
  assert (Hnot : 7 ∉ markerIds Scenario.placed3).
  { change (markerIds Scenario.placed3) with [0; 1; 2].
    intros Hin. elem_of_cases Hin; discriminate. }
  split; [exact Hnot|]. split; [|reflexivity].
  exact (proj1 (proj2 (proj2 (proj2 (removeMarker_removes 7 Scenario.placed3)))) Hnot).
Defined.

Lemma scoreColor_bands_witness :
  (50 <= 60 /\ 60 < 70)%Q /\ scoreColor 60 = amber.
Proof.
  assert (H : (50 <= 60 /\ 60 < 70)%Q) by (split; [discriminate | reflexivity]).
  split; [exact H|].
  exact (proj2 (proj1 (proj2 (scoreColor_bands 60))) H).
Defined.

Lemma showDetailedAnalysis_touches_modal_only_witness :
  (rec_modal (dom initialState) = None \/ rec_body (dom initialState) = None) /\
  exec (showDetailedAnalysis 0) initialState = initialState.
Proof.
  assert (H : rec_modal (dom initialState) = None \/ rec_body (dom initialState) = None)
    by (left; reflexivity).
  split; [exact H|].
  exact (proj1 (proj2 (showDetailedAnalysis_touches_modal_only 0 initialState)) H).
Defined.

Lemma updateAnalysisHeatmap_replaces_witness :
  layer_heatmap (dom Scenario.analyzed3) = Some true /\
  layer_heatmap (dom (exec (updateAnalysisHeatmap Scenario.results1) Scenario.analyzed3))
  = Some true /\
  shownCircles (exec (updateAnalysisHeatmap Scenario.results3) Scenario.analyzed3)
  = shownCircles (exec (updateAnalysisHeatmap Scenario.results3) Scenario.ready).
Proof.
  assert (H : layer_heatmap (dom Scenario.analyzed3) = Some true) by reflexivity.
  split; [exact H|]. split.
  - exact (proj2 (proj2 (proj2 (updateAnalysisHeatmap_replaces Scenario.results1
                                  Scenario.analyzed3 Scenario.ready))) H).
  - exact (proj1 (updateAnalysisHeatmap_replaces Scenario.results3
                    Scenario.analyzed3 Scenario.ready)).
Defined.
